(** * LLM benchmark server: job registries, progress tracker, request
      validation, result sanitisation and the streaming token estimate

    A shallow embedding of the Go sources

      - package [api], the OpenAI streaming client ([estimateTokens],
        [AskOpenAi]),
      - [server/types.go] (requests and results),
      - [server/handlers.go] ([validateBenchmarkRequest], [sanitizeFloat]),
      - [server/simple_job_manager.go] ([SimpleJobManager], [RunBenchmark],
        [SimpleJob.ToJSON] and the sanitisers),
      - [server/progress_tracker.go] ([ProgressTracker]) with the WebSocket
        messages it sends,
      - the [JobManager] of the WebSocket variant ([CreateJob], [StartJob],
        [CancelJob], [executeJob]) and [server/async_handlers.go],

    followed by the properties of the specification that concern them.

    Conventions.  Go [string]s are byte strings and are embedded as
    [String.string]; Go [int] is embedded as [Z], and the results of its
    arithmetic are brought back into 64 bits by [wrap]; Go [float64] is
    the primitive binary64 [float]; [time.Time] and [time.Duration] are [Z]
    nanoseconds; a Go map is a [gmap]; [interface{}] values are the
    inductive [any]; code that can fail returns [result] or an option.
    What the code reads from outside (clock, identifiers drawn, the
    measurement engine, the calls of other goroutines) is a parameter. *)

From Stdlib Require Import ZArith String Ascii List Bool Lia Floats.
From Stdlib Require Import Numbers.DecimalString.
From stdpp Require Import gmap strings list fin_maps.

Open Scope Z_scope.

(* ===================================================================== *)
(** * Part I: the embedding                                               *)
(* ===================================================================== *)

(** ** Results of fallible calls *)

Inductive result (E A : Type) : Type :=
| Ok (a : A)
| Err (e : E).
Arguments Ok {E A} a.
Arguments Err {E A} e.

(** ** Go strings: [len], [unicode.IsSpace], [strings.TrimSpace],
       [strings.Fields] *)

Module GoStrings.

Definition byte (a : ascii) : Z := Z.of_N (N_of_ascii a).

Definition len (s : string) : Z := Z.of_nat (String.length s).

Definition RuneError : Z := 0xFFFD.

(** Bounds of the second byte accepted after the lead byte [s0]
    (utf8.acceptRanges). *)
Definition accept_lo (s0 : Z) : Z :=
  if s0 =? 0xE0 then 0xA0 else if s0 =? 0xF0 then 0x90 else 0x80.

Definition accept_hi (s0 : Z) : Z :=
  if s0 =? 0xED then 0x9F else if s0 =? 0xF4 then 0x8F else 0xBF.

Definition continuation (b : Z) : bool := (0x80 <=? b) && (b <=? 0xBF).

(** utf8.DecodeRuneInString: the first rune of [s] and its width in bytes;
    [(RuneError, 0)] on the empty string, [(RuneError, 1)] on a byte that
    starts no valid encoding. *)
Definition DecodeRuneInString (s : string) : Z * nat :=
  match s with
  | EmptyString => (RuneError, 0%nat)
  | String a0 t0 =>
    let s0 := byte a0 in
    if s0 <? 0x80 then (s0, 1%nat)
    else if (s0 <? 0xC2) || (0xF4 <? s0) then (RuneError, 1%nat)
    else
      match t0 with
      | EmptyString => (RuneError, 1%nat)
      | String a1 t1 =>
        let s1 := byte a1 in
        if s0 <? 0xE0 then
          if (s1 <? accept_lo s0) || (accept_hi s0 <? s1) then (RuneError, 1%nat)
          else (Z.lor (Z.shiftl (Z.land s0 0x1F) 6) (Z.land s1 0x3F), 2%nat)
        else
          match t1 with
          | EmptyString => (RuneError, 1%nat)
          | String a2 t2 =>
            let s2 := byte a2 in
            if (s1 <? accept_lo s0) || (accept_hi s0 <? s1) then (RuneError, 1%nat)
            else if negb (continuation s2) then (RuneError, 1%nat)
            else if s0 <? 0xF0 then
              (Z.lor (Z.shiftl (Z.land s0 0x0F) 12)
                 (Z.lor (Z.shiftl (Z.land s1 0x3F) 6) (Z.land s2 0x3F)), 3%nat)
            else
              match t2 with
              | EmptyString => (RuneError, 1%nat)
              | String a3 _ =>
                let s3 := byte a3 in
                if negb (continuation s3) then (RuneError, 1%nat)
                else
                  (Z.lor (Z.shiftl (Z.land s0 0x07) 18)
                     (Z.lor (Z.shiftl (Z.land s1 0x3F) 12)
                        (Z.lor (Z.shiftl (Z.land s2 0x3F) 6) (Z.land s3 0x3F))),
                   4%nat)
              end
          end
      end
  end.

(** utf8.RuneStart *)
Definition RuneStart (b : Z) : bool := negb (Z.land b 0xC0 =? 0x80).

Definition byteAt (s : string) (i : Z) : Z :=
  match String.get (Z.to_nat i) s with
  | Some a => byte a
  | None => 0
  end.

(** The backward scan [for start--; start >= lim; start--] of
    utf8.DecodeLastRuneInString. *)
Fixpoint findStart (fuel : nat) (s : string) (lim start : Z) : Z :=
  match fuel with
  | O => start
  | S k =>
    if start <? lim then start
    else if RuneStart (byteAt s start) then start
    else findStart k s lim (start - 1)
  end.

(** utf8.DecodeLastRuneInString *)
Definition DecodeLastRuneInString (s : string) : Z * nat :=
  let e := len s in
  if e =? 0 then (RuneError, 0%nat)
  else
    let r := byteAt s (e - 1) in
    if r <? 0x80 then (r, 1%nat)
    else
      let lim := Z.max 0 (e - 4) in
      let start := Z.max 0 (findStart 4 s lim (e - 2)) in
      let '(r, size) :=
        DecodeRuneInString (substring (Z.to_nat start) (Z.to_nat (e - start)) s) in
      if negb (start + Z.of_nat size =? e) then (RuneError, 1%nat) else (r, size).

(** unicode.IsSpace *)
Definition IsSpace (r : Z) : bool :=
  if r <=? 0xFF then
    (r =? 0x09) || (r =? 0x0A) || (r =? 0x0B) || (r =? 0x0C) || (r =? 0x0D)
    || (r =? 0x20) || (r =? 0x85) || (r =? 0xA0)
  else
    (r =? 0x1680) || ((0x2000 <=? r) && (r <=? 0x200A)) || (r =? 0x2028)
    || (r =? 0x2029) || (r =? 0x202F) || (r =? 0x205F) || (r =? 0x3000).

(** strings.TrimLeftFunc(s, unicode.IsSpace): [range s] walks the runes of
    [s]; [skip] counts the bytes of the current rune still to be passed. *)
Fixpoint trimLeft_loop (skip : nat) (s : string) : string :=
  match s with
  | EmptyString => EmptyString
  | String _ t =>
    match skip with
    | S k => trimLeft_loop k t
    | O =>
      let '(r, size) := DecodeRuneInString s in
      if IsSpace r then trimLeft_loop (size - 1) t else s
    end
  end.

(** strings.TrimRightFunc(s, unicode.IsSpace): runes are taken off the end
    while they are white space. *)
Fixpoint trimRight_loop (fuel : nat) (s : string) : string :=
  match fuel with
  | O => s
  | S k =>
    if len s =? 0 then s
    else
      let '(r, size) := DecodeLastRuneInString s in
      if IsSpace r then trimRight_loop k (substring 0 (String.length s - size) s)
      else s
  end.

(** strings.TrimSpace *)
Definition TrimSpace (s : string) : string :=
  let t := trimLeft_loop 0 s in
  trimRight_loop (String.length t) t.

Definition flush (cur : option string) : list string :=
  match cur with
  | Some w => [w]
  | None => []
  end.

(** strings.Fields: the maximal runs of runes that are not white space.
    [cur] is the field being read, if any. *)
Fixpoint fields_loop (skip : nat) (cur : option string) (s : string) : list string :=
  match s with
  | EmptyString => flush cur
  | String a t =>
    match skip with
    | S k => fields_loop k (option_map (fun w => w +:+ String a EmptyString) cur) t
    | O =>
      let '(r, size) := DecodeRuneInString s in
      if IsSpace r then flush cur ++ fields_loop (size - 1) None t
      else
        fields_loop (size - 1)
          (Some (match cur with
                 | Some w => w +:+ String a EmptyString
                 | None => String a EmptyString
                 end)) t
    end
  end.

Definition Fields (s : string) : list string := fields_loop 0 None s.

(** fmt's %d *)
Definition fmt_d (z : Z) : string := NilZero.string_of_int (Z.to_int z).

(** *** Searching, cutting and joining *)

(** [s[:m]] and [s[m:]] *)
Definition sliceTo (s : string) (m : nat) : string := substring 0 m s.

Definition sliceFrom (s : string) (m : nat) : string :=
  substring m (String.length s - m) s.

(** strings.HasPrefix *)
Fixpoint HasPrefix (s prefix : string) : bool :=
  match prefix, s with
  | EmptyString, _ => true
  | String _ _, EmptyString => false
  | String p prefix', String a s' => Ascii.eqb a p && HasPrefix s' prefix'
  end.

(** strings.HasSuffix *)
Definition HasSuffix (s suffix : string) : bool :=
  (String.length suffix <=? String.length s)%nat
  && String.eqb (sliceFrom s (String.length s - String.length suffix)) suffix.

(** strings.Index: the index of the first instance of [substr] in [s],
    -1 when there is none. *)
Fixpoint Index (s substr : string) : Z :=
  if HasPrefix s substr then 0
  else
    match s with
    | EmptyString => -1
    | String _ t => let i := Index t substr in if i <? 0 then -1 else i + 1
    end.

(** strings.Contains *)
Definition Contains (s substr : string) : bool := Index s substr >=? 0.

(** strings.ContainsAny for a set [chars] of ASCII characters, which
    IndexAny tests byte by byte. *)
Fixpoint ContainsAny (s chars : string) : bool :=
  match s with
  | EmptyString => false
  | String a t => Contains chars (String a EmptyString) || ContainsAny t chars
  end.

(** The pieces of [s] when the separator is empty: its UTF-8 sequences,
    the last allowed piece taking what is left. *)
Fixpoint explode (fuel : nat) (s : string) (n : option nat) : list string :=
  match fuel with
  | O => []
  | S k =>
    if len s =? 0 then []
    else
      match n with
      | Some 0%nat => []
      | Some 1%nat => [s]
      | _ =>
        let size := (DecodeRuneInString s).2 in
        sliceTo s size :: explode k (sliceFrom s size) (option_map Nat.pred n)
      end
  end.

(** The loop of strings.genSplit for a separator that is not empty:
    [s] is cut at the first instance of [sep] while pieces are allowed
    ([n], [None] for no limit). *)
Fixpoint genSplit_loop (fuel : nat) (s sep : string) (n : option nat) : list string :=
  match fuel with
  | O => [s]
  | S k =>
    match n with
    | Some 0%nat | Some 1%nat => [s]
    | _ =>
      let m := Index s sep in
      if m <? 0 then [s]
      else
        sliceTo s (Z.to_nat m)
        :: genSplit_loop k (sliceFrom s (Z.to_nat m + String.length sep)) sep
             (option_map Nat.pred n)
    end
  end.

Definition genSplit (s sep : string) (n : option nat) : list string :=
  match n with
  | Some 0%nat => []
  | _ =>
    if len sep =? 0 then explode (String.length s) s n
    else genSplit_loop (String.length s) s sep n
  end.

(** strings.Split and strings.SplitN *)
Definition Split (s sep : string) : list string := genSplit s sep None.

Definition SplitN (s sep : string) (n : Z) : list string :=
  genSplit s sep (if n <? 0 then None else Some (Z.to_nat n)).

(** strings.Join *)
Fixpoint Join (elems : list string) (sep : string) : string :=
  match elems with
  | [] => EmptyString
  | [x] => x
  | x :: rest => x +:+ sep +:+ Join rest sep
  end.

(** strings.ReplaceAll.  With an empty [old] the replacement goes before
    every UTF-8 sequence and at the end; otherwise the instances of [old]
    are replaced from the left, without overlap ([skip] counts the bytes
    of the instance still to be passed). *)
Fixpoint insert_loop (skip : nat) (s new : string) : string :=
  match s with
  | EmptyString => new
  | String a t =>
    match skip with
    | S k => String a (insert_loop k t new)
    | O => new +:+ String a (insert_loop ((DecodeRuneInString s).2 - 1) t new)
    end
  end.

Fixpoint replace_loop (skip : nat) (s old new : string) : string :=
  match s with
  | EmptyString => EmptyString
  | String a t =>
    match skip with
    | S k => replace_loop k t old new
    | O =>
      if HasPrefix s old then new +:+ replace_loop (String.length old - 1) t old new
      else String a (replace_loop 0 t old new)
    end
  end.

Definition ReplaceAll (s old new : string) : string :=
  if String.eqb old new then s
  else if len old =? 0 then insert_loop 0 s new
  else replace_loop 0 s old new.

(** strings.ToLower.  A string of ASCII bytes is lowered byte by byte;
    any other goes through [strings.Map(unicode.ToLower, s)], for which
    [mapLower] stands. *)
Definition isASCII (s : string) : bool :=
  forallb (λ a, byte a <? 0x80) (list_ascii_of_string s).

Definition lowerByte (a : ascii) : ascii :=
  if (0x41 <=? byte a) && (byte a <=? 0x5A) then ascii_of_N (N_of_ascii a + 32) else a.

Definition ToLower (mapLower : string → string) (s : string) : string :=
  if isASCII s then string_of_list_ascii (map lowerByte (list_ascii_of_string s))
  else mapLower s.

(** The double quote and the line feed *)
Definition quote : ascii := "034"%char.
Definition newline : ascii := "010"%char.

End GoStrings.

(** ** Go float64 *)

Module GoFloat.

Definition MaxFloat64 : float := 0x1.fffffffffffffp+1023%float.

(** math.IsNaN: [f != f] *)
Definition IsNaN (f : float) : bool := negb (PrimFloat.eqb f f).

(** math.IsInf: [sign >= 0 && f > MaxFloat64 || sign <= 0 && f < -MaxFloat64] *)
Definition IsInf (f : float) (sign : Z) : bool :=
  ((0 <=? sign) && PrimFloat.ltb MaxFloat64 f)
  || ((sign <=? 0) && PrimFloat.ltb f (PrimFloat.opp MaxFloat64)).

(** A float the JSON encoder accepts. *)
Definition finite (f : float) : bool := negb (IsNaN f || IsInf f 0).

(** The conversion [float64(n)] of an int. *)
Definition float64 (n : Z) : float :=
  if n <? 0 then PrimFloat.opp (PrimFloat.of_uint63 (Uint63.of_Z (- n)))
  else PrimFloat.of_uint63 (Uint63.of_Z n).

(** The conversion [int(f)]: truncation towards zero.  On NaN and the
    infinities the result depends on the platform; the amd64 value is
    used. *)
Definition int (f : float) : Z :=
  match Prim2SF f with
  | S754_zero _ => 0
  | S754_finite s m e =>
    let a :=
      match e with
      | Z0 => Zpos m
      | Zpos p => Z.shiftl (Zpos m) (Zpos p)
      | Zneg p => Z.shiftr (Zpos m) (Zpos p)
      end in
    if s then - a else a
  | _ => -9223372036854775808
  end.

(** Go's [int] is 64 bits wide: the value of an int expression whose
    mathematical value is [z]. *)
Definition wrap (z : Z) : Z := (z + 2 ^ 63) mod 2 ^ 64 - 2 ^ 63.

End GoFloat.


(** ** Package [api]: the streaming client *)

Module Api.
Import GoStrings GoFloat.

(** [estimateTokens]: the number of tokens by which one streamed fragment
    advances the running estimate. *)
Definition estimateTokens (content : string) : Z :=
  if String.eqb content "" then 0
  else
    let content := TrimSpace content in
    if len content =? 0 then 0
    else
      let words := Fields content in
      let wordCount := Z.of_nat (length words) in
      if wordCount >? 0 then
        Z.max 1 (int (float64 wordCount * 0x1.4cccccccccccdp+0))
      else
        let charCount := len content in
        Z.max 1 (int (float64 charCount / 3)).

(** openai.Usage, as far as it is read. *)
Record Usage : Type := {
  PromptTokens : Z;
  CompletionTokens : Z
}.

(** One chunk of the stream: the [Delta.Content] of each choice, and the
    usage block when the provider sends one. *)
Record StreamResponse : Type := {
  Choices : list string;
  RespUsage : option Usage
}.

(** What one turn of the receive loop meets.  The end of the list is
    [io.EOF]. *)
Inductive StreamEvent : Type :=
| CtxDone
| RecvError (msg : string)
| Recv (elapsed : float) (resp : StreamResponse).

(** The local variables of [AskOpenAi]. *)
Record StreamState : Type := {
  timeToFirstToken : float;
  firstTokenSeen : bool;
  lastUsage : option Usage;
  accumulatedContent : string;
  estimatedTokens : Z
}.

Definition initialStream : StreamState :=
  {| timeToFirstToken := 0; firstTokenSeen := false; lastUsage := None;
     accumulatedContent := ""; estimatedTokens := 0 |}.

(** The body of the receive loop after a successful [stream.Recv()];
    [elapsed] is what [time.Since(start).Seconds()] reads.  (The terminal
    progress bar, display only, is left out.) *)
Definition recvChunk (st : StreamState) (elapsed : float) (resp : StreamResponse)
  : StreamState :=
  let st1 :=
    match Choices resp with
    | content :: _ =>
      if negb (firstTokenSeen st) && negb (String.eqb (TrimSpace content) "") then
        {| timeToFirstToken := elapsed; firstTokenSeen := true;
           lastUsage := lastUsage st;
           accumulatedContent := accumulatedContent st;
           estimatedTokens := estimatedTokens st |}
      else st
    | [] => st
    end in
  let st2 :=
    match Choices resp with
    | content :: _ =>
      if negb (String.eqb content "") then
        {| timeToFirstToken := timeToFirstToken st1;
           firstTokenSeen := firstTokenSeen st1;
           lastUsage := lastUsage st1;
           accumulatedContent := accumulatedContent st1 +:+ content;
           estimatedTokens := wrap (estimatedTokens st1 + estimateTokens content) |}
      else st1
    | [] => st1
    end in
  match RespUsage resp with
  | Some u =>
    {| timeToFirstToken := timeToFirstToken st2;
       firstTokenSeen := firstTokenSeen st2;
       lastUsage := Some u;
       accumulatedContent := accumulatedContent st2;
       estimatedTokens := estimatedTokens st2 |}
  | None => st2
  end.

Fixpoint streamLoop (st : StreamState) (events : list StreamEvent)
  : result string StreamState :=
  match events with
  | [] => Ok st
  | CtxDone :: _ => Err "context canceled"
  | RecvError msg :: _ => Err ("stream error: " +:+ msg)
  | Recv elapsed resp :: rest => streamLoop (recvChunk st elapsed resp) rest
  end.

(** The tail of [AskOpenAi]: where the token counts come from. *)
Definition finalCounts (st : StreamState) : float * Z * Z :=
  match lastUsage st with
  | Some u => (timeToFirstToken st, CompletionTokens u, PromptTokens u)
  | None => (timeToFirstToken st, estimatedTokens st, 0)
  end.

(** [AskOpenAi] returns (time to first token, completion tokens, prompt
    tokens).  [create] is the outcome of [CreateChatCompletionStream]. *)
Definition AskOpenAi (create : option string) (events : list StreamEvent)
  : result string (float * Z * Z) :=
  match create with
  | Some e => Err ("OpenAI API request failed: " +:+ e)
  | None =>
    match streamLoop initialStream events with
    | Ok st => Ok (finalCounts st)
    | Err e => Err e
    end
  end.

End Api.

(** ** server/types.go *)

Module Types.

Record Model : Type := {
  ID : string;
  Name : string;
  Provider : string;
  BaseURL : string;
  APIKey : string
}.

Record BenchmarkRequest : Type := {
  Model1 : Model;
  Model2 : option Model;
  ConcurrencyLevels : list Z;
  MaxTokens : Z;
  Prompt : string;
  NumWords : Z
}.

Record ConcurrencyResult : Type := {
  Concurrency : Z;
  GenerationThroughput : float;
  PromptThroughput : float;
  MinTTFT : float;
  MaxTTFT : float
}.

Record BenchmarkResult : Type := {
  ResModel : string;
  Results : list ConcurrencyResult;
  Timestamp : Z
}.

Record Comparison : Type := {
  Winner : string;
  Differences : list (string * float)
}.

Record ComparisonResponse : Type := {
  RespModel1 : option BenchmarkResult;
  RespModel2 : option BenchmarkResult;
  RespComparison : option Comparison
}.

(** utils.SpeedResult: what one round of the measurement engine returns. *)
Record SpeedResult : Type := {
  SrConcurrency : Z;
  GenerationSpeed : float;
  SrPromptThroughput : float;
  MinTtft : float;
  MaxTtft : float
}.

End Types.

(** ** server/handlers.go: request validation and float sanitisation *)

Module Handlers.
Import GoStrings GoFloat Types.

(** The errors of [validateBenchmarkRequest], one constructor per
    [fmt.Errorf] with the values it prints. *)
Inductive ValidationError : Type :=
| Model1IdRequired
| Model1NameRequired
| Model1BaseUrlRequired
| Model2IdRequired
| Model2NameRequired
| Model2BaseUrlRequired
| ModelsMustDiffer (id : string)
| LevelsEmpty
| LevelBelowOne (i : nat) (concurrency : Z)
| LevelAboveHundred (i : nat) (concurrency : Z)
| MaxTokensBelowOne (n : Z)
| MaxTokensAbove4096 (n : Z)
| PromptEmpty
| PromptTooLong (n : Z)
| NumWordsBelowTen (n : Z)
| NumWordsAbove10000 (n : Z).

Definition validateModel2 (m1 : Model) (m2 : option Model) : option ValidationError :=
  match m2 with
  | None => None
  | Some m =>
    if String.eqb (ID m) "" then Some Model2IdRequired
    else if String.eqb (Name m) "" then Some Model2NameRequired
    else if String.eqb (BaseURL m) "" then Some Model2BaseUrlRequired
    else if String.eqb (ID m1) (ID m) then Some (ModelsMustDiffer (ID m1))
    else None
  end.

(** The loop [for i, concurrency := range req.ConcurrencyLevels]. *)
Fixpoint validateLevels (i : nat) (levels : list Z) : option ValidationError :=
  match levels with
  | [] => None
  | concurrency :: rest =>
    if concurrency <? 1 then Some (LevelBelowOne i concurrency)
    else if concurrency >? 100 then Some (LevelAboveHundred i concurrency)
    else validateLevels (S i) rest
  end.

Definition validateBenchmarkRequest (req : BenchmarkRequest) : option ValidationError :=
  if String.eqb (ID (Model1 req)) "" then Some Model1IdRequired
  else if String.eqb (Name (Model1 req)) "" then Some Model1NameRequired
  else if String.eqb (BaseURL (Model1 req)) "" then Some Model1BaseUrlRequired
  else
    match validateModel2 (Model1 req) (Model2 req) with
    | Some e => Some e
    | None =>
      if Z.of_nat (length (ConcurrencyLevels req)) =? 0 then Some LevelsEmpty
      else
        match validateLevels 0 (ConcurrencyLevels req) with
        | Some e => Some e
        | None =>
          if MaxTokens req <? 1 then Some (MaxTokensBelowOne (MaxTokens req))
          else if MaxTokens req >? 4096 then Some (MaxTokensAbove4096 (MaxTokens req))
          else if len (TrimSpace (Prompt req)) =? 0 then Some PromptEmpty
          else if len (Prompt req) >? 10000 then Some (PromptTooLong (len (Prompt req)))
          else if NumWords req >? 0 then
            if NumWords req <? 10 then Some (NumWordsBelowTen (NumWords req))
            else if NumWords req >? 10000 then Some (NumWordsAbove10000 (NumWords req))
            else None
          else None
        end
    end.

(** [sanitizeFloat]: used where the synchronous handler builds its
    [ConcurrencyResult]s. *)
Definition sanitizeFloat (value : float) : float :=
  if IsInf value 1 then MaxFloat64
  else if IsInf value (-1) then 0%float
  else if IsNaN value then 0%float
  else value.

Definition sanitizedResult (concurrency : Z) (r : SpeedResult) : ConcurrencyResult :=
  {| Concurrency := concurrency;
     GenerationThroughput := sanitizeFloat (GenerationSpeed r);
     PromptThroughput := sanitizeFloat (SrPromptThroughput r);
     MinTTFT := sanitizeFloat (MinTtft r);
     MaxTTFT := sanitizeFloat (MaxTtft r) |}.

End Handlers.

(** ** [interface{}] values and encoding/json *)

Module Json.
Import GoFloat Types.

(** The dynamic values a job result is made of.  [VInt] stands for every
    integer kind; [VResults] and [VResponse] are the typed values the
    handlers store ([[]ConcurrencyResult], [ComparisonResponse]), which a
    type switch over [interface{}] kinds does not open. *)
#[local] Unset Elimination Schemes.
Inductive any : Type :=
| VNil
| VBool (b : bool)
| VInt (n : Z)
| VString (s : string)
| VFloat64 (f : float)
| VFloat32 (f : float)
| VMap (m : list (string * any))
| VSlice (l : list any)
| VResults (l : list ConcurrencyResult)
| VResponse (r : ComparisonResponse).

(** The payload that goes on the wire, as a tree. *)
Inductive json : Type :=
| JNull
| JBool (b : bool)
| JInt (n : Z)
| JNum (f : float)
| JStr (s : string)
| JTime (t : Z)
| JArr (l : list json)
| JObj (fields : list (string * json)).
#[local] Set Elimination Schemes.

(** encoding/json refuses NaN and the infinities
    ([*json.UnsupportedValueError]); [None] stands for that error. *)
Definition marshalFloat (f : float) : option json :=
  if finite f then Some (JNum f) else None.

Definition marshalConcurrencyResult (r : ConcurrencyResult) : option json :=
  g ← marshalFloat (GenerationThroughput r);
  p ← marshalFloat (PromptThroughput r);
  lo ← marshalFloat (MinTTFT r);
  hi ← marshalFloat (MaxTTFT r);
  Some (JObj [("concurrency", JInt (Concurrency r)); ("generationThroughput", g);
              ("promptThroughput", p); ("minTtft", lo); ("maxTtft", hi)]).

(** Encoding the elements of a slice or the entries of a map: the first
    failure fails the whole. *)
Section MarshalAll.
Context {A B : Type} (f : A → option B).

Fixpoint marshalAll (l : list A) : option (list B) :=
  match l with
  | [] => Some []
  | x :: rest =>
    match f x, marshalAll rest with
    | Some y, Some ys => Some (y :: ys)
    | _, _ => None
    end
  end.

End MarshalAll.

Definition marshalBenchmarkResult (r : BenchmarkResult) : option json :=
  rs ← marshalAll marshalConcurrencyResult (Results r);
  Some (JObj [("model", JStr (ResModel r)); ("results", JArr rs);
              ("timestamp", JTime (Timestamp r))]).

Definition marshalComparison (c : Comparison) : option json :=
  ds ← marshalAll (λ kv : string * float, d ← marshalFloat kv.2; Some (kv.1, d))
         (Differences c);
  Some (JObj [("winner", JStr (Winner c)); ("differences", JObj ds)]).

(** A field tagged [omitempty] whose pointer is nil is left out. *)
Definition omitempty (key : string) (field : option (option json))
  : option (list (string * json)) :=
  match field with
  | None => Some []
  | Some None => None
  | Some (Some j) => Some [(key, j)]
  end.

Definition marshalComparisonResponse (r : ComparisonResponse) : option json :=
  m1 ← match RespModel1 r with
       | None => Some JNull
       | Some b => marshalBenchmarkResult b
       end;
  m2 ← omitempty "model2" (marshalBenchmarkResult <$> RespModel2 r);
  c ← omitempty "comparison" (marshalComparison <$> RespComparison r);
  Some (JObj ([("model1", m1)] ++ m2 ++ c)).

(** json.Marshal on a dynamic value. *)
Fixpoint Marshal (v : any) : option json :=
  match v with
  | VNil => Some JNull
  | VBool b => Some (JBool b)
  | VInt n => Some (JInt n)
  | VString s => Some (JStr s)
  | VFloat64 f => marshalFloat f
  | VFloat32 f => marshalFloat f
  | VMap m =>
    JObj <$> marshalAll (λ kv, match Marshal kv.2 with
                               | Some j => Some (kv.1, j)
                               | None => None
                               end) m
  | VSlice l => JArr <$> marshalAll Marshal l
  | VResults l => JArr <$> marshalAll marshalConcurrencyResult l
  | VResponse r => marshalComparisonResponse r
  end.

(** No number of the payload is NaN or infinite. *)
Fixpoint json_finite (j : json) : bool :=
  match j with
  | JNum f => finite f
  | JArr l => forallb json_finite l
  | JObj fields => forallb (λ kv, json_finite kv.2) fields
  | _ => true
  end.

(** [sanitizeFloatValue] *)
Definition sanitizeFloatValue (value : any) : any :=
  match value with
  | VFloat64 v => if IsNaN v || IsInf v 0 then VNil else value
  | VFloat32 v => if IsNaN v || IsInf v 0 then VNil else value
  | _ => value
  end.

(** The type switch in the loop of [sanitizeBenchmarkResult], for one
    entry of the map. *)
Fixpoint sanitizeEntry (value : any) : any :=
  match value with
  | VMap v => VMap (map (λ kv, (kv.1, sanitizeEntry kv.2)) v)
  | VSlice v =>
    VSlice
      (map (λ item,
            match item with
            | VMap itemMap => VMap (map (λ kv, (kv.1, sanitizeEntry kv.2)) itemMap)
            | _ => sanitizeFloatValue item
            end) v)
  | _ => sanitizeFloatValue value
  end.

(** [sanitizeBenchmarkResult] *)
Definition sanitizeBenchmarkResult (result : list (string * any))
  : list (string * any) :=
  map (λ kv, (kv.1, sanitizeEntry kv.2)) result.

(** Whether [fmt.Sprintf("%v", v)] is one of "+Inf", "-Inf", "Inf", "NaN",
    for the values that reach the default case of [sanitizeAnyValue]: a
    bool prints as true or false, a slice of structs starts with a
    bracket and a struct with a brace. *)
Definition printsAsInfOrNaN (v : any) : bool :=
  match v with
  | VString str =>
    String.eqb str "+Inf" || String.eqb str "-Inf" || String.eqb str "Inf"
    || String.eqb str "NaN"
  | _ => false
  end.

(** [sanitizeAnyValue] *)
Fixpoint sanitizeAnyValue (value : any) : any :=
  match value with
  | VNil => VNil
  | VMap v => VMap (map (λ kv, (kv.1, sanitizeAnyValue kv.2)) v)
  | VSlice v => VSlice (map sanitizeAnyValue v)
  | VFloat64 v => if IsNaN v || IsInf v 0 then VNil else value
  | VFloat32 v => if IsNaN v || IsInf v 0 then VNil else value
  | VInt n => if IsInf (float64 n) 0 then VNil else value
  | _ => if printsAsInfOrNaN value then VNil else value
  end.

(** Induction over dynamic values, through the maps and slices. *)
Section AnyInduction.
Variable P : any → Prop.
Hypothesis HNil : P VNil.
Hypothesis HBool : ∀ b, P (VBool b).
Hypothesis HInt : ∀ n, P (VInt n).
Hypothesis HString : ∀ s, P (VString s).
Hypothesis HFloat64 : ∀ f, P (VFloat64 f).
Hypothesis HFloat32 : ∀ f, P (VFloat32 f).
Hypothesis HMap : ∀ m, Forall (λ kv, P kv.2) m → P (VMap m).
Hypothesis HSlice : ∀ l, Forall P l → P (VSlice l).
Hypothesis HResults : ∀ l, P (VResults l).
Hypothesis HResponse : ∀ r, P (VResponse r).

Fixpoint any_ind (v : any) : P v :=
  match v with
  | VNil => HNil
  | VBool b => HBool b
  | VInt n => HInt n
  | VString s => HString s
  | VFloat64 f => HFloat64 f
  | VFloat32 f => HFloat32 f
  | VMap m =>
    HMap m
      ((fix entries (m : list (string * any)) : Forall (λ kv, P kv.2) m :=
          match m with
          | [] => List.Forall_nil _
          | kv :: rest => List.Forall_cons _ kv rest (any_ind kv.2) (entries rest)
          end) m)
  | VSlice l =>
    HSlice l
      ((fix items (l : list any) : Forall P l :=
          match l with
          | [] => List.Forall_nil _
          | x :: rest => List.Forall_cons _ x rest (any_ind x) (items rest)
          end) l)
  | VResults l => HResults l
  | VResponse r => HResponse r
  end.

End AnyInduction.

End Json.

(** ** server/simple_job_manager.go *)

Module Simple.
Import GoStrings GoFloat Types Json.

(** [ctx] and [cancelFunc] hold the handle of the context that
    [context.WithCancel] returned; [None] is nil. *)
Record SimpleJob : Type := {
  ID : string;
  Status : string;
  Progress : Z;
  Message : string;
  Result : any;
  Error : string;
  CreatedAt : Z;
  CompletedAt : option Z;
  Request : BenchmarkRequest;
  ctx : option nat;
  cancelFunc : option nat
}.

(** The registry.  [cancelled] is the set of contexts whose cancel function
    has been called: jobs are shared by pointer, so a context cancelled
    through the registry is seen cancelled by the goroutine that holds it.
    (The SSE listener channels are handed the very jobs of the registry;
    sending to them changes nothing in it, and they are left out.) *)
Record SimpleJobManager : Type := {
  jobs : gmap string SimpleJob;
  activeJobCount : Z;
  cancelled : gset nat
}.

Definition NewSimpleJobManager : SimpleJobManager :=
  {| jobs := ∅; activeJobCount := 0; cancelled := ∅ |}.

Definition Hour : Z := 3600 * 1000000000.

Definition setJobs (jm : SimpleJobManager) (js : gmap string SimpleJob)
  : SimpleJobManager :=
  {| jobs := js; activeJobCount := activeJobCount jm; cancelled := cancelled jm |}.

(** [CreateJob]; [jobID] is the identifier drawn by [uuid.New()] and [now]
    what [time.Now()] reads. *)
Definition CreateJob (jm : SimpleJobManager) (jobID : string)
    (request : BenchmarkRequest) (now : Z) : SimpleJobManager * string :=
  let job :=
    {| ID := jobID; Status := "running"; Progress := 0;
       Message := "Starting benchmark..."; Result := VNil; Error := "";
       CreatedAt := now; CompletedAt := None; Request := request;
       ctx := None; cancelFunc := None |} in
  ({| jobs := <[jobID := job]> (jobs jm);
      activeJobCount := wrap (activeJobCount jm + 1);
      cancelled := cancelled jm |}, jobID).

Definition GetJob (jm : SimpleJobManager) (jobID : string) : option SimpleJob :=
  jobs jm !! jobID.

Definition SetJobContext (jm : SimpleJobManager) (jobID : string)
    (c cancel : nat) : SimpleJobManager :=
  match jobs jm !! jobID with
  | Some job =>
    setJobs jm
      (<[jobID :=
           {| ID := ID job; Status := Status job; Progress := Progress job;
              Message := Message job; Result := Result job; Error := Error job;
              CreatedAt := CreatedAt job; CompletedAt := CompletedAt job;
              Request := Request job; ctx := Some c; cancelFunc := Some cancel |}]>
         (jobs jm))
  | None => jm
  end.

Definition UpdateJobProgress (jm : SimpleJobManager) (jobID : string)
    (progress : Z) (message : string) : SimpleJobManager :=
  match jobs jm !! jobID with
  | Some job =>
    setJobs jm
      (<[jobID :=
           {| ID := ID job; Status := Status job; Progress := progress;
              Message := message; Result := Result job; Error := Error job;
              CreatedAt := CreatedAt job; CompletedAt := CompletedAt job;
              Request := Request job; ctx := ctx job;
              cancelFunc := cancelFunc job |}]>
         (jobs jm))
  | None => jm
  end.

(** [if jm.activeJobCount > 0 { jm.activeJobCount-- }] *)
Definition decrementIfPositive (n : Z) : Z :=
  if n >? 0 then wrap (n - 1) else n.

Definition CompleteJob (jm : SimpleJobManager) (jobID : string) (result : any)
    (now : Z) : SimpleJobManager :=
  match jobs jm !! jobID with
  | Some job =>
    {| jobs :=
         <[jobID :=
             {| ID := ID job; Status := "completed"; Progress := 100;
                Message := "Benchmark completed successfully"; Result := result;
                Error := Error job; CreatedAt := CreatedAt job;
                CompletedAt := Some now; Request := Request job;
                ctx := ctx job; cancelFunc := cancelFunc job |}]>
           (jobs jm);
       activeJobCount := decrementIfPositive (activeJobCount jm);
       cancelled := cancelled jm |}
  | None => jm
  end.

Definition FailJob (jm : SimpleJobManager) (jobID : string) (errorMsg : string)
    (now : Z) : SimpleJobManager :=
  match jobs jm !! jobID with
  | Some job =>
    {| jobs :=
         <[jobID :=
             {| ID := ID job; Status := "failed"; Progress := Progress job;
                Message := "Benchmark failed"; Result := Result job;
                Error := errorMsg; CreatedAt := CreatedAt job;
                CompletedAt := Some now; Request := Request job;
                ctx := ctx job; cancelFunc := cancelFunc job |}]>
           (jobs jm);
       activeJobCount := decrementIfPositive (activeJobCount jm);
       cancelled := cancelled jm |}
  | None => jm
  end.

Definition CancelJob (jm : SimpleJobManager) (jobID : string) (now : Z)
  : SimpleJobManager * bool :=
  match jobs jm !! jobID with
  | Some job =>
    match cancelFunc job with
    | Some cancel =>
      if String.eqb (Status job) "running" then
        ({| jobs :=
              <[jobID :=
                  {| ID := ID job; Status := "cancelled"; Progress := Progress job;
                     Message := "Job cancelled by user"; Result := Result job;
                     Error := "Job cancelled by user"; CreatedAt := CreatedAt job;
                     CompletedAt := Some now; Request := Request job;
                     ctx := ctx job; cancelFunc := cancelFunc job |}]>
                (jobs jm);
            activeJobCount := wrap (activeJobCount jm - 1);
            cancelled := {[cancel]} ∪ cancelled jm |}, true)
      else (jm, false)
    | None => (jm, false)
    end
  | None => (jm, false)
  end.

Definition AddJob (jm : SimpleJobManager) (jobID : string) (c cancel : nat)
  : SimpleJobManager :=
  match jobs jm !! jobID with
  | Some job =>
    setJobs jm
      (<[jobID :=
           {| ID := ID job; Status := "running"; Progress := Progress job;
              Message := Message job; Result := Result job; Error := Error job;
              CreatedAt := CreatedAt job; CompletedAt := CompletedAt job;
              Request := Request job; ctx := Some c; cancelFunc := Some cancel |}]>
         (jobs jm))
  | None => jm
  end.

Definition RemoveJob (jm : SimpleJobManager) (jobID : string) : SimpleJobManager :=
  match jobs jm !! jobID with
  | Some job =>
    {| jobs := delete jobID (jobs jm);
       activeJobCount := decrementIfPositive (activeJobCount jm);
       cancelled :=
         match cancelFunc job with
         | Some cancel =>
           if String.eqb (Status job) "running" then {[cancel]} ∪ cancelled jm
           else cancelled jm
         | None => cancelled jm
         end |}
  | None => jm
  end.

(** [ListActiveJobs], as the number of identifiers it returns. *)
Definition runningJobs (jm : SimpleJobManager) : Z :=
  Z.of_nat (size (filter (λ kv : string * SimpleJob, Status kv.2 = "running"%string)
                    (jobs jm))).

Definition GetActiveJobCount (jm : SimpleJobManager) : Z := activeJobCount jm.

(** [CleanupOldJobs]: every job created more than an hour before [now]
    leaves the map. *)
Definition CleanupOldJobs (jm : SimpleJobManager) (now : Z) : SimpleJobManager :=
  let cutoff := now - Hour in
  setJobs jm
    (filter (λ kv : string * SimpleJob, ¬ (CreatedAt kv.2 < cutoff)) (jobs jm)).

(** *** [SimpleJob.ToJSON] *)

Definition marshalModel (m : Model) : json :=
  JObj ([("id", JStr (Types.ID m)); ("name", JStr (Name m));
         ("provider", JStr (Provider m)); ("baseUrl", JStr (BaseURL m))]
        ++ (if String.eqb (APIKey m) "" then [] else [("apiKey", JStr (APIKey m))])).

Definition marshalRequest (r : BenchmarkRequest) : json :=
  JObj ([("model1", marshalModel (Model1 r));
         ("model2", match Model2 r with
                    | Some m => marshalModel m
                    | None => JNull
                    end);
         ("concurrencyLevels", JArr (map JInt (ConcurrencyLevels r)));
         ("maxTokens", JInt (MaxTokens r));
         ("prompt", JStr (Prompt r))]
        ++ (if NumWords r =? 0 then [] else [("numWords", JInt (NumWords r))])).

(** json.Marshal on a [SimpleJob], following its field tags. *)
Definition marshalJob (job : SimpleJob) : option json :=
  res ← match Result job with
        | VNil => Some []
        | r => j ← Marshal r; Some [("result", j)]
        end;
  Some (JObj ([("id", JStr (ID job)); ("status", JStr (Status job));
               ("progress", JInt (Progress job)); ("message", JStr (Message job))]
              ++ res
              ++ (if String.eqb (Error job) "" then [] else [("error", JStr (Error job))])
              ++ [("createdAt", JTime (CreatedAt job))]
              ++ match CompletedAt job with
                 | Some t => [("completedAt", JTime t)]
                 | None => []
                 end
              ++ [("request", marshalRequest (Request job))])).

Definition withResult (job : SimpleJob) (r : any) : SimpleJob :=
  {| ID := ID job; Status := Status job; Progress := Progress job;
     Message := Message job; Result := r; Error := Error job;
     CreatedAt := CreatedAt job; CompletedAt := CompletedAt job;
     Request := Request job; ctx := ctx job; cancelFunc := cancelFunc job |}.

Definition zeroModel : Model :=
  {| Types.ID := ""; Name := ""; Provider := ""; BaseURL := ""; APIKey := "" |}.

Definition zeroRequest : BenchmarkRequest :=
  {| Model1 := zeroModel; Model2 := None; ConcurrencyLevels := [];
     MaxTokens := 0; Prompt := ""; NumWords := 0 |}.

(** The last resort of [ToJSON]. *)
Definition minimalJob (job : SimpleJob) : SimpleJob :=
  {| ID := ID job; Status := Status job; Progress := Progress job;
     Message := Message job; Result := VNil;
     Error := "Results contain invalid values and could not be serialized";
     CreatedAt := CreatedAt job; CompletedAt := CompletedAt job;
     Request := zeroRequest; ctx := None; cancelFunc := None |}.

(** [ToJSON]; [None] is a non-nil error. *)
Definition ToJSON (job : SimpleJob) : option json :=
  let jobCopy :=
    match Result job with
    | VMap resultMap => withResult job (VMap (sanitizeBenchmarkResult resultMap))
    | _ => job
    end in
  match marshalJob jobCopy with
  | Some data => Some data
  | None =>
    let jobCopy := withResult job (sanitizeAnyValue (Result job)) in
    match marshalJob jobCopy with
    | Some data => Some data
    | None => marshalJob (minimalJob job)
    end
  end.

(** *** [RunBenchmark]

    [RunBenchmark] runs in a goroutine of its own while the HTTP handlers
    keep calling the manager.  A [Call] is one such call, stamped with the
    time it reads. *)

Inductive Call : Type :=
| CallCreateJob (jobID : string) (request : BenchmarkRequest)
| CallSetJobContext (jobID : string) (c cancel : nat)
| CallUpdateJobProgress (jobID : string) (progress : Z) (message : string)
| CallCompleteJob (jobID : string) (result : any)
| CallFailJob (jobID : string) (errorMsg : string)
| CallCancelJob (jobID : string)
| CallAddJob (jobID : string) (c cancel : nat)
| CallRemoveJob (jobID : string)
| CallCleanupOldJobs.

Definition call (jm : SimpleJobManager) (timed : Z * Call) : SimpleJobManager :=
  let now := timed.1 in
  match timed.2 with
  | CallCreateJob jobID request => (CreateJob jm jobID request now).1
  | CallSetJobContext jobID c cancel => SetJobContext jm jobID c cancel
  | CallUpdateJobProgress jobID progress message =>
    UpdateJobProgress jm jobID progress message
  | CallCompleteJob jobID result => CompleteJob jm jobID result now
  | CallFailJob jobID errorMsg => FailJob jm jobID errorMsg now
  | CallCancelJob jobID => (CancelJob jm jobID now).1
  | CallAddJob jobID c cancel => AddJob jm jobID c cancel
  | CallRemoveJob jobID => RemoveJob jm jobID
  | CallCleanupOldJobs => CleanupOldJobs jm now
  end.

Definition calls (jm : SimpleJobManager) (l : list (Z * Call)) : SimpleJobManager :=
  fold_left call l jm.

(** What [RunBenchmark] meets outside the manager: the context it creates,
    the environment, the measurement engine ([utils], step [n] counted over
    both models), and the calls of the other goroutines. *)
Record World : Type := {
  newContext : nat;
  vcapServices : bool;
  MeasureLatency : result string float;
  getAPIKeyForModel : Model → string;
  whileSleeping : list (Z * Call);
  beforeCheck : nat → list (Z * Call);
  Run : nat → result string SpeedResult;
  whileRunning : nat → list (Z * Call);
  beforeCompletion : list (Z * Call);
  clock : Z
}.

(** [<-ctx.Done()] is ready. *)
Definition Done (jm : SimpleJobManager) (c : nat) : bool :=
  bool_decide (c ∈ cancelled jm).

(** One of the two loops over [request.ConcurrencyLevels]; [second] tells
    the loop of model 2, [offset] is the number of steps before this loop
    and [i] the loop index. *)
Fixpoint runLevels (w : World) (jobID : string) (request : BenchmarkRequest)
    (second : bool) (model : Model) (latency : float) (totalSteps : Z)
    (offset i : nat) (levels : list Z) (results : list ConcurrencyResult)
    (jm : SimpleJobManager) : SimpleJobManager * option (list ConcurrencyResult) :=
  match levels with
  | [] => (jm, Some results)
  | concurrency :: rest =>
    let jm := calls jm (beforeCheck w (offset + i)) in
    if Done jm (newContext w) then
      (FailJob jm jobID "Job cancelled by user" (clock w), None)
    else
      let progress :=
        wrap (30 + Z.quot (wrap (Z.of_nat (offset + i) * 60)) totalSteps) in
      let jm :=
        UpdateJobProgress jm jobID progress
          ((if second then "Testing Model 2 concurrency "
            else "Testing Model 1 concurrency ") +:+ fmt_d concurrency +:+ "...") in
      let apiKey := getAPIKeyForModel w model in
      if String.eqb apiKey "" then
        (FailJob jm jobID ("No API key found for model " +:+ Name model) (clock w),
         None)
      else
        let outcome := Run w (offset + i) in
        let jm := calls jm (whileRunning w (offset + i)) in
        match outcome with
        | Err err =>
          (FailJob jm jobID
             ((if second then "Benchmark failed for Model 2 concurrency "
               else "Benchmark failed for concurrency ")
              +:+ fmt_d concurrency +:+ ": " +:+ err) (clock w), None)
        | Ok result =>
          let concurrencyResult :=
            {| Concurrency := concurrency;
               GenerationThroughput := GenerationSpeed result;
               PromptThroughput := SrPromptThroughput result;
               MinTTFT := MinTtft result;
               MaxTTFT := MaxTtft result |} in
          runLevels w jobID request second model latency totalSteps offset (S i)
            rest (results ++ [concurrencyResult]) jm
        end
  end.

Definition finalResult (request : BenchmarkRequest) (latency : float)
    (model1Results model2Results : list ConcurrencyResult) : any :=
  VMap [("model1", VMap [("model", VString (Name (Model1 request)));
                         ("results", VResults model1Results)]);
        ("model2", match Model2 request with
                   | Some m2 => VMap [("model", VString (Name m2));
                                      ("results", VResults model2Results)]
                   | None => VNil
                   end);
        ("latency", VFloat64 latency);
        ("summary",
         VMap [("total_concurrency_levels",
                VInt (Z.of_nat (length (ConcurrencyLevels request))));
               ("total_results",
                VInt (wrap (Z.of_nat (length model1Results)
                            + Z.of_nat (length model2Results))))])].

Definition RunBenchmark (jm : SimpleJobManager) (jobID : string)
    (request : BenchmarkRequest) (w : World) : SimpleJobManager :=
  let jm := SetJobContext jm jobID (newContext w) (newContext w) in
  let jm := calls jm (whileSleeping w) in
  let jm := UpdateJobProgress jm jobID 10 "Initializing benchmark..." in
  let jm := UpdateJobProgress jm jobID 20 "Testing latency..." in
  match (if vcapServices w then Ok 0%float else MeasureLatency w) with
  | Err err => FailJob jm jobID ("Latency test failed: " +:+ err) (clock w)
  | Ok latency =>
    let levels := ConcurrencyLevels request in
    let totalSteps :=
      match Model2 request with
      | Some _ => wrap (Z.of_nat (length levels) * 2)
      | None => Z.of_nat (length levels)
      end in
    match runLevels w jobID request false (Model1 request) latency totalSteps
            0 0 levels [] jm with
    | (jm, None) => jm
    | (jm, Some model1Results) =>
      let second :=
        match Model2 request with
        | Some m2 =>
          runLevels w jobID request true m2 latency totalSteps
            (length levels) 0 levels [] jm
        | None => (jm, Some [])
        end in
      match second with
      | (jm, None) => jm
      | (jm, Some model2Results) =>
        let jm := calls jm (beforeCompletion w) in
        let jm := UpdateJobProgress jm jobID 100 "Benchmark completed" in
        CompleteJob jm jobID (finalResult request latency model1Results model2Results)
          (clock w)
      end
    end
  end.

(** *** The queries *)

(** [GetJobContext]: the context of a job that has one. *)
Definition GetJobContext (jm : SimpleJobManager) (jobID : string) : option nat :=
  match jobs jm !! jobID with
  | Some job => ctx job
  | None => None
  end.

Record JobState : Type := {
  JsID : string;
  JsStatus : string;
  JsProgress : Z;
  JsMessage : string;
  JsCreatedAt : Z
}.

(** [GetJobState]; [None] is the pair of the zero state and false. *)
Definition GetJobState (jm : SimpleJobManager) (jobID : string) : option JobState :=
  match jobs jm !! jobID with
  | Some job =>
    Some {| JsID := ID job; JsStatus := Status job; JsProgress := Progress job;
            JsMessage := Message job; JsCreatedAt := CreatedAt job |}
  | None => None
  end.

(** [ListActiveJobs] and [ListJobs].  Ranging over a Go map visits the
    entries in an order that is not specified; the lists are given here
    in the order of [map_to_list]. *)
Definition ListActiveJobs (jm : SimpleJobManager) : list string :=
  (map_to_list
     (filter (λ kv : string * SimpleJob, Status kv.2 = "running"%string) (jobs jm))).*1.

Definition ListJobs (jm : SimpleJobManager) : list SimpleJob :=
  (map_to_list (jobs jm)).*2.

Definition GetJobCount (jm : SimpleJobManager) : Z := activeJobCount jm.

Definition IsSystemBusy (jm : SimpleJobManager) : bool := GetActiveJobCount jm >? 0.

(** [GetSystemStatus]: the four entries of the map it returns. *)
Record SystemStatus : Type := {
  activeJobs : Z;
  isBusy : bool;
  totalJobs : Z;
  timestamp : Z
}.

Definition GetSystemStatus (jm : SimpleJobManager) (now : Z) : SystemStatus :=
  {| activeJobs := activeJobCount jm; isBusy := activeJobCount jm >? 0;
     totalJobs := Z.of_nat (size (jobs jm)); timestamp := now |}.

End Simple.

(** ** server/progress_tracker.go with the WebSocket messages *)

Module Tracker.
Import GoStrings GoFloat Types Json.

Definition Second : Z := 1000000000.

(** [t.Sub(u)]: a [time.Duration] is an int64 and the difference
    saturates. *)
Definition Sub (t u : Z) : Z :=
  Z.max (- 2 ^ 63) (Z.min (2 ^ 63 - 1) (t - u)).

(** [d.Seconds()] *)
Definition Seconds (d : Z) : float :=
  (float64 (Z.quot d Second) + float64 (Z.rem d Second) / 1000000000)%float.

Record ProgressTracker : Type := {
  JobID : string;
  StartTime : Z;
  TotalSteps : Z;
  CurrentStep : Z;
  CurrentModel : string;
  CurrentConcurrency : Z;
  Status : string;
  lastBroadcast : Z;
  throttleInterval : Z
}.

(** [NewProgressTracker]; the zero [time.Time] of [lastBroadcast] is
    instant 0. *)
Definition NewProgressTracker (jobID : string) (totalSteps : Z) (now : Z)
  : ProgressTracker :=
  {| JobID := jobID; StartTime := now; TotalSteps := totalSteps;
     CurrentStep := 0; CurrentModel := ""; CurrentConcurrency := 0;
     Status := "running"; lastBroadcast := 0; throttleInterval := 1 * Second |}.

Record ProgressUpdate : Type := {
  PuJobID : string;
  PuStatus : string;
  PuCurrentModel : string;
  PuCurrentConcurrency : Z;
  PuProgress : float;
  ElapsedTime : float;
  EstimatedTimeRemaining : float;
  PuCurrentStep : string;
  PuTotalSteps : Z;
  CurrentStepNumber : Z
}.

Record StatusUpdate : Type := {
  SuJobID : string;
  SuStatus : string;
  SuMessage : string;
  SuCreatedAt : Z;
  UpdatedAt : Z
}.

Record ErrorMessage : Type := {
  EmJobID : string;
  EmError : string;
  EmMessage : string;
  Code : Z;
  Details : string
}.

Record CompletionMessage : Type := {
  CmJobID : string;
  CmStatus : string;
  CmResults : any;
  Duration : float;
  Completed : Z
}.

Record CancellationMessage : Type := {
  CaJobID : string;
  CaStatus : string;
  CaMessage : string;
  Cancelled : Z;
  Reason : string
}.

Inductive MessageData : Type :=
| DataProgress (p : ProgressUpdate)
| DataStatus (s : StatusUpdate)
| DataError (e : ErrorMessage)
| DataCompletion (c : CompletionMessage)
| DataCancellation (c : CancellationMessage).

Record WebSocketMessage : Type := {
  MsgType : string;
  MsgJobID : string;
  MsgTimestamp : Z;
  Data : MessageData
}.

Definition MessageTypeProgress : string := "progress".
Definition MessageTypeStatus : string := "status".
Definition MessageTypeError : string := "error".
Definition MessageTypeComplete : string := "complete".
Definition MessageTypeCancelled : string := "cancelled".

Definition strField (key s : string) : list (string * json) :=
  if String.eqb s "" then [] else [(key, JStr s)].

Definition intField (key : string) (n : Z) : list (string * json) :=
  if n =? 0 then [] else [(key, JInt n)].

(** json.Marshal on the [Data] of a message, following the field tags. *)
Definition marshalData (d : MessageData) : option json :=
  match d with
  | DataProgress p =>
    pr ← marshalFloat (PuProgress p);
    el ← marshalFloat (ElapsedTime p);
    er ← marshalFloat (EstimatedTimeRemaining p);
    Some (JObj ([("jobId", JStr (PuJobID p)); ("status", JStr (PuStatus p))]
                ++ strField "currentModel" (PuCurrentModel p)
                ++ intField "currentConcurrency" (PuCurrentConcurrency p)
                ++ [("progress", pr); ("elapsedTime", el);
                    ("estimatedTimeRemaining", er)]
                ++ strField "currentStep" (PuCurrentStep p)
                ++ intField "totalSteps" (PuTotalSteps p)
                ++ intField "currentStepNumber" (CurrentStepNumber p)))
  | DataStatus s =>
    Some (JObj ([("jobId", JStr (SuJobID s)); ("status", JStr (SuStatus s))]
                ++ strField "message" (SuMessage s)
                ++ [("createdAt", JTime (SuCreatedAt s));
                    ("updatedAt", JTime (UpdatedAt s))]))
  | DataError e =>
    Some (JObj ([("jobId", JStr (EmJobID e)); ("error", JStr (EmError e));
                 ("message", JStr (EmMessage e))]
                ++ intField "code" (Code e)
                ++ strField "details" (Details e)))
  | DataCompletion c =>
    res ← match CmResults c with
          | VNil => Some []
          | r => j ← Marshal r; Some [("results", j)]
          end;
    du ← marshalFloat (Duration c);
    Some (JObj ([("jobId", JStr (CmJobID c)); ("status", JStr (CmStatus c))]
                ++ res
                ++ [("duration", du); ("completed", JTime (Completed c))]))
  | DataCancellation c =>
    Some (JObj ([("jobId", JStr (CaJobID c)); ("status", JStr (CaStatus c));
                 ("message", JStr (CaMessage c));
                 ("cancelled", JTime (Cancelled c))]
                ++ strField "reason" (Reason c)))
  end.

(** [WebSocketMessage.ToJSON] *)
Definition ToJSON (m : WebSocketMessage) : option json :=
  d ← marshalData (Data m);
  Some (JObj ([("type", JStr (MsgType m))]
              ++ strField "jobId" (MsgJobID m)
              ++ [("timestamp", JTime (MsgTimestamp m)); ("data", d)])).

(** Modelled from the spec: the hub behind [Hub.BroadcastMessage], whose
    source is not among the files at hand.  The bus hands every message it
    is given to its subscribers; the embedding records the messages that
    reach it, each standing for its encoding [ToJSON m].  A message whose
    encoding fails never reaches the hub
    ([if data, err := message.ToJSON(); err == nil]). *)
Definition broadcast (m : WebSocketMessage) : list WebSocketMessage :=
  match ToJSON m with
  | Some _ => [m]
  | None => []
  end.

(** [GetProgress]; [now] is the clock reading of [time.Since]. *)
Definition GetProgress (pt : ProgressTracker) (now : Z) : ProgressUpdate :=
  let elapsed := Seconds (Sub now (StartTime pt)) in
  let progress := (float64 (CurrentStep pt) / float64 (TotalSteps pt) * 100)%float in
  let estimatedRemaining :=
    if PrimFloat.ltb 0 progress then (elapsed / progress * (100 - progress))%float
    else 0%float in
  {| PuJobID := JobID pt; PuStatus := Status pt;
     PuCurrentModel := CurrentModel pt;
     PuCurrentConcurrency := CurrentConcurrency pt;
     PuProgress := progress; ElapsedTime := elapsed;
     EstimatedTimeRemaining := estimatedRemaining;
     PuCurrentStep :=
       (if String.eqb (CurrentModel pt) "" then "Initializing benchmark..."
        else if CurrentConcurrency pt >? 0 then
          "Testing " +:+ CurrentModel pt +:+ " with concurrency "
          +:+ fmt_d (CurrentConcurrency pt)
        else "Testing " +:+ CurrentModel pt);
     PuTotalSteps := TotalSteps pt; CurrentStepNumber := CurrentStep pt |}.

Definition broadcastProgress (pt : ProgressTracker) (currentStep : string) (now : Z)
  : list WebSocketMessage :=
  let p := GetProgress pt now in
  let progress :=
    {| PuJobID := PuJobID p; PuStatus := PuStatus p;
       PuCurrentModel := PuCurrentModel p;
       PuCurrentConcurrency := PuCurrentConcurrency p;
       PuProgress := PuProgress p; ElapsedTime := ElapsedTime p;
       EstimatedTimeRemaining := EstimatedTimeRemaining p;
       PuCurrentStep := currentStep;
       PuTotalSteps := PuTotalSteps p; CurrentStepNumber := CurrentStepNumber p |} in
  broadcast {| MsgType := MessageTypeProgress; MsgJobID := JobID pt;
               MsgTimestamp := now; Data := DataProgress progress |}.

Definition broadcastStatus (pt : ProgressTracker) (message : string) (now : Z)
  : list WebSocketMessage :=
  let status :=
    {| SuJobID := JobID pt; SuStatus := Status pt; SuMessage := message;
       SuCreatedAt := StartTime pt; UpdatedAt := now |} in
  broadcast {| MsgType := MessageTypeStatus; MsgJobID := JobID pt;
               MsgTimestamp := now; Data := DataStatus status |}.

Definition setProgress (pt : ProgressTracker) (step : Z) (model : string)
    (concurrency : Z) (last : Z) : ProgressTracker :=
  {| JobID := JobID pt; StartTime := StartTime pt; TotalSteps := TotalSteps pt;
     CurrentStep := step; CurrentModel := model;
     CurrentConcurrency := concurrency; Status := Status pt;
     lastBroadcast := last; throttleInterval := throttleInterval pt |}.

Definition setStatus (pt : ProgressTracker) (status : string) (step : Z)
  : ProgressTracker :=
  {| JobID := JobID pt; StartTime := StartTime pt; TotalSteps := TotalSteps pt;
     CurrentStep := step; CurrentModel := CurrentModel pt;
     CurrentConcurrency := CurrentConcurrency pt; Status := status;
     lastBroadcast := lastBroadcast pt; throttleInterval := throttleInterval pt |}.

(** Every method returns the tracker it leaves and the messages that
    reached the hub.  One clock reading [now] serves a whole call. *)
Definition UpdateProgress (pt : ProgressTracker) (step : Z) (model : string)
    (concurrency : Z) (currentStep : string) (now : Z)
  : ProgressTracker * list WebSocketMessage :=
  let pt := setProgress pt step model concurrency (lastBroadcast pt) in
  if Sub now (lastBroadcast pt) >=? throttleInterval pt then
    (setProgress pt step model concurrency now, broadcastProgress pt currentStep now)
  else (pt, []).

Definition SetStatus (pt : ProgressTracker) (status message : string) (now : Z)
  : ProgressTracker * list WebSocketMessage :=
  let pt := setStatus pt status (CurrentStep pt) in
  (pt, broadcastStatus pt message now).

Definition Complete (pt : ProgressTracker) (results : any) (now : Z)
  : ProgressTracker * list WebSocketMessage :=
  let pt := setStatus pt "completed" (TotalSteps pt) in
  let completion :=
    {| CmJobID := JobID pt; CmStatus := "completed"; CmResults := results;
       Duration := Seconds (Sub now (StartTime pt)); Completed := now |} in
  (pt, broadcast {| MsgType := MessageTypeComplete; MsgJobID := JobID pt;
                    MsgTimestamp := now; Data := DataCompletion completion |}).

Definition Fail (pt : ProgressTracker) (errorMsg details : string) (now : Z)
  : ProgressTracker * list WebSocketMessage :=
  let pt := setStatus pt "failed" (CurrentStep pt) in
  let errorMessage :=
    {| EmJobID := JobID pt; EmError := "Benchmark failed"; EmMessage := errorMsg;
       Code := 0; Details := details |} in
  (pt, broadcast {| MsgType := MessageTypeError; MsgJobID := JobID pt;
                    MsgTimestamp := now; Data := DataError errorMessage |}).

Definition Cancel (pt : ProgressTracker) (reason : string) (now : Z)
  : ProgressTracker * list WebSocketMessage :=
  let pt := setStatus pt "cancelled" (CurrentStep pt) in
  let cancellation :=
    {| CaJobID := JobID pt; CaStatus := "cancelled";
       CaMessage := "Benchmark cancelled"; Cancelled := now; Reason := reason |} in
  (pt, broadcast {| MsgType := MessageTypeCancelled; MsgJobID := JobID pt;
                    MsgTimestamp := now; Data := DataCancellation cancellation |}).




End Tracker.

(** ** [JobManager]: the registry of the WebSocket variant *)

Module Async.
Import GoStrings GoFloat Types Json Tracker.

(** [cancelChan] is a channel of capacity one: it holds a signal or
    not. *)
Record BenchmarkJob : Type := {
  ID : string;
  Status : string;
  Request : BenchmarkRequest;
  Progress : ProgressTracker;
  Results : any;
  Error : option string;
  CreatedAt : Z;
  StartedAt : option Z;
  CompletedAt : option Z;
  cancelChan : bool
}.

Record JobManager : Type := {
  jobs : gmap string BenchmarkJob;
  hub : list WebSocketMessage
}.

Definition NewJobManager : JobManager := {| jobs := ∅; hub := [] |}.

Definition totalStepsOf (request : BenchmarkRequest) : Z :=
  match Model2 request with
  | Some _ => wrap (Z.of_nat (length (ConcurrencyLevels request)) * 2)
  | None => Z.of_nat (length (ConcurrencyLevels request))
  end.

Definition CreateJob (jm : JobManager) (jobID : string) (request : BenchmarkRequest)
    (now : Z) : JobManager * string :=
  let job :=
    {| ID := jobID; Status := "queued"; Request := request;
       Progress := NewProgressTracker jobID (totalStepsOf request) now;
       Results := VNil; Error := None; CreatedAt := now; StartedAt := None;
       CompletedAt := None; cancelChan := false |} in
  ({| jobs := <[jobID := job]> (jobs jm); hub := hub jm |}, jobID).

Definition GetJob (jm : JobManager) (jobID : string) : option BenchmarkJob :=
  jobs jm !! jobID.

(** [StartJob], up to the [go jm.executeJob(job)].  The second component
    is the error, [None] for nil. *)
Definition StartJob (jm : JobManager) (jobID : string) (now : Z)
  : JobManager * option string :=
  match jobs jm !! jobID with
  | None => (jm, Some ("job " +:+ jobID +:+ " not found"))
  | Some job =>
    if negb (String.eqb (Status job) "queued") then
      (jm, Some ("job " +:+ jobID +:+ " is not in queued status (current: "
                 +:+ Status job +:+ ")"))
    else
      ({| jobs :=
            <[jobID :=
                {| ID := ID job; Status := "running"; Request := Request job;
                   Progress := Progress job; Results := Results job;
                   Error := Error job; CreatedAt := CreatedAt job;
                   StartedAt := Some now; CompletedAt := CompletedAt job;
                   cancelChan := cancelChan job |}]> (jobs jm);
          hub := hub jm |}, None)
  end.

Definition CancelJob (jm : JobManager) (jobID : string) (now : Z)
  : JobManager * option string :=
  match jobs jm !! jobID with
  | None => (jm, Some ("job " +:+ jobID +:+ " not found"))
  | Some job =>
    if negb (String.eqb (Status job) "running") then
      (jm, Some ("job " +:+ jobID +:+ " is not running (current: "
                 +:+ Status job +:+ ")"))
    else
      let '(pt, out) := Cancel (Progress job) "User requested cancellation" now in
      ({| jobs :=
            <[jobID :=
                {| ID := ID job; Status := "cancelled"; Request := Request job;
                   Progress := pt; Results := Results job; Error := Error job;
                   CreatedAt := CreatedAt job; StartedAt := StartedAt job;
                   CompletedAt := Some now; cancelChan := true |}]> (jobs jm);
          hub := hub jm ++ out |}, None)
  end.

(** [job.CompletedAt != nil && job.CompletedAt.Before(cutoff)] *)
Definition completedBefore (cutoff : Z) (job : BenchmarkJob) : bool :=
  match CompletedAt job with
  | Some t => t <? cutoff
  | None => false
  end.

(** [CleanupOldJobs(maxAge)] *)
Definition CleanupOldJobs (jm : JobManager) (maxAge : Z) (now : Z) : JobManager :=
  let cutoff := now - maxAge in
  {| jobs :=
       filter (λ kv : string * BenchmarkJob, completedBefore cutoff kv.2 = false)
         (jobs jm);
     hub := hub jm |}.

(** *** [executeJob]

    The goroutine works on the job it was handed, which the embedding
    reaches through the registry. *)

Inductive Call : Type :=
| CallCreateJob (jobID : string) (request : BenchmarkRequest)
| CallStartJob (jobID : string)
| CallCancelJob (jobID : string)
| CallCleanupOldJobs (maxAge : Z).

Definition call (jm : JobManager) (timed : Z * Call) : JobManager :=
  let now := timed.1 in
  match timed.2 with
  | CallCreateJob jobID request => (CreateJob jm jobID request now).1
  | CallStartJob jobID => (StartJob jm jobID now).1
  | CallCancelJob jobID => (CancelJob jm jobID now).1
  | CallCleanupOldJobs maxAge => CleanupOldJobs jm maxAge now
  end.

Definition calls (jm : JobManager) (l : list (Z * Call)) : JobManager :=
  fold_left call l jm.

(** What the goroutine meets: the clock at its [n]-th cancellation check,
    the calls the handlers make before that check, and the measurement
    engine for each step. *)
Record World : Type := {
  clockAt : nat → Z;
  beforeCheck : nat → list (Z * Call);
  Run : nat → result string SpeedResult
}.

Inductive Outcome (A : Type) : Type :=
| Value (a : A)
| Failure (err : string)
| Panic (r : string).
Arguments Value {A} a.
Arguments Failure {A} err.
Arguments Panic {A} r.

(** The goroutine's computations thread the registry and the number of
    cancellation checks made so far. *)
Definition M (A : Type) : Type := JobManager → nat → JobManager * nat * Outcome A.

Definition ret {A : Type} (a : A) : M A := λ jm n, (jm, n, Value a).

Definition bind {A B : Type} (m : M A) (k : A → M B) : M B :=
  λ jm n,
    match m jm n with
    | (jm, n, Value a) => k a jm n
    | (jm, n, Failure err) => (jm, n, Failure err)
    | (jm, n, Panic r) => (jm, n, Panic r)
    end.

#[export] Instance M_ret : MRet M := @ret.
#[export] Instance M_bind : MBind M := λ A B k m, bind m k.

(** [fmt.Errorf(prefix + "%w", err)] around a call. *)
Definition wrapError {A : Type} (prefix : string) (m : M A) : M A :=
  λ jm n,
    match m jm n with
    | (jm, n, Failure err) => (jm, n, Failure (prefix +:+ err))
    | other => other
    end.

(** A method of the job's tracker, its messages going to the hub. *)
Definition track (jobID : string)
    (f : ProgressTracker → ProgressTracker * list WebSocketMessage)
    (jm : JobManager) : JobManager :=
  match jobs jm !! jobID with
  | Some job =>
    let '(pt, out) := f (Progress job) in
    {| jobs :=
         <[jobID :=
             {| ID := ID job; Status := Status job; Request := Request job;
                Progress := pt; Results := Results job; Error := Error job;
                CreatedAt := CreatedAt job; StartedAt := StartedAt job;
                CompletedAt := CompletedAt job; cancelChan := cancelChan job |}]>
           (jobs jm);
       hub := hub jm ++ out |}
  | None => jm
  end.

(** [select { case <-job.cancelChan: return err; default: }] *)
Definition checkCancel (w : World) (jobID : string) (err : string) : M unit :=
  λ jm n,
    let jm := calls jm (beforeCheck w n) in
    match jobs jm !! jobID with
    | Some job =>
      if cancelChan job then
        ({| jobs :=
              <[jobID :=
                  {| ID := ID job; Status := Status job; Request := Request job;
                     Progress := Progress job; Results := Results job;
                     Error := Error job; CreatedAt := CreatedAt job;
                     StartedAt := StartedAt job; CompletedAt := CompletedAt job;
                     cancelChan := false |}]> (jobs jm);
            hub := hub jm |}, S n, Failure err)
      else (jm, S n, Value tt)
    | None => (jm, S n, Value tt)
    end.

Definition progress (w : World) (jobID : string) (step : Z) (model : string)
    (concurrency : Z) (currentStep : string) : M unit :=
  λ jm n,
    (track jobID
       (λ pt, UpdateProgress pt step model concurrency currentStep (clockAt w n)) jm,
     n, Value tt).

Definition runEngine (w : World) (step : nat) : M SpeedResult :=
  λ jm n,
    match Run w step with
    | Ok r => (jm, n, Value r)
    | Err e => (jm, n, Failure e)
    end.

Definition panic {A : Type} (r : string) : M A := λ jm n, (jm, n, Panic r).

(** [time.Now()] *)
Definition timeNow (w : World) : M Z := λ jm n, (jm, n, Value (clockAt w n)).

Definition runConcurrencyBenchmark (w : World) (jobID : string) (model : Model)
    (concurrency : Z) (step : nat) : M ConcurrencyResult :=
  progress w jobID (Z.of_nat step) (Name model) 0
    ("Running benchmark with concurrency " +:+ fmt_d concurrency);;
  result ← runEngine w step;
  progress w jobID (Z.of_nat step) (Name model) 100
    ("Completed benchmark with concurrency " +:+ fmt_d concurrency);;
  ret {| Concurrency := SrConcurrency result;
         GenerationThroughput := GenerationSpeed result;
         PromptThroughput := SrPromptThroughput result;
         MinTTFT := MinTtft result;
         MaxTTFT := MaxTtft result |}.

(** The loop of [runSingleModelBenchmark]; it returns the results and the
    step counter. *)
Fixpoint runLevels (w : World) (jobID : string) (model : Model) (levels : list Z)
    (step : nat) (results : list ConcurrencyResult)
  : M (list ConcurrencyResult * nat) :=
  match levels with
  | [] => ret (results, step)
  | concurrency :: rest =>
    checkCancel w jobID "benchmark cancelled";;
    progress w jobID (Z.of_nat step) (Name model) concurrency
      ("Testing " +:+ Name model +:+ " with concurrency " +:+ fmt_d concurrency);;
    result ← wrapError ("concurrency " +:+ fmt_d concurrency +:+ " failed: ")
                (runConcurrencyBenchmark w jobID model concurrency step);
    runLevels w jobID model rest (S step) (results ++ [result])
  end.

Definition runSingleModelBenchmark (w : World) (jobID : string) (model : Model)
    (levels : list Z) (step : nat) : M (BenchmarkResult * nat) :=
  rs ← runLevels w jobID model levels step [];
  now ← timeNow w;
  ret ({| ResModel := Name model; Types.Results := rs.1; Timestamp := now |}, rs.2).

(** [runBenchmarkWithProgress].  With a second model the run ends in the
    type assertion of [comparison] to a [Comparison] pointer, on the map
    that [generateComparison] returns, which panics. *)
Definition runBenchmarkWithProgress (w : World) (jobID : string)
    (request : BenchmarkRequest) : M any :=
  checkCancel w jobID "job cancelled before execution";;
  progress w jobID 0 (Name (Model1 request)) 0 "Starting Model 1 benchmark";;
  r1 ← wrapError "model 1 benchmark failed: "
          (runSingleModelBenchmark w jobID (Model1 request)
             (ConcurrencyLevels request) 0%nat);
  checkCancel w jobID "job cancelled after model 1";;
  match Model2 request with
  | Some m2 =>
    progress w jobID (Z.of_nat r1.2) (Name m2) 0 "Starting Model 2 benchmark";;
    r2 ← wrapError "model 2 benchmark failed: "
            (runSingleModelBenchmark w jobID m2 (ConcurrencyLevels request) r1.2);
    checkCancel w jobID "job cancelled after model 2";;
    progress w jobID (Z.of_nat r2.2) "" 0 "Generating comparison results";;
    panic "interface conversion: interface {} is map[string]interface {}, not *server.Comparison"
  | None =>
    ret (VResponse {| RespModel1 := Some r1.1; RespModel2 := None;
                      RespComparison := None |})
  end.

(** The locked tail of [executeJob]. *)
Definition finishJob (jm : JobManager) (jobID : string) (outcome : result string any)
    (now : Z) : JobManager :=
  match jobs jm !! jobID with
  | Some job =>
    match outcome with
    | Err err =>
      let '(pt, out) := Fail (Progress job) "Benchmark execution failed" err now in
      {| jobs :=
           <[jobID :=
               {| ID := ID job; Status := "failed"; Request := Request job;
                  Progress := pt; Results := Results job; Error := Some err;
                  CreatedAt := CreatedAt job; StartedAt := StartedAt job;
                  CompletedAt := Some now; cancelChan := cancelChan job |}]>
             (jobs jm);
         hub := hub jm ++ out |}
    | Ok results =>
      let '(pt, out) := Complete (Progress job) results now in
      {| jobs :=
           <[jobID :=
               {| ID := ID job; Status := "completed"; Request := Request job;
                  Progress := pt; Results := results; Error := Error job;
                  CreatedAt := CreatedAt job; StartedAt := StartedAt job;
                  CompletedAt := Some now; cancelChan := cancelChan job |}]>
             (jobs jm);
         hub := hub jm ++ out |}
    end
  | None => jm
  end.

Definition executeJob (w : World) (jm : JobManager) (jobID : string) : JobManager :=
  match jobs jm !! jobID with
  | Some job =>
    let jm := track jobID
        (λ pt, SetStatus pt "running" "Benchmark started" (clockAt w 0%nat)) jm in
    match runBenchmarkWithProgress w jobID (Request job) jm 0%nat with
    | (jm, n, Panic r) =>
      track jobID (λ pt, Fail pt "Internal error" ("Panic: " +:+ r) (clockAt w n)) jm
    | (jm, n, Failure err) => finishJob jm jobID (Err err) (clockAt w n)
    | (jm, n, Value results) => finishJob jm jobID (Ok results) (clockAt w n)
    end
  | None => jm
  end.

(** [AsyncBenchmarkHandler], from the bound request on: the HTTP status it
    answers with and the registry it leaves.  [bound] is what
    [ShouldBindJSON] produced, [None] when it failed. *)
Definition AsyncBenchmarkHandler (jm : JobManager) (bound : option BenchmarkRequest)
    (jobID : string) (now : Z) : JobManager * Z :=
  match bound with
  | None => (jm, 400)
  | Some req =>
    match Handlers.validateBenchmarkRequest req with
    | Some _ => (jm, 400)
    | None =>
      let jm := (CreateJob jm jobID req now).1 in
      match StartJob jm jobID now with
      | (jm, Some _) => (jm, 500)
      | (jm, None) => (jm, 202)
      end
    end
  end.

End Async.

(** ** Service bindings of the platform: [VCAP_SERVICES] *)

Module Bindings.
Import GoStrings GoFloat Json.

(** The process environment; [os.Getenv] gives the empty string for a
    variable that is not set. *)
Definition Env : Type := gmap string string.

Definition Getenv (env : Env) (key : string) : string := default EmptyString (env !! key).

(** What lies outside the program: the decoding of [VCAP_SERVICES]
    ([json.Unmarshal] into [VCAPServices], of which the [genai] list is
    kept), the HTTP request of [fetchModelsFromConfig], [url.Parse] (the
    scheme and the host it finds, [None] when it fails) and
    [strings.Map(unicode.ToLower, s)] on text that is not ASCII. *)
Record AdvertisedModel : Type := {
  AmName : string;
  Description : string;
  AmCapabilities : list string
}.

Record VCAPService : Type := {
  InstanceGUID : string;
  InstanceName : string;
  VsName : string;
  VsPlan : string;
  Credentials : option (list (string * any));
  Tags : list string;
  Label : string
}.

Record Platform : Type := {
  Unmarshal : string → result string (list VCAPService);
  fetchModelsFromConfig : string → string → result string (list AdvertisedModel);
  urlParse : string → option (string * string);
  mapLower : string → string
}.

Record ServiceEndpoint : Type := {
  SeAPIKey : string;
  APIBase : string;
  ConfigURL : string
}.

Record EnhancedModel : Type := {
  EmID : string;
  EmName : string;
  OriginalName : string;
  DisplayName : string;
  IsDefault : bool;
  Capabilities : list string;
  ServiceID : string;
  ServiceName : string;
  EmProvider : string;
  EmBaseURL : string;
  SupportsStreaming : bool;
  HasAPIKey : bool
}.

Record ServiceInfo : Type := {
  SiID : string;
  SiName : string;
  SiType : string;
  SiPlan : string;
  SiBaseURL : string;
  Models : list EnhancedModel;
  SiHasAPIKey : bool;
  SiAPIKey : string
}.

(** [m[key]] on a map of dynamic values, with the flag that tells whether
    the key is there. *)
Fixpoint lookupKey (m : list (string * any)) (key : string) : option any :=
  match m with
  | [] => None
  | (k, v) :: rest => if String.eqb k key then Some v else lookupKey rest key
  end.

(** The type assertions [x.(string)] and [x.([]interface{})] on what a
    lookup gave. *)
Definition asString (x : option any) : option string :=
  match x with
  | Some (VString s) => Some s
  | _ => None
  end.

Definition asSlice (x : option any) : option (list any) :=
  match x with
  | Some (VSlice l) => Some l
  | _ => None
  end.

(** [parseServiceEndpoint] *)
Definition parseServiceEndpoint (credentials : list (string * any))
  : result string ServiceEndpoint :=
  match lookupKey credentials "endpoint" with
  | None => Err "endpoint not found in credentials"
  | Some (VMap endpointMap) =>
    Ok {| SeAPIKey := default EmptyString (asString (lookupKey endpointMap "api_key"));
          APIBase := default EmptyString (asString (lookupKey endpointMap "api_base"));
          ConfigURL :=
            default EmptyString (asString (lookupKey endpointMap "config_url")) |}
  | Some _ => Err "endpoint is not a valid object"
  end.

(** The loop over [model_aliases] of [parseLegacyCredentials]: an alias
    that is a string and is not among the models yet is appended. *)
Fixpoint addAliases (aliases : list any) (models : list string) : list string :=
  match aliases with
  | [] => models
  | VString aliasStr :: rest =>
    if existsb (String.eqb aliasStr) models then addAliases rest models
    else addAliases rest (models ++ [aliasStr])
  | _ :: rest => addAliases rest models
  end.

(** [parseLegacyCredentials]: the API key, the base URL and the model
    names; its error is always nil. *)
Definition parseLegacyCredentials (credentials : list (string * any))
  : string * string * list string :=
  let apiKey := default EmptyString (asString (lookupKey credentials "api_key")) in
  let baseURL :=
    match asString (lookupKey credentials "api_base") with
    | Some url => url
    | None => default EmptyString (asString (lookupKey credentials "base_url"))
    end in
  let models :=
    match asString (lookupKey credentials "model_name") with
    | Some modelName => [modelName]
    | None => []
    end in
  let models :=
    match asSlice (lookupKey credentials "model_aliases") with
    | Some aliases => addAliases aliases models
    | None => models
    end in
  (apiKey, baseURL, models).

Section WithPlatform.
Variable p : Platform.

(** [getProvider] *)
Definition getProvider (baseURL : string) : string :=
  let baseURL := ToLower (mapLower p) baseURL in
  if Contains baseURL "openai.com" then "OpenAI"
  else if Contains baseURL "anthropic.com" then "Anthropic"
  else if Contains baseURL "generativelanguage.googleapis.com" then "Google"
  else if Contains baseURL "cohere.ai" then "Cohere"
  else if Contains baseURL "genai-proxy" || Contains baseURL "tanzu" then
    "GenAI on Tanzu Platform"
  else "Direct OpenAI Compatible".

(** [supportsStreaming] *)
Definition supportsStreaming (provider : string) (capabilities : list string) : bool :=
  if existsb (λ cap, String.eqb (ToLower (mapLower p) cap) "streaming") capabilities
  then true
  else String.eqb provider "OpenAI" || String.eqb provider "Anthropic"
       || String.eqb provider "Google".

Definition firstNonEmpty (a b : string) : string :=
  if String.eqb a "" then b else a.

(** The body of the loop of [DiscoverServicesFromVCAP] for one binding;
    [None] when the binding is passed over ([continue]).

    In the branch of the legacy format the results of
    [parseLegacyCredentials] are declared with [:=] inside the block: the
    [apiKey] assigned there is a variable of that block, and the [apiKey]
    of the loop body, which goes into the [ServiceInfo], keeps its zero
    value. *)
Definition discoverService (service : VCAPService) : option ServiceInfo :=
  match Credentials service with
  | None => None
  | Some credentials =>
    let serviceID :=
      firstNonEmpty (InstanceGUID service)
        (firstNonEmpty (InstanceName service) (VsName service)) in
    let serviceName := firstNonEmpty (InstanceName service) (VsName service) in
    let plan := firstNonEmpty (VsPlan service) "unknown" in
    let hasConfigURL :=
      match lookupKey credentials "endpoint" with
      | Some (VMap endpointMap) =>
        match lookupKey endpointMap "config_url" with
        | Some _ => true
        | None => false
        end
      | _ => false
      end in
    let hasModelName :=
      match lookupKey credentials "model_name" with
      | Some _ => true
      | None => false
      end in
    let serviceInfo (baseURL : string) (models : list EnhancedModel)
        (hasAPIKey : bool) (apiKey : string) : ServiceInfo :=
      {| SiID := serviceID; SiName := serviceName; SiType := "genai";
         SiPlan := plan; SiBaseURL := baseURL; Models := models;
         SiHasAPIKey := hasAPIKey; SiAPIKey := apiKey |} in
    if hasConfigURL && negb hasModelName then
      match parseServiceEndpoint credentials with
      | Err _ => None
      | Ok endpoint =>
        let baseURL := APIBase endpoint in
        let hasAPIKey := negb (String.eqb (SeAPIKey endpoint) "") in
        let models :=
          if negb (String.eqb (ConfigURL endpoint) "")
             && negb (String.eqb (SeAPIKey endpoint) "") then
            match fetchModelsFromConfig p (ConfigURL endpoint) (SeAPIKey endpoint) with
            | Err _ => []
            | Ok advertisedModels =>
              imap (λ i model,
                    {| EmID := serviceID +:+ "|" +:+ AmName model;
                       EmName := serviceID +:+ "|" +:+ AmName model;
                       OriginalName := AmName model;
                       DisplayName := Description model;
                       IsDefault := Nat.eqb i 0;
                       Capabilities := AmCapabilities model;
                       ServiceID := serviceID;
                       ServiceName := serviceName;
                       EmProvider := "GenAI on Tanzu Platform";
                       EmBaseURL := baseURL;
                       SupportsStreaming :=
                         supportsStreaming (getProvider baseURL) (AmCapabilities model);
                       HasAPIKey := hasAPIKey |}) advertisedModels
            end
          else [] in
        Some (serviceInfo baseURL models hasAPIKey (SeAPIKey endpoint))
      end
    else if hasConfigURL && hasModelName then
      match parseServiceEndpoint credentials with
      | Err _ => None
      | Ok endpoint =>
        let baseURL :=
          match asString (lookupKey credentials "api_base") with
          | Some apiBase => if String.eqb apiBase "" then APIBase endpoint else apiBase
          | None => APIBase endpoint
          end in
        let hasAPIKey := negb (String.eqb (SeAPIKey endpoint) "") in
        let models :=
          match asString (lookupKey credentials "model_name") with
          | Some modelName =>
            if String.eqb modelName "" then []
            else
              [{| EmID := serviceID +:+ "|" +:+ modelName;
                  EmName := serviceID +:+ "|" +:+ modelName;
                  OriginalName := modelName;
                  DisplayName := modelName;
                  IsDefault := true;
                  Capabilities := ["chat"%string];
                  ServiceID := serviceID;
                  ServiceName := serviceName;
                  EmProvider := "GenAI on Tanzu Platform";
                  EmBaseURL := baseURL;
                  SupportsStreaming := true;
                  HasAPIKey := hasAPIKey |}]
          | None => []
          end in
        Some (serviceInfo baseURL models hasAPIKey (SeAPIKey endpoint))
      end
    else
      let '(legacyKey, url, modelNames) := parseLegacyCredentials credentials in
      let baseURL := url in
      let hasAPIKey := negb (String.eqb legacyKey "") in
      let models :=
        imap (λ i modelName,
              {| EmID := serviceID +:+ "|" +:+ modelName;
                 EmName := serviceID +:+ "|" +:+ modelName;
                 OriginalName := modelName;
                 DisplayName := modelName;
                 IsDefault := Nat.eqb i 0;
                 Capabilities := [];
                 ServiceID := serviceID;
                 ServiceName := serviceName;
                 EmProvider := "GenAI on Tanzu Platform";
                 EmBaseURL := baseURL;
                 SupportsStreaming := supportsStreaming (getProvider baseURL) [];
                 HasAPIKey := hasAPIKey |}) modelNames in
      Some (serviceInfo baseURL models hasAPIKey EmptyString)
  end.

(** [DiscoverServicesFromVCAP] *)
Definition DiscoverServicesFromVCAP (env : Env) : result string (list ServiceInfo) :=
  let vcapServices := Getenv env "VCAP_SERVICES" in
  if String.eqb vcapServices "" then Err "VCAP_SERVICES not found"
  else
    match Unmarshal p vcapServices with
    | Err err => Err ("failed to parse VCAP_SERVICES: " +:+ err)
    | Ok services => Ok (omap discoverService services)
    end.

(** The loop of [GetAPIKeyForService]: the key of the first service of
    that identifier that has one. *)
Fixpoint findKey (services : list ServiceInfo) (serviceID : string) : option string :=
  match services with
  | [] => None
  | service :: rest =>
    if String.eqb (SiID service) serviceID && negb (String.eqb (SiAPIKey service) "")
    then Some (SiAPIKey service)
    else findKey rest serviceID
  end.

(** [GetAPIKeyForService] *)
Definition GetAPIKeyForService (env : Env) (serviceID : string) : result string string :=
  match DiscoverServicesFromVCAP env with
  | Err err => Err err
  | Ok services =>
    match findKey services serviceID with
    | Some apiKey => Ok apiKey
    | None => Err ("API key not found for service " +:+ serviceID)
    end
  end.

(** [IsVCAPServicesAvailable] *)
Definition IsVCAPServicesAvailable (env : Env) : bool :=
  negb (String.eqb (Getenv env "VCAP_SERVICES") "").

End WithPlatform.

End Bindings.

(** ** Configuration from environment variables *)

Module EnvConfig.
Import GoStrings Json Bindings.

Record ModelConfig : Type := {
  McName : string;
  McBaseURL : string;
  McAPIKey : string;
  McServiceID : string;
  McServiceName : string;
  McIsDefault : bool
}.

Record EnvironmentConfig : Type := {
  Source : string;
  Services : list ServiceInfo;
  LastUpdated : Z
}.

Section WithPlatform.
Variable p : Platform.

(** [parseModel1Config] and [parseModel2Config] *)
Definition parseModel1Config (env : Env) : result string ModelConfig :=
  let name := Getenv env "MODEL1_NAME" in
  if String.eqb name "" then Err "MODEL1_NAME not set"
  else
    let baseURL := Getenv env "MODEL1_BASE_URL" in
    if String.eqb baseURL "" then Err "MODEL1_BASE_URL not set"
    else
      match urlParse p baseURL with
      | None => Err "invalid MODEL1_BASE_URL"
      | Some _ =>
        Ok {| McName := name; McBaseURL := baseURL;
              McAPIKey := Getenv env "MODEL1_API_KEY";
              McServiceID := "model1"; McServiceName := "Model 1";
              McIsDefault := true |}
      end.

Definition parseModel2Config (env : Env) : result string ModelConfig :=
  let name := Getenv env "MODEL2_NAME" in
  if String.eqb name "" then Err "MODEL2_NAME not set"
  else
    let baseURL := Getenv env "MODEL2_BASE_URL" in
    if String.eqb baseURL "" then Err "MODEL2_BASE_URL not set"
    else
      match urlParse p baseURL with
      | None => Err "invalid MODEL2_BASE_URL"
      | Some _ =>
        Ok {| McName := name; McBaseURL := baseURL;
              McAPIKey := Getenv env "MODEL2_API_KEY";
              McServiceID := "model2"; McServiceName := "Model 2";
              McIsDefault := false |}
      end.

(** The loop of [parseGenericConfig] over the names of [MODELS]; [i] is
    the index in the list that [strings.Split] gave. *)
Fixpoint genericModels (baseURL : string) (hasAPIKey : bool) (i : nat)
    (modelNames : list string) : list EnhancedModel :=
  match modelNames with
  | [] => []
  | name :: rest =>
    let name := TrimSpace name in
    if String.eqb name "" then genericModels baseURL hasAPIKey (S i) rest
    else
      {| EmID := "generic|" +:+ name;
         EmName := "generic|" +:+ name;
         OriginalName := name;
         DisplayName := name;
         IsDefault := Nat.eqb i 0;
         Capabilities := [];
         ServiceID := "generic";
         ServiceName := "Generic Service";
         EmProvider := getProvider p baseURL;
         EmBaseURL := baseURL;
         SupportsStreaming := supportsStreaming p (getProvider p baseURL) [];
         HasAPIKey := hasAPIKey |}
      :: genericModels baseURL hasAPIKey (S i) rest
  end.

(** [parseGenericConfig] *)
Definition parseGenericConfig (env : Env) : result string (list ServiceInfo) :=
  let baseURL := Getenv env "BASE_URL" in
  let apiKey := Getenv env "API_KEY" in
  let modelsStr := Getenv env "MODELS" in
  if String.eqb baseURL "" && String.eqb apiKey "" && String.eqb modelsStr "" then
    Err "no generic configuration found"
  else
    let baseURL := if String.eqb baseURL "" then "https://api.openai.com/v1" else baseURL in
    match urlParse p baseURL with
    | None => Err "invalid BASE_URL"
    | Some _ =>
      let modelsStr := if String.eqb modelsStr "" then "gpt-4,gpt-3.5-turbo" else modelsStr in
      let models :=
        genericModels baseURL (negb (String.eqb apiKey "")) 0 (Split modelsStr ",") in
      match models with
      | [] => Err "no valid models found in MODELS configuration"
      | _ =>
        Ok [{| SiID := "generic"; SiName := "Generic Service"; SiType := "environment";
               SiPlan := "default"; SiBaseURL := baseURL; Models := models;
               SiHasAPIKey := negb (String.eqb apiKey ""); SiAPIKey := EmptyString |}]
      end
    end.

(** [createServiceFromModelConfig] *)
Definition createServiceFromModelConfig (config : ModelConfig)
    (serviceID serviceName : string) : ServiceInfo :=
  let enhancedModel :=
    {| EmID := serviceID +:+ "|" +:+ McName config;
       EmName := serviceID +:+ "|" +:+ McName config;
       OriginalName := McName config;
       DisplayName := McName config;
       IsDefault := McIsDefault config;
       Capabilities := [];
       ServiceID := serviceID;
       ServiceName := serviceName;
       EmProvider := getProvider p (McBaseURL config);
       EmBaseURL := McBaseURL config;
       SupportsStreaming := supportsStreaming p (getProvider p (McBaseURL config)) [];
       HasAPIKey := negb (String.eqb (McAPIKey config) "") |} in
  {| SiID := serviceID; SiName := serviceName; SiType := "environment";
     SiPlan := "default"; SiBaseURL := McBaseURL config; Models := [enhancedModel];
     SiHasAPIKey := negb (String.eqb (McAPIKey config) ""); SiAPIKey := EmptyString |}.

(** [DiscoverServicesFromEnvironment]; its error is always nil. *)
Definition DiscoverServicesFromEnvironment (env : Env) : list ServiceInfo :=
  let services :=
    match parseModel1Config env with
    | Ok model1Config => [createServiceFromModelConfig model1Config "model1" "Model 1"]
    | Err _ => []
    end
    ++ match parseModel2Config env with
       | Ok model2Config => [createServiceFromModelConfig model2Config "model2" "Model 2"]
       | Err _ => []
       end in
  match services with
  | _ :: _ => services
  | [] =>
    match parseGenericConfig env with
    | Ok (service :: rest) => service :: rest
    | _ => []
    end
  end.

(** [GetAPIKeyForEnvironmentModel] *)
Definition GetAPIKeyForEnvironmentModel (env : Env) (serviceID : string)
  : result string string :=
  if String.eqb serviceID "model1" then
    let apiKey := Getenv env "MODEL1_API_KEY" in
    if String.eqb apiKey "" then Err "MODEL1_API_KEY not set" else Ok apiKey
  else if String.eqb serviceID "model2" then
    let apiKey := Getenv env "MODEL2_API_KEY" in
    if String.eqb apiKey "" then Err "MODEL2_API_KEY not set" else Ok apiKey
  else if String.eqb serviceID "generic" then
    let apiKey := Getenv env "API_KEY" in
    if String.eqb apiKey "" then Err "API_KEY not set" else Ok apiKey
  else Err ("unknown service ID: " +:+ serviceID).

(** [IsEnvironmentConfigAvailable] *)
Definition IsEnvironmentConfigAvailable (env : Env) : bool :=
  let set key := negb (String.eqb (Getenv env key) "") in
  if set "MODEL1_NAME" && set "MODEL1_BASE_URL" then true
  else if set "MODEL2_NAME" && set "MODEL2_BASE_URL" then true
  else set "API_KEY" || set "BASE_URL" || set "MODELS".

(** [isValidURL] *)
Definition isValidURL (urlStr : string) : bool :=
  match urlParse p urlStr with
  | None => false
  | Some (scheme, host) => negb (String.eqb scheme "") && negb (String.eqb host "")
  end.

(** [ValidateEnvironmentConfig] *)
Definition ValidateEnvironmentConfig (env : Env) : list string :=
  let check (nameKey urlKey : string) : list string :=
    if String.eqb (Getenv env nameKey) "" then []
    else
      let baseURL := Getenv env urlKey in
      if String.eqb baseURL "" then [urlKey +:+ " is required when " +:+ nameKey +:+ " is set"]
      else if negb (isValidURL baseURL) then ["Invalid " +:+ urlKey +:+ ": " +:+ baseURL]
      else [] in
  check "MODEL1_NAME" "MODEL1_BASE_URL"
  ++ check "MODEL2_NAME" "MODEL2_BASE_URL"
  ++ (let baseURL := Getenv env "BASE_URL" in
      if String.eqb baseURL "" then []
      else if negb (isValidURL baseURL) then ["Invalid BASE_URL: " +:+ baseURL]
      else []).

(** [createDefaultServices] *)
Definition defaultModel (name displayName : string) (isDefault : bool) : EnhancedModel :=
  {| EmID := "default|" +:+ name; EmName := "default|" +:+ name;
     OriginalName := name; DisplayName := displayName; IsDefault := isDefault;
     Capabilities := ["chat"%string]; ServiceID := "default";
     ServiceName := "Default OpenAI"; EmProvider := "OpenAI";
     EmBaseURL := "https://api.openai.com/v1"; SupportsStreaming := true;
     HasAPIKey := false |}.

Definition createDefaultServices : list ServiceInfo :=
  [{| SiID := "default"; SiName := "Default OpenAI"; SiType := "default";
      SiPlan := "default"; SiBaseURL := "https://api.openai.com/v1";
      Models := [defaultModel "gpt-4" "GPT-4" true;
                 defaultModel "gpt-3.5-turbo" "GPT-3.5 Turbo" false];
      SiHasAPIKey := false; SiAPIKey := EmptyString |}].

(** [GetUnifiedConfiguration]; its error is always nil. *)
Definition GetUnifiedConfiguration (env : Env) (now : Z) : EnvironmentConfig :=
  let '(allServices, source) :=
    if IsVCAPServicesAvailable env then
      match DiscoverServicesFromVCAP p env with
      | Err _ => ([], "none"%string)
      | Ok cfServices => (cfServices, "cloud-foundry"%string)
      end
    else ([], "none"%string) in
  let '(allServices, source) :=
    match allServices with
    | [] => (DiscoverServicesFromEnvironment env, "environment"%string)
    | _ => (allServices, source)
    end in
  let '(allServices, source) :=
    match allServices with
    | [] => (createDefaultServices, "default"%string)
    | _ => (allServices, source)
    end in
  {| Source := source; Services := allServices; LastUpdated := now |}.

End WithPlatform.

End EnvConfig.

(** ** Model discovery and its cache *)

Module ModelDiscovery.
Import GoStrings Types Json Bindings EnvConfig.

Record EnhancedModelsResponse : Type := {
  RespModels : list EnhancedModel;
  Count : Z;
  RespSource : string;
  RespTimestamp : Z
}.

(** [models] is [None] for the nil slice. *)
Record ModelDiscoveryCache : Type := {
  models : option (list EnhancedModel);
  source : string;
  timestamp : Z;
  ttl : Z
}.

Record cachedModels : Type := {
  CmModels : list EnhancedModel;
  CmSource : string;
  CmTimestamp : Z
}.

Definition Minute : Z := 60 * Tracker.Second.

(** The package variable [modelCache] as the program starts. *)
Definition modelCache : ModelDiscoveryCache :=
  {| models := None; source := EmptyString; timestamp := 0; ttl := 5 * Minute |}.

(** [get]; [now] is the clock reading of [time.Since]. *)
Definition get (c : ModelDiscoveryCache) (now : Z) : option cachedModels :=
  match models c with
  | None => None
  | Some ms =>
    if Tracker.Sub now (timestamp c) >? ttl c then None
    else Some {| CmModels := ms; CmSource := source c; CmTimestamp := timestamp c |}
  end.

(** [set]; the slices it is given are never nil. *)
Definition set (c : ModelDiscoveryCache) (ms : list EnhancedModel) (src : string)
    (time : Z) : ModelDiscoveryCache :=
  {| models := Some ms; source := src; timestamp := time; ttl := ttl c |}.

(** [InvalidateModelCache] *)
Definition InvalidateModelCache (c : ModelDiscoveryCache) : ModelDiscoveryCache :=
  {| models := None; source := EmptyString; timestamp := 0; ttl := ttl c |}.

(** [getDefaultEnhancedModels] *)
Definition getDefaultEnhancedModels : list EnhancedModel :=
  [{| EmID := "gpt-4"; EmName := "gpt-4"; OriginalName := "gpt-4";
      DisplayName := "GPT-4"; IsDefault := true;
      Capabilities := ["chat"; "streaming"; "function-calling"]%string;
      ServiceID := "default"; ServiceName := "Default OpenAI Service";
      EmProvider := "OpenAI"; EmBaseURL := "https://api.openai.com/v1";
      SupportsStreaming := true; HasAPIKey := false |};
   {| EmID := "gpt-3.5-turbo"; EmName := "gpt-3.5-turbo";
      OriginalName := "gpt-3.5-turbo"; DisplayName := "GPT-3.5 Turbo";
      IsDefault := false; Capabilities := ["chat"; "streaming"]%string;
      ServiceID := "default"; ServiceName := "Default OpenAI Service";
      EmProvider := "OpenAI"; EmBaseURL := "https://api.openai.com/v1";
      SupportsStreaming := true; HasAPIKey := false |}].

(** [enhancedModels[0].IsDefault = true] *)
Definition markFirstDefault (ms : list EnhancedModel) : list EnhancedModel :=
  match ms with
  | [] => []
  | m :: rest =>
    {| EmID := EmID m; EmName := EmName m; OriginalName := OriginalName m;
       DisplayName := DisplayName m; IsDefault := true;
       Capabilities := Capabilities m; ServiceID := ServiceID m;
       ServiceName := ServiceName m; EmProvider := EmProvider m;
       EmBaseURL := EmBaseURL m; SupportsStreaming := SupportsStreaming m;
       HasAPIKey := HasAPIKey m |} :: rest
  end.

Section WithPlatform.
Variable p : Platform.

Definition keyAvailable (r : result string string) : bool :=
  match r with
  | Ok apiKey => negb (String.eqb apiKey "")
  | Err _ => false
  end.

(** The inner loop of [DiscoverEnhancedModels] for one service. *)
Definition enhance (env : Env) (service : ServiceInfo) : list EnhancedModel :=
  map (λ enhancedModel,
       let hasAPIKey :=
         if IsVCAPServicesAvailable env then
           keyAvailable (GetAPIKeyForService p env (SiID service))
         else keyAvailable (GetAPIKeyForEnvironmentModel env (SiID service)) in
       {| EmID := EmID enhancedModel; EmName := EmID enhancedModel;
          OriginalName := OriginalName enhancedModel;
          DisplayName := DisplayName enhancedModel; IsDefault := false;
          Capabilities := Capabilities enhancedModel; ServiceID := SiID service;
          ServiceName := SiName service; EmProvider := EmProvider enhancedModel;
          EmBaseURL := EmBaseURL enhancedModel;
          SupportsStreaming := SupportsStreaming enhancedModel;
          HasAPIKey := hasAPIKey |}) (Models service).

(** [DiscoverEnhancedModels]: the cache it leaves and its answer.
    [GetUnifiedConfiguration] returns no error, and the fallback
    [discoverEnhancedModelsLegacy] is never called. *)
Definition DiscoverEnhancedModels (env : Env) (cache : ModelDiscoveryCache) (now : Z)
  : ModelDiscoveryCache * EnhancedModelsResponse :=
  match get cache now with
  | Some cached =>
    (cache, {| RespModels := CmModels cached;
               Count := Z.of_nat (length (CmModels cached));
               RespSource := CmSource cached; RespTimestamp := CmTimestamp cached |})
  | None =>
    let config := GetUnifiedConfiguration p env now in
    let source :=
      if IsVCAPServicesAvailable env then "cloud-foundry"%string
      else "environment"%string in
    let enhancedModels := flat_map (enhance env) (Services config) in
    let '(enhancedModels, source) :=
      match enhancedModels with
      | [] => (getDefaultEnhancedModels, "default"%string)
      | _ => (enhancedModels, source)
      end in
    let enhancedModels := markFirstDefault enhancedModels in
    (set cache enhancedModels source now,
     {| RespModels := enhancedModels;
        Count := Z.of_nat (length enhancedModels);
        RespSource := source; RespTimestamp := now |})
  end.

(** [convertEnhancedToLegacyModel] *)
Definition convertEnhancedToLegacyModel (enhanced : EnhancedModel) : Model :=
  {| ID := EmID enhanced; Name := EmName enhanced; Provider := EmProvider enhanced;
     BaseURL := EmBaseURL enhanced; APIKey := EmptyString |}.

(** *** [discoverModels] of server/handlers.go *)

Definition localModel (name baseURL : string) : Model :=
  {| ID := name; Name := name; Provider := "Direct OpenAI Compatible";
     BaseURL := baseURL; APIKey := EmptyString |}.

Fixpoint namedModels (baseURL : string) (modelNames : list string) : list Model :=
  match modelNames with
  | [] => []
  | name :: rest =>
    let name := TrimSpace name in
    if String.eqb name "" then namedModels baseURL rest
    else localModel name baseURL :: namedModels baseURL rest
  end.

Definition defaultModels : list Model :=
  [{| ID := "gpt-4"; Name := "GPT-4"; Provider := "OpenAI";
      BaseURL := "https://api.openai.com/v1"; APIKey := EmptyString |};
   {| ID := "gpt-3.5-turbo"; Name := "GPT-3.5 Turbo"; Provider := "OpenAI";
      BaseURL := "https://api.openai.com/v1"; APIKey := EmptyString |}].

(** The models of the first step: [MODEL1_NAME] and [MODEL2_NAME], or
    else the names of [MODELS]. *)
Definition localModels (env : Env) : list Model :=
  let models :=
    (if String.eqb (Getenv env "MODEL1_NAME") "" then []
     else [localModel (Getenv env "MODEL1_NAME") (Getenv env "MODEL1_BASE_URL")])
    ++ (if String.eqb (Getenv env "MODEL2_NAME") "" then []
        else [localModel (Getenv env "MODEL2_NAME") (Getenv env "MODEL2_BASE_URL")]) in
  match models with
  | _ :: _ => models
  | [] =>
    let modelsStr := Getenv env "MODELS" in
    if String.eqb modelsStr "" then []
    else
      let baseURL :=
        if String.eqb (Getenv env "BASE_URL") "" then "https://api.openai.com/v1"
        else Getenv env "BASE_URL" in
      namedModels baseURL (Split modelsStr ",")
  end.

Definition displayed (enhanced : EnhancedModel) : Model :=
  let displayName :=
    firstNonEmpty (DisplayName enhanced)
      (firstNonEmpty (OriginalName enhanced) (EmName enhanced)) in
  {| ID := EmID enhanced; Name := displayName; Provider := EmProvider enhanced;
     BaseURL := EmBaseURL enhanced; APIKey := EmptyString |}.

(** [discoverModels]: the cache it leaves and the models. *)
Definition discoverModels (env : Env) (cache : ModelDiscoveryCache) (now : Z)
  : ModelDiscoveryCache * list Model :=
  match localModels env with
  | m :: rest => (cache, m :: rest)
  | [] =>
    let '(cache, enhancedResponse) := DiscoverEnhancedModels env cache now in
    match map displayed (RespModels enhancedResponse) with
    | m :: rest => (cache, m :: rest)
    | [] => (cache, defaultModels)
    end
  end.

(** *** [getAPIKeyForModel] of server/handlers.go *)

Definition getAPIKeyForModel (env : Env) (model : Model) : string :=
  if negb (String.eqb (APIKey model) "") then APIKey model
  else
    let step1 : option string :=
      if negb (String.eqb (Name model) "") && negb (Contains (Name model) "|") then
        let model1Name := Getenv env "MODEL1_NAME" in
        if negb (String.eqb model1Name "") && String.eqb model1Name (Name model)
           && negb (String.eqb (Getenv env "MODEL1_API_KEY") "")
        then Some (Getenv env "MODEL1_API_KEY")
        else
          let model2Name := Getenv env "MODEL2_NAME" in
          if negb (String.eqb model2Name "") && String.eqb model2Name (Name model)
             && negb (String.eqb (Getenv env "MODEL2_API_KEY") "")
          then Some (Getenv env "MODEL2_API_KEY")
          else None
      else None in
    match step1 with
    | Some key => key
    | None =>
      let step2 : option string :=
        if negb (String.eqb (ID model) "") && Contains (ID model) "|" then
          match SplitN (ID model) "|" 2 with
          | [serviceID; _] =>
            let fromVCAP :=
              if IsVCAPServicesAvailable env then
                match GetAPIKeyForService p env serviceID with
                | Ok apiKey => if String.eqb apiKey "" then None else Some apiKey
                | Err _ => None
                end
              else None in
            match fromVCAP with
            | Some apiKey => Some apiKey
            | None =>
              match GetAPIKeyForEnvironmentModel env serviceID with
              | Ok apiKey => if String.eqb apiKey "" then None else Some apiKey
              | Err _ => None
              end
            end
          | _ => None
          end
        else None in
      match step2 with
      | Some apiKey => apiKey
      | None => Getenv env "API_KEY"
      end
    end.

End WithPlatform.

End ModelDiscovery.

(** ** The SSE listeners of server/simple_job_manager.go *)

Module Listeners.

(** A channel of job pointers, named by a number: the pointers it
    holds (a job is named by its identifier), its capacity, and whether
    it has been closed. *)
Record Chan : Type := {
  buffer : list string;
  capacity : nat;
  closed : bool
}.

(** The field [listeners] of the manager with the channels it refers
    to. *)
Record Registry : Type := {
  listeners : gmap string (list nat);
  chans : gmap nat Chan
}.

(** A call returns the registry it leaves, or panics. *)
Inductive Outcome : Type :=
| Returns (r : Registry)
| Panics (reason : string).

(** [make(chan *SimpleJob, capacity)] under the name [ch]. *)
Definition makeChan (r : Registry) (ch : nat) (cap : nat) : Registry :=
  {| listeners := listeners r;
     chans := <[ch := {| buffer := []; capacity := cap; closed := false |}]> (chans r) |}.

(** [RegisterSSEListener] *)
Definition RegisterSSEListener (r : Registry) (jobID : string) (updateChan : nat)
  : Registry :=
  {| listeners :=
       <[jobID := default [] (listeners r !! jobID) ++ [updateChan]]> (listeners r);
     chans := chans r |}.

(** [append(listeners[:i], listeners[i+1:]...)] for the first [i] at which
    the channel stands. *)
Fixpoint removeFirst (ch : nat) (l : list nat) : list nat :=
  match l with
  | [] => []
  | x :: rest => if Nat.eqb x ch then rest else x :: removeFirst ch rest
  end.

(** [close(ch)] *)
Definition close (r : Registry) (ch : nat) : Outcome :=
  match chans r !! ch with
  | None => Panics "close of nil channel"
  | Some c =>
    if closed c then Panics "close of closed channel"
    else
      Returns {| listeners := listeners r;
                 chans := <[ch := {| buffer := buffer c; capacity := capacity c;
                                     closed := true |}]> (chans r) |}
  end.

(** [if len(jm.listeners[jobID]) == 0 { delete(jm.listeners, jobID) }] *)
Definition dropEmpty (r : Registry) (jobID : string) : Registry :=
  match listeners r !! jobID with
  | Some (_ :: _) => r
  | _ => {| listeners := delete jobID (listeners r); chans := chans r |}
  end.

(** [UnregisterSSEListener] *)
Definition UnregisterSSEListener (r : Registry) (jobID : string) (updateChan : nat)
  : Outcome :=
  match listeners r !! jobID with
  | None => Returns r
  | Some ls =>
    if existsb (Nat.eqb updateChan) ls then
      let r :=
        {| listeners := <[jobID := removeFirst updateChan ls]> (listeners r);
           chans := chans r |} in
      match close r updateChan with
      | Returns r => Returns (dropEmpty r jobID)
      | Panics reason => Panics reason
      end
    else Returns (dropEmpty r jobID)
  end.

(** [select { case ch <- job: default: }]: the job goes into the buffer
    when there is room, and is dropped when the channel is full; sending
    on a closed channel panics; a nil channel is never ready. *)
Definition trySend (r : Registry) (ch : nat) (job : string) : Outcome :=
  match chans r !! ch with
  | None => Returns r
  | Some c =>
    if closed c then Panics "send on closed channel"
    else if (length (buffer c) <? capacity c)%nat then
      Returns {| listeners := listeners r;
                 chans := <[ch := {| buffer := buffer c ++ [job];
                                     capacity := capacity c;
                                     closed := false |}]> (chans r) |}
    else Returns r
  end.

Fixpoint sendAll (r : Registry) (ls : list nat) (job : string) : Outcome :=
  match ls with
  | [] => Returns r
  | ch :: rest =>
    match trySend r ch job with
    | Returns r => sendAll r rest job
    | Panics reason => Panics reason
    end
  end.

(** [broadcastUpdate] *)
Definition broadcastUpdate (r : Registry) (jobID : string) (job : string) : Outcome :=
  match listeners r !! jobID with
  | Some ls => sendAll r ls job
  | None => Returns r
  end.

(** [updatedJob := <-updateChan] when the channel holds a job: the
    oldest one leaves the buffer. *)
Definition receive (r : Registry) (ch : nat) : Registry * option string :=
  match chans r !! ch with
  | Some c =>
    match buffer c with
    | job :: rest =>
      ({| listeners := listeners r;
          chans := <[ch := {| buffer := rest; capacity := capacity c;
                              closed := closed c |}]> (chans r) |}, Some job)
    | [] => (r, None)
    end
  | None => (r, None)
  end.

End Listeners.

(** ** server/handlers.go: the synchronous benchmark and the export *)

Module Sync.
Import GoStrings GoFloat Types Handlers Json Simple.

(** [escapeCsvField] *)
Definition escapeCsvField (field : string) : string :=
  if ContainsAny field (String "," (String quote (String newline EmptyString))) then
    String quote
      (ReplaceAll field (String quote EmptyString)
         (String quote (String quote EmptyString)))
    +:+ String quote EmptyString
  else field.

(** The averages of [compareResults]: the sum of the figures in the
    order of the results, over their number; 0 when there is none. *)
Definition average (f : ConcurrencyResult → float) (results : list ConcurrencyResult)
  : float :=
  match results with
  | [] => 0%float
  | _ =>
    (fold_left (λ acc r, acc + f r) results 0 / float64 (Z.of_nat (length results)))%float
  end.

Definition meanTTFT (r : ConcurrencyResult) : float := ((MinTTFT r + MaxTTFT r) / 2)%float.

Definition difference (a b : float) : float := ((a - b) / b * 100)%float.

(** The constant 1.05 as a float64. *)
Definition threshold : float := 0x1.0cccccccccccdp+0%float.

(** [compareResults] *)
Definition compareResults (result1 result2 : BenchmarkResult) : Comparison :=
  let avgGen1 := average GenerationThroughput (Results result1) in
  let avgPrompt1 := average PromptThroughput (Results result1) in
  let avgTTFT1 := average meanTTFT (Results result1) in
  let avgGen2 := average GenerationThroughput (Results result2) in
  let avgPrompt2 := average PromptThroughput (Results result2) in
  let avgTTFT2 := average meanTTFT (Results result2) in
  let differences :=
    (if PrimFloat.ltb 0 avgGen2 then
       [("generationThroughput"%string, difference avgGen1 avgGen2)] else [])
    ++ (if PrimFloat.ltb 0 avgPrompt2 then
          [("promptThroughput"%string, difference avgPrompt1 avgPrompt2)] else [])
    ++ (if PrimFloat.ltb 0 avgTTFT2 then
          [("timeToFirstToken"%string, difference avgTTFT1 avgTTFT2)] else []) in
  let winner :=
    if PrimFloat.ltb (avgGen2 * threshold) avgGen1 then "model1"%string
    else if PrimFloat.ltb (avgGen1 * threshold) avgGen2 then "model2"%string
    else "tie"%string in
  {| Winner := winner; Differences := differences |}.

(** What a run of the handler threads: the registry, the number of
    cancellation checks made and the number of rounds run. *)
Definition Thread : Type := SimpleJobManager * nat * nat.

(** The loop of [runSingleBenchmarkWithContext]. *)
Fixpoint syncLevels (w : World) (levels : list Z) (results : list ConcurrencyResult)
    (t : Thread) : Thread * result string (list ConcurrencyResult) :=
  match levels with
  | [] => (t, Ok results)
  | concurrency :: rest =>
    let '(jm, check, step) := t in
    let jm := calls jm (beforeCheck w check) in
    if Done jm (newContext w) then ((jm, S check, step), Err "context canceled")
    else
      let outcome := Run w step in
      let jm := calls jm (whileRunning w step) in
      match outcome with
      | Err err =>
        ((jm, S check, S step), Err ("concurrency " +:+ fmt_d concurrency +:+ ": " +:+ err))
      | Ok result =>
        syncLevels w rest (results ++ [sanitizedResult concurrency result])
          (jm, S check, S step)
      end
  end.

(** [runSingleBenchmarkWithContext] *)
Definition runSingleBenchmarkWithContext (w : World) (model : Model)
    (concurrencyLevels : list Z) (t : Thread) : Thread * result string BenchmarkResult :=
  let '(jm, check, step) := t in
  let jm := calls jm (beforeCheck w check) in
  if Done jm (newContext w) then ((jm, S check, step), Err "context canceled")
  else if String.eqb (getAPIKeyForModel w model) "" then
    ((jm, S check, step), Err ("no API key found for model " +:+ Name model))
  else
    match syncLevels w concurrencyLevels [] (jm, S check, step) with
    | (t, Err err) => (t, Err err)
    | (t, Ok results) =>
      (t, Ok {| ResModel := Name model; Results := results; Timestamp := clock w |})
    end.

(** [cancelFunc()] *)
Definition cancel (jm : SimpleJobManager) (c : nat) : SimpleJobManager :=
  {| jobs := jobs jm; activeJobCount := activeJobCount jm;
     cancelled := {[c]} ∪ cancelled jm |}.

(** [BenchmarkHandler], from the bound request on ([bound] is [None]
    when [ShouldBindJSON] failed): the registry it leaves and the HTTP
    status of its answer. *)
Definition BenchmarkHandler (jm : SimpleJobManager) (bound : option BenchmarkRequest)
    (jobID : string) (now : Z) (w : World) : SimpleJobManager * Z :=
  match bound with
  | None => (jm, 400)
  | Some req =>
    match validateBenchmarkRequest req with
    | Some _ => (jm, 400)
    | None =>
      let jm := (CreateJob jm jobID req now).1 in
      let jm := SetJobContext jm jobID (newContext w) (newContext w) in
      let failed (jm : SimpleJobManager) (name err : string) :=
        (cancel (FailJob jm jobID ("Failed to benchmark " +:+ name +:+ ": " +:+ err)
                   (clock w)) (newContext w), 500) in
      let completed (jm : SimpleJobManager) (response : ComparisonResponse) :=
        (cancel (CompleteJob (calls jm (beforeCompletion w)) jobID (VResponse response)
                   (clock w)) (newContext w), 200) in
      match runSingleBenchmarkWithContext w (Model1 req) (ConcurrencyLevels req)
              (jm, 0%nat, 0%nat) with
      | ((jm, _, _), Err err) => failed jm (Name (Model1 req)) err
      | ((jm, check, step), Ok result1) =>
        match Model2 req with
        | None =>
          completed jm {| RespModel1 := Some result1; RespModel2 := None;
                          RespComparison := None |}
        | Some model2 =>
          let jm := calls jm (beforeCheck w check) in
          if Done jm (newContext w) then
            (FailJob jm jobID "Job cancelled by user" (clock w), 408)
          else
            match runSingleBenchmarkWithContext w model2 (ConcurrencyLevels req)
                    (jm, S check, step) with
            | ((jm, _, _), Err err) => failed jm (Name model2) err
            | ((jm, _, _), Ok result2) =>
              completed jm {| RespModel1 := Some result1; RespModel2 := Some result2;
                              RespComparison := Some (compareResults result1 result2) |}
            end
        end
      end
    end
  end.

End Sync.

(** ** The handlers of the SSE variant (server/types.go) *)

Module SimpleHandlers.
Import GoStrings Types Simple.

(** [StartBenchmark], from the bound request on: the registry, the HTTP
    status, and the job for which [go RunBenchmark] is started. *)
Definition StartBenchmark (jm : SimpleJobManager) (bound : option BenchmarkRequest)
    (jobID : string) (now : Z) : SimpleJobManager * Z * option string :=
  match bound with
  | None => (jm, 400, None)
  | Some request =>
    if String.eqb (Name (Model1 request)) "" then (jm, 400, None)
    else if (length (ConcurrencyLevels request) =? 0)%nat then (jm, 400, None)
    else
      let '(jm, jobID) := CreateJob jm jobID request now in
      (jm, 202, Some jobID)
  end.

(** [GetJobStatus] *)
Definition GetJobStatus (jm : SimpleJobManager) (jobID : string) : Z * option SimpleJob :=
  match GetJob jm jobID with
  | Some job => (200, Some job)
  | None => (404, None)
  end.

(** [CancelJob] of the handlers *)
Definition CancelJob (jm : SimpleJobManager) (jobID : string) (now : Z)
  : SimpleJobManager * Z :=
  let '(jm, ok) := Simple.CancelJob jm jobID now in
  (jm, if ok then 200 else 404).

(** [CleanupJobs] *)
Definition CleanupJobs (jm : SimpleJobManager) (now : Z) : SimpleJobManager * Z :=
  (CleanupOldJobs jm now, 200).

End SimpleHandlers.

(** ** CORS (the middleware file) *)

Module Cors.
Import GoStrings Bindings.

Record CORSConfig : Type := {
  AllowOrigins : list string;
  AllowMethods : list string;
  AllowHeaders : list string;
  AllowCredentials : bool;
  MaxAge : Z
}.

(** [DefaultCORSConfig] *)
Definition DefaultCORSConfig : CORSConfig :=
  {| AllowOrigins := ["*"%string];
     AllowMethods := ["GET"; "POST"; "PUT"; "DELETE"; "OPTIONS"; "PATCH"]%string;
     AllowHeaders := ["Content-Type"; "Content-Length"; "Accept-Encoding";
                      "X-CSRF-Token"; "Authorization"; "accept"; "origin";
                      "Cache-Control"; "X-Requested-With"]%string;
     AllowCredentials := true;
     MaxAge := 86400 |}.

Definition trimmed (value : string) : list string := map TrimSpace (Split value ",").

(** [LoadCORSConfigFromEnv] *)
Definition LoadCORSConfigFromEnv (env : Env) : CORSConfig :=
  let config := DefaultCORSConfig in
  let origins :=
    if negb (String.eqb (Getenv env "CORS_ORIGIN") "") then
      trimmed (Getenv env "CORS_ORIGIN")
    else if negb (String.eqb (Getenv env "CORS_ALLOW_ORIGINS") "") then
      trimmed (Getenv env "CORS_ALLOW_ORIGINS")
    else AllowOrigins config in
  let methods :=
    if negb (String.eqb (Getenv env "CORS_ALLOW_METHODS") "") then
      trimmed (Getenv env "CORS_ALLOW_METHODS")
    else AllowMethods config in
  {| AllowOrigins := origins; AllowMethods := methods;
     AllowHeaders := AllowHeaders config;
     AllowCredentials := AllowCredentials config; MaxAge := MaxAge config |}.

(** The header of the response: [Set] replaces the value of a key. *)
Definition Header : Type := gmap string string.

Definition wildcard (origins : list string) : bool :=
  match origins with
  | [o] => String.eqb o "*"
  | _ => false
  end.

(** The handler that [CORSMiddleware] returns, on a request with the
    header [Origin: origin] and the method [method]: the header of the
    response after it, and the status with which the request is aborted
    ([None] when it goes on to the next handler). *)
Definition CORSMiddleware (config : CORSConfig) (origin method : string) (h : Header)
  : Header * option Z :=
  let h :=
    if wildcard (AllowOrigins config) then <["Access-Control-Allow-Origin" := "*"]> h
    else if negb (String.eqb origin "") then
      if existsb (λ allowedOrigin,
                  String.eqb allowedOrigin origin || String.eqb allowedOrigin "*")
           (AllowOrigins config)
      then <["Access-Control-Allow-Origin" := origin]> h
      else h
    else h in
  let h := <["Access-Control-Allow-Methods" := Join (AllowMethods config) ", "]> h in
  let h := <["Access-Control-Allow-Headers" := Join (AllowHeaders config) ", "]> h in
  let h := <["Access-Control-Max-Age" := fmt_d (MaxAge config)]> h in
  let h :=
    if AllowCredentials config then <["Access-Control-Allow-Credentials" := "true"]> h
    else h in
  if String.eqb method "OPTIONS" then (h, Some 204) else (h, None).

End Cors.

(** ** utils: the base URL of a measurement *)

Module Speed.
Import GoStrings.

(** The base URL that [SpeedMeasurement.Run] gives its client. *)
Definition clientBaseURL (baseUrl : string) : string :=
  if Contains baseUrl "genai-proxy" && negb (Contains baseUrl "/v1") then
    if HasSuffix baseUrl "/openai" then baseUrl +:+ "/v1"
    else if Contains baseUrl "tanzu-" then baseUrl +:+ "/openai/v1"
    else baseUrl
  else baseUrl.

End Speed.

(** ** The mutex of the progress tracker

    Every method of [ProgressTracker] takes the tracker's
    [sync.RWMutex], which is not reentrant.  The methods are given here
    with their locking, for the goroutine that runs them. *)

Module TrackerMutex.
Import GoStrings GoFloat Types Json Tracker.

(** What the running goroutine holds of the mutex. *)
Record Held : Type := {
  writing : bool;
  reading : nat
}.

Definition free : Held := {| writing := false; reading := 0 |}.

(** A method returns, leaving the tracker and what is held; or it waits
    for the mutex while the goroutine itself holds it, which nothing
    will end ([Blocked], with the tracker as it stands). *)
Inductive Ran (A : Type) : Type :=
| Returned (a : A) (pt : ProgressTracker) (held : Held)
| Blocked (pt : ProgressTracker).
Arguments Returned {A} a pt held.
Arguments Blocked {A} pt.

Definition G (A : Type) : Type := ProgressTracker → Held → Ran A.

Definition ret {A : Type} (a : A) : G A := λ pt held, Returned a pt held.

Definition bind {A B : Type} (m : G A) (k : A → G B) : G B :=
  λ pt held,
    match m pt held with
    | Returned a pt held => k a pt held
    | Blocked pt => Blocked pt
    end.

#[export] Instance G_ret : MRet G := @ret.
#[export] Instance G_bind : MBind G := λ A B k m, bind m k.

(** [pt.mutex.Lock()] waits until no reader and no writer holds the
    mutex, [pt.mutex.RLock()] until no writer does. *)
Definition Lock : G unit :=
  λ pt held,
    if writing held || (0 <? reading held)%nat then Blocked pt
    else Returned tt pt {| writing := true; reading := 0 |}.

Definition RLock : G unit :=
  λ pt held,
    if writing held then Blocked pt
    else Returned tt pt {| writing := false; reading := S (reading held) |}.

Definition Unlock : G unit :=
  λ pt held, Returned tt pt {| writing := false; reading := reading held |}.

Definition RUnlock : G unit :=
  λ pt held, Returned tt pt {| writing := writing held; reading := Nat.pred (reading held) |}.

(** The receiver, and an assignment to its fields. *)
Definition tracker : G ProgressTracker := λ pt held, Returned pt pt held.

Definition assign (f : ProgressTracker → ProgressTracker) : G unit :=
  λ pt held, Returned tt (f pt) held.

(** [GetProgress] *)
Definition GetProgress (now : Z) : G ProgressUpdate :=
  RLock;;
  pt ← tracker;
  RUnlock;;
  mret (Tracker.GetProgress pt now).

(** [progress.CurrentStep = currentStep] *)
Definition withCurrentStep (p : ProgressUpdate) (currentStep : string) : ProgressUpdate :=
  {| PuJobID := PuJobID p; PuStatus := PuStatus p;
     PuCurrentModel := PuCurrentModel p;
     PuCurrentConcurrency := PuCurrentConcurrency p;
     PuProgress := PuProgress p; ElapsedTime := ElapsedTime p;
     EstimatedTimeRemaining := EstimatedTimeRemaining p;
     PuCurrentStep := currentStep;
     PuTotalSteps := PuTotalSteps p; CurrentStepNumber := CurrentStepNumber p |}.

(** [broadcastProgress]: the messages that reach the hub. *)
Definition broadcastProgress (currentStep : string) (now : Z) : G (list WebSocketMessage) :=
  progress ← GetProgress now;
  pt ← tracker;
  mret (broadcast {| MsgType := MessageTypeProgress; MsgJobID := JobID pt;
                     MsgTimestamp := now;
                     Data := DataProgress (withCurrentStep progress currentStep) |}).

(** [UpdateProgress] *)
Definition UpdateProgress (step : Z) (model : string) (concurrency : Z)
    (currentStep : string) (now : Z) : G (list WebSocketMessage) :=
  Lock;;
  assign (λ pt, setProgress pt step model concurrency (lastBroadcast pt));;
  pt ← tracker;
  out ← (if Sub now (lastBroadcast pt) >=? throttleInterval pt then
           out ← broadcastProgress currentStep now;
           assign (λ pt, setProgress pt (CurrentStep pt) (CurrentModel pt)
                           (CurrentConcurrency pt) now);;
           mret out
         else mret []);
  Unlock;;
  mret out.

(** A method that takes the write lock, works on the fields and calls no
    other method of the tracker: [f] is what it does between [Lock] and
    [Unlock]. *)
Definition locked (f : ProgressTracker → ProgressTracker * list WebSocketMessage)
  : G (list WebSocketMessage) :=
  Lock;;
  pt ← tracker;
  assign (λ _, (f pt).1);;
  Unlock;;
  mret (f pt).2.

(** [SetStatus], [Complete], [Fail] and [Cancel] *)
Definition SetStatus (status message : string) (now : Z) : G (list WebSocketMessage) :=
  locked (λ pt, Tracker.SetStatus pt status message now).

Definition Complete (results : any) (now : Z) : G (list WebSocketMessage) :=
  locked (λ pt, Tracker.Complete pt results now).

Definition Fail (errorMsg details : string) (now : Z) : G (list WebSocketMessage) :=
  locked (λ pt, Tracker.Fail pt errorMsg details now).

Definition Cancel (reason : string) (now : Z) : G (list WebSocketMessage) :=
  locked (λ pt, Tracker.Cancel pt reason now).

End TrackerMutex.

(** ** The goroutine of [executeJob] with the tracker's mutex *)

Module AsyncMutex.
Import GoStrings GoFloat Types Json Tracker Async.

(** The goroutine returns a value, fails, panics, or waits for ever. *)
Inductive Outcome (A : Type) : Type :=
| Value (a : A)
| Failure (err : string)
| Panic (r : string)
| Waiting.
Arguments Value {A} a.
Arguments Failure {A} err.
Arguments Panic {A} r.
Arguments Waiting {A}.

Definition M (A : Type) : Type := JobManager → nat → JobManager * nat * Outcome A.

Definition ret {A : Type} (a : A) : M A := λ jm n, (jm, n, Value a).

Definition bind {A B : Type} (m : M A) (k : A → M B) : M B :=
  λ jm n,
    match m jm n with
    | (jm, n, Value a) => k a jm n
    | (jm, n, Failure err) => (jm, n, Failure err)
    | (jm, n, Panic r) => (jm, n, Panic r)
    | (jm, n, Waiting) => (jm, n, Waiting)
    end.

#[export] Instance M_ret : MRet M := @ret.
#[export] Instance M_bind : MBind M := λ A B k m, bind m k.

(** The steps that touch no tracker are those of [Async]. *)
Definition lift {A : Type} (m : Async.M A) : M A :=
  λ jm n,
    match m jm n with
    | (jm, n, Async.Value a) => (jm, n, Value a)
    | (jm, n, Async.Failure err) => (jm, n, Failure err)
    | (jm, n, Async.Panic r) => (jm, n, Panic r)
    end.

Definition wrapError {A : Type} (prefix : string) (m : M A) : M A :=
  λ jm n,
    match m jm n with
    | (jm, n, Failure err) => (jm, n, Failure (prefix +:+ err))
    | other => other
    end.

Definition setTracker (jm : JobManager) (jobID : string) (job : BenchmarkJob)
    (pt : ProgressTracker) (out : list WebSocketMessage) : JobManager :=
  {| jobs :=
       <[jobID :=
           {| ID := ID job; Status := Status job; Request := Request job;
              Progress := pt; Results := Results job; Error := Error job;
              CreatedAt := CreatedAt job; StartedAt := StartedAt job;
              CompletedAt := CompletedAt job; cancelChan := cancelChan job |}]>
         (jobs jm);
     hub := hub jm ++ out |}.

(** A method of the job's tracker, run by the goroutine, which holds
    nothing of the tracker's mutex when it calls it. *)
Definition tracked (jobID : string) (m : TrackerMutex.G (list WebSocketMessage))
  : M unit :=
  λ jm n,
    match jobs jm !! jobID with
    | Some job =>
      match m (Progress job) TrackerMutex.free with
      | TrackerMutex.Returned out pt _ => (setTracker jm jobID job pt out, n, Value tt)
      | TrackerMutex.Blocked pt => (setTracker jm jobID job pt [], n, Waiting)
      end
    | None => (jm, n, Value tt)
    end.

Definition progress (w : World) (jobID : string) (step : Z) (model : string)
    (concurrency : Z) (currentStep : string) : M unit :=
  λ jm n,
    tracked jobID
      (TrackerMutex.UpdateProgress step model concurrency currentStep (clockAt w n))
      jm n.

Definition runConcurrencyBenchmark (w : World) (jobID : string) (model : Model)
    (concurrency : Z) (step : nat) : M ConcurrencyResult :=
  progress w jobID (Z.of_nat step) (Name model) 0
    ("Running benchmark with concurrency " +:+ fmt_d concurrency);;
  result ← lift (runEngine w step);
  progress w jobID (Z.of_nat step) (Name model) 100
    ("Completed benchmark with concurrency " +:+ fmt_d concurrency);;
  mret {| Concurrency := SrConcurrency result;
          GenerationThroughput := GenerationSpeed result;
          PromptThroughput := SrPromptThroughput result;
          MinTTFT := MinTtft result;
          MaxTTFT := MaxTtft result |}.

Fixpoint runLevels (w : World) (jobID : string) (model : Model) (levels : list Z)
    (step : nat) (results : list ConcurrencyResult)
  : M (list ConcurrencyResult * nat) :=
  match levels with
  | [] => mret (results, step)
  | concurrency :: rest =>
    lift (checkCancel w jobID "benchmark cancelled");;
    progress w jobID (Z.of_nat step) (Name model) concurrency
      ("Testing " +:+ Name model +:+ " with concurrency " +:+ fmt_d concurrency);;
    result ← wrapError ("concurrency " +:+ fmt_d concurrency +:+ " failed: ")
                (runConcurrencyBenchmark w jobID model concurrency step);
    runLevels w jobID model rest (S step) (results ++ [result])
  end.

Definition runSingleModelBenchmark (w : World) (jobID : string) (model : Model)
    (levels : list Z) (step : nat) : M (BenchmarkResult * nat) :=
  rs ← runLevels w jobID model levels step [];
  now ← lift (timeNow w);
  mret ({| ResModel := Name model; Types.Results := rs.1; Timestamp := now |}, rs.2).

Definition runBenchmarkWithProgress (w : World) (jobID : string)
    (request : BenchmarkRequest) : M any :=
  lift (checkCancel w jobID "job cancelled before execution");;
  progress w jobID 0 (Name (Model1 request)) 0 "Starting Model 1 benchmark";;
  r1 ← wrapError "model 1 benchmark failed: "
          (runSingleModelBenchmark w jobID (Model1 request)
             (ConcurrencyLevels request) 0%nat);
  lift (checkCancel w jobID "job cancelled after model 1");;
  match Model2 request with
  | Some m2 =>
    progress w jobID (Z.of_nat r1.2) (Name m2) 0 "Starting Model 2 benchmark";;
    r2 ← wrapError "model 2 benchmark failed: "
            (runSingleModelBenchmark w jobID m2 (ConcurrencyLevels request) r1.2);
    lift (checkCancel w jobID "job cancelled after model 2");;
    progress w jobID (Z.of_nat r2.2) "" 0 "Generating comparison results";;
    lift (panic "interface conversion: interface {} is map[string]interface {}, not *server.Comparison")
  | None =>
    mret (VResponse {| RespModel1 := Some r1.1; RespModel2 := None;
                       RespComparison := None |})
  end.

(** [executeJob]: the registry it leaves, and whether the goroutine has
    come to its end ([false] when it waits for ever). *)
Definition executeJob (w : World) (jm : JobManager) (jobID : string)
  : JobManager * bool :=
  match jobs jm !! jobID with
  | Some job =>
    match (tracked jobID (TrackerMutex.SetStatus "running" "Benchmark started"
                            (clockAt w 0%nat));;
           runBenchmarkWithProgress w jobID (Request job)) jm 0%nat with
    | (jm, n, Waiting) => (jm, false)
    | (jm, n, Panic r) =>
      match tracked jobID (TrackerMutex.Fail "Internal error" ("Panic: " +:+ r)
                             (clockAt w n)) jm n with
      | (jm, _, Waiting) => (jm, false)
      | (jm, _, _) => (jm, true)
      end
    | (jm, n, Failure err) => (finishJob jm jobID (Err err) (clockAt w n), true)
    | (jm, n, Value results) => (finishJob jm jobID (Ok results) (clockAt w n), true)
    end
  | None => (jm, true)
  end.

End AsyncMutex.

(* ===================================================================== *)
(** * Vocabulary of the properties                                        *)
(* ===================================================================== *)

(** ** Requests *)

Section RequestVocabulary.
Import GoStrings Types.

(** The ranges as the interface contract lists them: concurrency levels,
    token budget, prompt and word count. *)
Definition declaredRanges (req : BenchmarkRequest) : Prop :=
  ConcurrencyLevels req ≠ []
  ∧ Forall (λ c, 1 ≤ c ≤ 100) (ConcurrencyLevels req)
  ∧ 1 ≤ MaxTokens req ≤ 4096
  ∧ Prompt req ≠ EmptyString ∧ len (Prompt req) ≤ 10000
  ∧ (NumWords req = 0 ∨ 10 ≤ NumWords req ≤ 10000).

Definition modelComplete (m : Model) : Prop :=
  ID m ≠ EmptyString ∧ Name m ≠ EmptyString ∧ BaseURL m ≠ EmptyString.

(** What [validateBenchmarkRequest] lets through. *)
Definition accepted (req : BenchmarkRequest) : Prop :=
  modelComplete (Model1 req)
  ∧ (∀ m2, Model2 req = Some m2 → modelComplete m2 ∧ ID (Model1 req) ≠ ID m2)
  ∧ ConcurrencyLevels req ≠ []
  ∧ Forall (λ c, 1 ≤ c ≤ 100) (ConcurrencyLevels req)
  ∧ 1 ≤ MaxTokens req ≤ 4096
  ∧ TrimSpace (Prompt req) ≠ EmptyString ∧ len (Prompt req) ≤ 10000
  ∧ (NumWords req ≤ 0 ∨ 10 ≤ NumWords req ≤ 10000).

End RequestVocabulary.

(** ** Sample data *)

Section Samples.
Import Types.

Definition modelA : Model :=
  {| ID := "svc|model-a"; Name := "modelA"; Provider := "test";
     BaseURL := "http://a.test/v1"; APIKey := "" |}.

Definition modelB : Model :=
  {| ID := "svc|model-b"; Name := "modelB"; Provider := "test";
     BaseURL := "http://b.test/v1"; APIKey := "" |}.

(** The request of the specification's scenario. *)
Definition helloRequest : BenchmarkRequest :=
  {| Model1 := modelA; Model2 := None; ConcurrencyLevels := [1; 2];
     MaxTokens := 50; Prompt := "hello"; NumWords := 0 |}.

(** The same request with the identifier of its model missing. *)
Definition anonymousRequest : BenchmarkRequest :=
  {| Model1 := {| ID := ""; Name := "modelA"; Provider := "test";
                  BaseURL := "http://a.test/v1"; APIKey := "" |};
     Model2 := None; ConcurrencyLevels := [1; 2];
     MaxTokens := 50; Prompt := "hello"; NumWords := 0 |}.

(** The same request with a negative word count. *)
Definition negativeWordsRequest : BenchmarkRequest :=
  {| Model1 := modelA; Model2 := None; ConcurrencyLevels := [1; 2];
     MaxTokens := 50; Prompt := "hello"; NumWords := -5 |}.

Definition twoModelRequest : BenchmarkRequest :=
  {| Model1 := modelA; Model2 := Some modelB; ConcurrencyLevels := [1; 2];
     MaxTokens := 50; Prompt := "hello"; NumWords := 0 |}.

End Samples.

(** ** Sanitised results *)

Section SanitisedVocabulary.
Import GoFloat Json.

(** [nulled v v']: [v'] is [v] with every NaN and infinite float that is
    reached through maps and [[]interface{}] slices replaced by nil.  A
    string that spells such a float (and an integer whose float is
    infinite, if there were one) may be replaced as well, the way
    [sanitizeAnyValue] does; typed results are carried over as they are. *)
#[local] Unset Elimination Schemes.
Inductive nulled : any → any → Prop :=
| nulled_nil : nulled VNil VNil
| nulled_bool b : nulled (VBool b) (VBool b)
| nulled_int n : nulled (VInt n) (VInt n)
| nulled_int_inf n : IsInf (float64 n) 0 = true → nulled (VInt n) VNil
| nulled_string s : nulled (VString s) (VString s)
| nulled_string_inf s : printsAsInfOrNaN (VString s) = true → nulled (VString s) VNil
| nulled_float64 f : finite f = true → nulled (VFloat64 f) (VFloat64 f)
| nulled_float64_null f : finite f = false → nulled (VFloat64 f) VNil
| nulled_float32 f : finite f = true → nulled (VFloat32 f) (VFloat32 f)
| nulled_float32_null f : finite f = false → nulled (VFloat32 f) VNil
| nulled_map m m' :
    Forall2 (λ kv kv' : string * any, kv.1 = kv'.1 ∧ nulled kv.2 kv'.2) m m' →
    nulled (VMap m) (VMap m')
| nulled_slice l l' : Forall2 nulled l l' → nulled (VSlice l) (VSlice l')
| nulled_results l : nulled (VResults l) (VResults l)
| nulled_response r : nulled (VResponse r) (VResponse r).
#[local] Set Elimination Schemes.

(** A value made of nil, booleans, integers, strings, floats, maps and
    [[]interface{}] slices only. *)
Fixpoint interfaceTree (v : any) : bool :=
  match v with
  | VMap m => forallb (λ kv, interfaceTree kv.2) m
  | VSlice l => forallb interfaceTree l
  | VResults _ | VResponse _ => false
  | _ => true
  end.

End SanitisedVocabulary.

Section SimpleSamples.
Import Types Json Simple.

(** The instant [n] seconds after the zero time. *)
Definition atSecond (n : Z) : Z := n * 1000000000.

(** A round of the engine with ordinary figures, and one whose first
    token came at once, which makes the prompt throughput infinite. *)
Definition steadyRound : SpeedResult :=
  {| SrConcurrency := 1; GenerationSpeed := 12.5; SrPromptThroughput := 40;
     MinTtft := 0.25; MaxTtft := 0.25 |}.

Definition instantRound : SpeedResult :=
  {| SrConcurrency := 1; GenerationSpeed := 12.5; SrPromptThroughput := infinity;
     MinTtft := 0; MaxTtft := 0 |}.

(** A world in which nobody else calls the manager and every round
    returns [round]. *)
Definition quietWorld (round : SpeedResult) : World :=
  {| newContext := 1; vcapServices := true; MeasureLatency := Ok 0%float;
     getAPIKeyForModel := λ _, "key"; whileSleeping := [];
     beforeCheck := λ _, []; Run := λ _, Ok round; whileRunning := λ _, [];
     beforeCompletion := []; clock := atSecond 60 |}.

(** A world in which the user cancels job-1 after the first round. *)
Definition cancellingWorld : World :=
  {| newContext := 1; vcapServices := true; MeasureLatency := Ok 0%float;
     getAPIKeyForModel := λ _, "key"; whileSleeping := [];
     beforeCheck := λ n, if Nat.eqb n 1 then [(atSecond 30, CallCancelJob "job-1")] else [];
     Run := λ _, Ok steadyRound; whileRunning := λ _, [];
     beforeCompletion := []; clock := atSecond 31 |}.

(** A finished job whose result is a tree of dynamic values with NaN and
    an infinity in it, the latter inside a slice of a slice. *)
Definition roughJob : SimpleJob :=
  {| ID := "job-9"; Status := "completed"; Progress := 100;
     Message := "Benchmark completed successfully";
     Result := VMap [("latency", VFloat64 nan);
                     ("figures", VSlice [VSlice [VFloat64 infinity; VFloat64 1.5]])];
     Error := ""; CreatedAt := 0; CompletedAt := Some (atSecond 9);
     Request := helloRequest; ctx := None; cancelFunc := None |}.

(** A world in which the user cancels job-1 while its first round is
    running, and the engine gives the round up with the context's error. *)
Definition interruptingWorld : World :=
  {| newContext := 1; vcapServices := true; MeasureLatency := Ok 0%float;
     getAPIKeyForModel := λ _, "key"; whileSleeping := [];
     beforeCheck := λ _, []; Run := λ _, Err "context canceled";
     whileRunning := λ n, if Nat.eqb n 0 then [(atSecond 30, CallCancelJob "job-1")] else [];
     beforeCompletion := []; clock := atSecond 31 |}.

Definition oneJob : SimpleJobManager :=
  (CreateJob NewSimpleJobManager "job-1" helloRequest 0).1.

Definition twoJobs : SimpleJobManager :=
  (CreateJob oneJob "job-2" helloRequest (atSecond 1)).1.

(** job-1 after its run has installed its context, and after the user
    has cancelled it. *)
Definition contextJob : SimpleJobManager :=
  calls NewSimpleJobManager
    [(0, CallCreateJob "job-1" helloRequest);
     (atSecond 1, CallSetJobContext "job-1" 1%nat 1%nat)].

Definition cancelledJob : SimpleJobManager :=
  calls contextJob [(atSecond 5, CallCancelJob "job-1")].

End SimpleSamples.

Section AsyncSamples.
Import Types Async.

Definition queuedJob : JobManager :=
  calls NewJobManager [(0, CallCreateJob "job-1" helloRequest)].

Definition startedJob : JobManager :=
  calls queuedJob [(atSecond 1, CallStartJob "job-1")].

Definition stoppedJob : JobManager :=
  calls startedJob [(atSecond 2, CallCancelJob "job-1")].

(** A world in which nobody else calls the manager, the clock advances
    by a second per check and every round returns [round]. *)
Definition calmWorld (round : SpeedResult) : World :=
  {| clockAt := λ n, atSecond (10 + Z.of_nat n); beforeCheck := λ _, [];
     Run := λ _, Ok round |}.

End AsyncSamples.

(** ** Job life cycle *)

Definition terminal (s : string) : Prop :=
  s = "completed"%string ∨ s = "failed"%string ∨ s = "cancelled"%string.

Section SimpleVocabulary.
Import Simple.

(** The completion time is set exactly on the jobs that have ended. *)
Definition stampedJob (job : SimpleJob) : Prop :=
  is_Some (CompletedAt job) ↔ terminal (Status job).

Definition stamped (jm : SimpleJobManager) : Prop :=
  map_Forall (λ _ job, stampedJob job) (jobs jm).

Definition notAddJob (timed : Z * Call) : Prop :=
  match timed.2 with
  | CallAddJob _ _ _ => False
  | _ => True
  end.

Definition worldWithoutAddJob (w : World) : Prop :=
  Forall notAddJob (whileSleeping w)
  ∧ (∀ n, Forall notAddJob (beforeCheck w n))
  ∧ (∀ n, Forall notAddJob (whileRunning w n))
  ∧ Forall notAddJob (beforeCompletion w).

(** The registries that calls other than [AddJob] and benchmark runs
    produce from the empty one. *)
Inductive reachable : SimpleJobManager → Prop :=
| reachable_new : reachable NewSimpleJobManager
| reachable_call jm timed :
    reachable jm → notAddJob timed → reachable (call jm timed)
| reachable_run jm jobID request w :
    reachable jm → worldWithoutAddJob w →
    reachable (RunBenchmark jm jobID request w).

End SimpleVocabulary.

Section AsyncVocabulary.
Import Async.

Definition stampedAsyncJob (job : BenchmarkJob) : Prop :=
  is_Some (CompletedAt job) ↔ terminal (Status job).

Definition stampedAsync (jm : JobManager) : Prop :=
  map_Forall (λ _ job, stampedAsyncJob job) (jobs jm).

(** The registries that the handlers' calls and the job goroutines
    produce from the empty one. *)
Inductive reachableAsync : JobManager → Prop :=
| reachableAsync_new : reachableAsync NewJobManager
| reachableAsync_call jm timed :
    reachableAsync jm → reachableAsync (call jm timed)
| reachableAsync_execute jm w jobID :
    reachableAsync jm → reachableAsync (executeJob w jm jobID).

(** A computation of the goroutine that keeps the completion times in
    step with the statuses. *)
Definition keeps {A : Type} (m : M A) : Prop :=
  ∀ jm n, stampedAsync jm → stampedAsync (m jm n).1.1.

End AsyncVocabulary.

(** ** Progress messages *)

Section TrackerVocabulary.
Import Tracker.





End TrackerVocabulary.

(* ===================================================================== *)
(** * Part II: properties                                                 *)
(* ===================================================================== *)

(** ** Go strings *)

Section GoStringsFacts.
Import GoStrings.

Lemma IsSpace_RuneError : IsSpace RuneError = false.
Proof. reflexivity. Qed.

Lemma append_cons (a : ascii) (t q : string) :
  String a t +:+ q = String a (t +:+ q).
Proof. reflexivity. Qed.

Lemma append_empty_r (s : string) : s +:+ EmptyString = s.
Proof. induction s as [|a t IH]; [done | by rewrite append_cons, IH]. Qed.

(** A rune that is white space was decoded from a valid encoding, which
    ends inside the string: more bytes after it change nothing. *)
Lemma DecodeRuneInString_space_app (u q : string) :
  IsSpace (DecodeRuneInString u).1 = true →
  DecodeRuneInString (u +:+ q) = DecodeRuneInString u.
Proof.
  intros H. unfold DecodeRuneInString in *.
  destruct u as [|a0 t0]; [discriminate H|]. rewrite append_cons.
  destruct (byte a0 <? 128); [reflexivity|].
  destruct ((byte a0 <? 194) || (244 <? byte a0)); [reflexivity|].
  destruct t0 as [|a1 t1]; [discriminate H|]. rewrite append_cons.
  destruct (byte a0 <? 224); [reflexivity|].
  destruct t1 as [|a2 t2]; [discriminate H|]. rewrite append_cons.
  destruct ((byte a1 <? accept_lo (byte a0)) || (accept_hi (byte a0) <? byte a1));
    [reflexivity|].
  destruct (negb (continuation (byte a2))); [reflexivity|].
  destruct (byte a0 <? 240); [reflexivity|].
  destruct t2 as [|a3 t3]; [discriminate H|]. reflexivity.
Qed.

Lemma trimLeft_loop_head (skip : nat) (s : string) :
  trimLeft_loop skip s = EmptyString
  ∨ IsSpace (DecodeRuneInString (trimLeft_loop skip s)).1 = false.
Proof.
  revert skip. induction s as [|a t IH]; intros skip; [by left|].
  destruct skip as [|k]; cbn [trimLeft_loop]; [|apply IH].
  destruct (DecodeRuneInString (String a t)) as [r size] eqn:E.
  destruct (IsSpace r) eqn:Hr; [apply IH|].
  right. rewrite E. exact Hr.
Qed.

Lemma substring_prefix (s : string) (k : nat) :
  ∃ q, s = substring 0 k s +:+ q.
Proof.
  revert k. induction s as [|a t IH]; intros k.
  - exists EmptyString. by destruct k.
  - destruct k as [|k]; cbn [substring].
    + by exists (String a t).
    + destruct (IH k) as [q Hq]. exists q. rewrite append_cons. by rewrite <- Hq.
Qed.

Lemma append_assoc (a b c : string) : (a +:+ b) +:+ c = a +:+ (b +:+ c).
Proof. induction a as [|x a IH]; [done | by rewrite !append_cons, IH]. Qed.

Lemma trimRight_loop_prefix (fuel : nat) (s : string) :
  ∃ q, s = trimRight_loop fuel s +:+ q.
Proof.
  revert s. induction fuel as [|k IH]; intros s; cbn [trimRight_loop].
  - exists EmptyString. by rewrite append_empty_r.
  - destruct (len s =? 0).
    { exists EmptyString. by rewrite append_empty_r. }
    destruct (DecodeLastRuneInString s) as [r size].
    destruct (IsSpace r).
    + destruct (IH (substring 0 (String.length s - size) s)) as [q1 H1].
      destruct (substring_prefix s (String.length s - size)) as [q2 H2].
      exists (q1 +:+ q2). rewrite <- append_assoc, <- H1. exact H2.
    + exists EmptyString. by rewrite append_empty_r.
Qed.

Lemma fields_loop_open (s : string) (skip : nat) (w : string) :
  fields_loop skip (Some w) s ≠ [].
Proof.
  revert skip w. induction s as [|a t IH]; intros skip w; cbn [fields_loop flush].
  - discriminate.
  - destruct skip as [|k]; cbn [option_map]; [|apply IH].
    destruct (DecodeRuneInString (String a t)) as [r size].
    destruct (IsSpace r); [discriminate | apply IH].
Qed.

Lemma Fields_nonspace_head (s : string) :
  s ≠ EmptyString → IsSpace (DecodeRuneInString s).1 = false → Fields s ≠ [].
Proof.
  destruct s as [|a t]; [done|]. intros _ H. unfold Fields. cbn [fields_loop].
  destruct (DecodeRuneInString (String a t)) as [r size]. cbn [fst] in H.
  rewrite H. apply fields_loop_open.
Qed.

(** What [TrimSpace] leaves, if anything, has at least one field. *)
Lemma Fields_TrimSpace (s : string) :
  TrimSpace s ≠ EmptyString → Fields (TrimSpace s) ≠ [].
Proof.
  unfold TrimSpace. set (t := trimLeft_loop 0 s).
  destruct (trimRight_loop_prefix (String.length t) t) as [q Hq].
  set (u := trimRight_loop (String.length t) t) in *.
  intros Hu. apply Fields_nonspace_head; [exact Hu|].
  destruct (IsSpace (DecodeRuneInString u).1) eqn:E; [|done].
  pose proof (DecodeRuneInString_space_app u q E) as Happ. rewrite <- Hq in Happ.
  destruct (trimLeft_loop_head 0 s) as [H0 | Hhead]; fold t in H0 || fold t in Hhead.
  - rewrite H0 in Hq. destruct u; [done | discriminate].
  - rewrite Happ, E in Hhead. discriminate.
Qed.

End GoStringsFacts.

(** ** The streaming token estimate (package [api]) *)

Section TokenEstimate.
Import GoStrings GoFloat Api.

Lemma len_eq_0 (s : string) : (len s =? 0) = true → s = EmptyString.
Proof. destruct s; [done|]. unfold len. cbn [String.length]. intros H. apply Z.eqb_eq in H. lia. Qed.

(** Whatever the fragment, the estimate is 0 for a blank one and is
    otherwise computed from the number of fields: the branch that divides
    the number of bytes by 3 is never taken. *)
Lemma estimateTokens_by_words (content : string) :
  estimateTokens content =
  if len (TrimSpace content) =? 0 then 0
  else Z.max 1 (int (float64 (Z.of_nat (length (Fields (TrimSpace content))))
                     * 0x1.4cccccccccccdp+0)).
Proof.
  unfold estimateTokens.
  destruct (String.eqb content "") eqn:E.
  - apply String.eqb_eq in E. subst content. reflexivity.
  - destruct (len (TrimSpace content) =? 0) eqn:L; [reflexivity|].
    assert (Hne : TrimSpace content ≠ EmptyString).
    { intros H0. rewrite H0 in L. discriminate. }
    apply Fields_TrimSpace in Hne.
    destruct (Fields (TrimSpace content)) as [|w ws]; [done|].
    reflexivity.
Qed.

(** One chunk advances the estimate by [estimateTokens] of the content of
    its first choice. *)
Lemma recvChunk_estimate (st : StreamState) (elapsed : float) (resp : StreamResponse)
    (content : string) (others : list string) :
  Choices resp = content :: others →
  estimatedTokens (recvChunk st elapsed resp) =
  if String.eqb content "" then estimatedTokens st
  else wrap (estimatedTokens st + estimateTokens content).
Proof.
  intros H. unfold recvChunk. rewrite H.
  destruct (String.eqb content ""); cbn [negb];
    destruct (negb (firstTokenSeen st) && negb (String.eqb (TrimSpace content) ""));
    destruct (RespUsage resp); reflexivity.
Qed.

Lemma recvChunk_no_choice (st : StreamState) (elapsed : float) (resp : StreamResponse) :
  Choices resp = [] →
  estimatedTokens (recvChunk st elapsed resp) = estimatedTokens st.
Proof. intros H. unfold recvChunk. rewrite H. by destruct (RespUsage resp). Qed.

(** When the stream ends the counts are the provider's if it sent a usage
    block, and otherwise the running estimate with no prompt count. *)
Lemma AskOpenAi_counts (events : list StreamEvent) (st : StreamState) :
  streamLoop initialStream events = Ok st →
  AskOpenAi None events =
  Ok match lastUsage st with
     | Some u => (timeToFirstToken st, CompletionTokens u, PromptTokens u)
     | None => (timeToFirstToken st, estimatedTokens st, 0)
     end.
Proof. intros H. unfold AskOpenAi, finalCounts. rewrite H. by destruct (lastUsage st). Qed.

Example estimateTokens_samples :
  estimateTokens "" = 0 ∧ estimateTokens "   " = 0
  ∧ estimateTokens "hello" = 1 ∧ estimateTokens "hello world" = 2
  ∧ estimateTokens " a b c d e f g h i j " = 13.
Proof. vm_compute. repeat split. Qed.

(** C9.  A fragment of nine letters with no white space in it counts as one
    word: the estimate grows by 1, where one token per three characters
    would give 3.  In general the estimate of a fragment is 0 if it is
    blank and else the integer part of 1.3 times its number of fields, at
    least 1, so the character rule applies to no fragment at all. *)
Theorem estimateTokens_never_counts_characters :
  estimateTokens "abcdefghi" = 1
  ∧ Z.max 1 (int (float64 (len "abcdefghi") / 3)) = 3
  ∧ ∀ content : string,
      estimateTokens content =
      if len (TrimSpace content) =? 0 then 0
      else Z.max 1 (int (float64 (Z.of_nat (length (Fields (TrimSpace content))))
                         * 0x1.4cccccccccccdp+0)).
Proof.
  split; [vm_compute; reflexivity|].
  split; [vm_compute; reflexivity|].
  apply estimateTokens_by_words.
Qed.

End TokenEstimate.

(** ** Request validation (server/handlers.go) *)

Section Validation.
Import GoStrings Types Handlers.

Lemma eqb_empty_false (s : string) : String.eqb s "" = false ↔ s ≠ EmptyString.
Proof. rewrite String.eqb_neq. done. Qed.

Lemma len_nonneg (s : string) : 0 ≤ len s.
Proof. unfold len. lia. Qed.

Lemma len_eqb_0 (s : string) : (len s =? 0) = false ↔ s ≠ EmptyString.
Proof.
  destruct s; unfold len; cbn [String.length]; split; intros H;
    first [done | apply Z.eqb_neq; lia].
Qed.

Lemma validateLevels_None (i : nat) (levels : list Z) :
  validateLevels i levels = None ↔ Forall (λ c, 1 ≤ c ≤ 100) levels.
Proof.
  revert i. induction levels as [|c rest IH]; intros i; cbn [validateLevels].
  - split; [constructor | done].
  - destruct (Z.ltb_spec c 1); [split; [done | inversion 1; lia]|].
    destruct (Z.gtb_spec c 100); [split; [done | inversion 1; lia]|].
    rewrite IH. split; [constructor; [lia | done] | by inversion 1].
Qed.

Lemma validateModel2_None (m1 : Model) (m2 : option Model) :
  validateModel2 m1 m2 = None
  ↔ ∀ m, m2 = Some m → modelComplete m ∧ ID m1 ≠ ID m.
Proof.
  unfold validateModel2, modelComplete. destruct m2 as [m|]; [|split; [by intros _ m' | done]].
  destruct (String.eqb (ID m) "") eqn:E1.
  { apply String.eqb_eq in E1. split; [done|]. intros H.
    destruct (H m eq_refl) as [[? _] _]. done. }
  destruct (String.eqb (Name m) "") eqn:E2.
  { apply String.eqb_eq in E2. split; [done|]. intros H.
    destruct (H m eq_refl) as [[_ [? _]] _]. done. }
  destruct (String.eqb (BaseURL m) "") eqn:E3.
  { apply String.eqb_eq in E3. split; [done|]. intros H.
    destruct (H m eq_refl) as [[_ [_ ?]] _]. done. }
  destruct (String.eqb (ID m1) (ID m)) eqn:E4.
  { apply String.eqb_eq in E4. split; [done|]. intros H.
    destruct (H m eq_refl) as [_ ?]. done. }
  apply eqb_empty_false in E1, E2, E3. apply String.eqb_neq in E4.
  split; [|done]. intros _ m' [= <-]. done.
Qed.

(** The requests that pass are exactly the accepted ones. *)
Lemma validateBenchmarkRequest_None (req : BenchmarkRequest) :
  validateBenchmarkRequest req = None ↔ accepted req.
Proof.
  unfold validateBenchmarkRequest, accepted. unfold modelComplete at 1.
  destruct (String.eqb (ID (Model1 req)) "") eqn:E1.
  { apply String.eqb_eq in E1. split; [done | intros [[? _] _]; done]. }
  destruct (String.eqb (Name (Model1 req)) "") eqn:E2.
  { apply String.eqb_eq in E2. split; [done | intros [[_ [? _]] _]; done]. }
  destruct (String.eqb (BaseURL (Model1 req)) "") eqn:E3.
  { apply String.eqb_eq in E3. split; [done | intros [[_ [_ ?]] _]; done]. }
  apply eqb_empty_false in E1, E2, E3.
  destruct (validateModel2 (Model1 req) (Model2 req)) as [e|] eqn:E4.
  { split; [done|]. intros (_ & H & _).
    apply (proj2 (validateModel2_None _ _)) in H. congruence. }
  pose proof (proj1 (validateModel2_None _ _) E4) as HM2.
  destruct (ConcurrencyLevels req) as [|c rest] eqn:EL.
  { cbn. split; [done | intros (_ & _ & ? & _); done]. }
  rewrite <- EL.
  replace (Z.of_nat (length (ConcurrencyLevels req)) =? 0) with false
    by (rewrite EL; cbn [length]; symmetry; apply Z.eqb_neq; lia).
  destruct (validateLevels 0 (ConcurrencyLevels req)) as [e|] eqn:E5.
  { split; [done|]. intros (_ & _ & _ & H & _).
    apply (proj2 (validateLevels_None 0 _)) in H. congruence. }
  apply (proj1 (validateLevels_None 0 _)) in E5.
  destruct (Z.ltb_spec (MaxTokens req) 1); [split; [done | intros (_ & _ & _ & _ & ? & _); lia]|].
  destruct (Z.gtb_spec (MaxTokens req) 4096); [split; [done | intros (_ & _ & _ & _ & ? & _); lia]|].
  destruct (len (TrimSpace (Prompt req)) =? 0) eqn:E6.
  { apply len_eq_0 in E6. split; [done | intros (_ & _ & _ & _ & _ & ? & _); done]. }
  apply len_eqb_0 in E6.
  destruct (Z.gtb_spec (len (Prompt req)) 10000);
    [split; [done | intros (_ & _ & _ & _ & _ & _ & ? & _); lia]|].
  assert (HL : ConcurrencyLevels req ≠ []) by (rewrite EL; done).
  destruct (Z.gtb_spec (NumWords req) 0).
  - destruct (Z.ltb_spec (NumWords req) 10);
      [split; [done | intros (_ & _ & _ & _ & _ & _ & _ & [?|?]); lia]|].
    destruct (Z.gtb_spec (NumWords req) 10000);
      [split; [done | intros (_ & _ & _ & _ & _ & _ & _ & [?|?]); lia]|].
    split; [|done]. intros _.
    split; [by repeat split|]. split; [exact HM2|]. split; [done|]. split; [done|].
    split; [lia|]. split; [done|]. split; [lia|]. right. lia.
  - split; [|done]. intros _.
    split; [by repeat split|]. split; [exact HM2|]. split; [done|]. split; [done|].
    split; [lia|]. split; [done|]. split; [lia|]. left. lia.
Qed.

End Validation.

Section ValidationGate.
Import GoStrings Types Handlers Async.

Lemma helloRequest_accepted : accepted helloRequest.
Proof.
  unfold accepted, modelComplete, helloRequest, modelA; cbn.
  split; [by repeat split|]. split; [done|]. split; [done|].
  split; [repeat constructor; lia|]. split; [lia|].
  split; [vm_compute; discriminate|]. split; [vm_compute; discriminate|].
  left. lia.
Defined.

(** C7, as stated, fails in both directions: a request whose ranges are all
    respected is rejected because its model has no identifier, and a
    request with the word count -5, nonzero and outside 10..10000, passes. *)
Lemma declared_ranges_do_not_decide_rejection :
  (declaredRanges anonymousRequest
   ∧ validateBenchmarkRequest anonymousRequest = Some Model1IdRequired)
  ∧ (¬ declaredRanges negativeWordsRequest
     ∧ validateBenchmarkRequest negativeWordsRequest = None).
Proof.
  split; split.
  - unfold declaredRanges, anonymousRequest; cbn.
    split; [done|]. split; [repeat constructor; lia|]. split; [lia|].
    split; [done|]. split; [vm_compute; discriminate|]. left. done.
  - vm_compute. reflexivity.
  - unfold declaredRanges, negativeWordsRequest; cbn.
    intros (_ & _ & _ & _ & _ & [H|H]); lia.
  - vm_compute. reflexivity.
Qed.

(** C7, amended.  A request passes validation exactly when both models are
    complete and distinct, the list of levels is not empty and lies in
    1..100, the token budget lies in 1..4096, the prompt is not blank and
    has at most 10000 bytes, and the word count, when positive, lies in
    10..10000.  A request that does not pass is answered with 400 and
    leaves the registry as it was; one that passes is registered and
    started. *)
Theorem request_enters_registry_iff_accepted (jm : JobManager)
    (req : BenchmarkRequest) (jobID : string) (now : Z) :
  (validateBenchmarkRequest req = None ↔ accepted req)
  ∧ (¬ accepted req → AsyncBenchmarkHandler jm (Some req) jobID now = (jm, 400))
  ∧ (accepted req →
     (AsyncBenchmarkHandler jm (Some req) jobID now).2 = 202
     ∧ ∃ job, jobs (AsyncBenchmarkHandler jm (Some req) jobID now).1 !! jobID = Some job
              ∧ Request job = req ∧ Status job = "running"%string).
Proof.
  split; [apply validateBenchmarkRequest_None|]. split.
  - intros H. unfold AsyncBenchmarkHandler.
    destruct (validateBenchmarkRequest req) eqn:E; [done|].
    apply validateBenchmarkRequest_None in E. done.
  - intros H. apply validateBenchmarkRequest_None in H.
    unfold AsyncBenchmarkHandler. rewrite H.
    unfold StartJob, CreateJob. cbn [fst jobs].
    rewrite lookup_insert_eq. cbn [Status String.eqb Ascii.eqb Bool.eqb negb fst snd jobs].
    split; [done|]. rewrite lookup_insert_eq. eexists. split; [done|]. done.
Qed.

Lemma request_enters_registry_iff_accepted_witness :
  AsyncBenchmarkHandler NewJobManager (Some anonymousRequest) "job-1" 0
  = (NewJobManager, 400)
  ∧ (AsyncBenchmarkHandler NewJobManager (Some helloRequest) "job-1" 0).2 = 202
  ∧ ∃ job,
      jobs (AsyncBenchmarkHandler NewJobManager (Some helloRequest) "job-1" 0).1
        !! "job-1" = Some job
      ∧ Request job = helloRequest ∧ Status job = "running"%string.
Proof.
  split.
  - apply (request_enters_registry_iff_accepted NewJobManager anonymousRequest "job-1" 0).
    intros [[H _] _]. apply H. reflexivity.
  - apply (request_enters_registry_iff_accepted NewJobManager helloRequest "job-1" 0).
    exact helloRequest_accepted.
Defined.

End ValidationGate.

(** ** Sanitisation and encoding of results *)

Section Sanitisation.
Import GoFloat Types Json Handlers.

Lemma finite_negb (f : float) : (IsNaN f || IsInf f 0) = negb (finite f).
Proof. unfold finite. by rewrite negb_involutive. Qed.

Lemma IsInf_either (f : float) : IsInf f 0 = IsInf f 1 || IsInf f (-1).
Proof.
  unfold IsInf. cbn [Z.leb Z.compare].
  rewrite !andb_true_l, !andb_false_l, orb_false_r. reflexivity.
Qed.

(** [sanitizeFloat] returns a number the encoder accepts, and returns a
    finite number unchanged. *)
Lemma sanitizeFloat_finite (f : float) :
  finite (sanitizeFloat f) = true ∧ (finite f = true → sanitizeFloat f = f).
Proof.
  unfold sanitizeFloat, finite. rewrite (IsInf_either f).
  destruct (IsInf f 1) eqn:E1; [split; [reflexivity | by rewrite orb_true_r]|].
  destruct (IsInf f (-1)) eqn:E2; [split; [reflexivity | by rewrite orb_true_r]|].
  destruct (IsNaN f) eqn:E3; [split; [reflexivity | done]|].
  rewrite (IsInf_either f), E1, E2, E3. done.
Qed.

Lemma marshalFloat_Some (f : float) (j : json) :
  marshalFloat f = Some j → j = JNum f ∧ finite f = true.
Proof. unfold marshalFloat. destruct (finite f); [by intros [= <-] | done]. Qed.

Lemma marshalAll_Some {A B : Type} (f : A → option B) (l : list A) (js : list B) :
  marshalAll f l = Some js → Forall2 (λ x y, f x = Some y) l js.
Proof.
  revert js. induction l as [|x rest IH]; intros js; cbn [marshalAll].
  - intros [= <-]. constructor.
  - destruct (f x) as [y|] eqn:E; [|done].
    destruct (marshalAll f rest) as [ys|]; [|done].
    intros [= <-]. constructor; [done | by apply IH].
Qed.

Lemma marshalAll_is_Some {A B : Type} (f : A → option B) (l : list A) :
  Forall (λ x, is_Some (f x)) l → is_Some (marshalAll f l).
Proof.
  induction 1 as [|x rest [y Hy] _ [ys IH]]; cbn [marshalAll]; [by eexists|].
  rewrite Hy, IH. by eexists.
Qed.

Lemma forallb_Forall2 {A B : Type} (R : A → B → Prop) (p : B → bool)
    (l : list A) (js : list B) :
  Forall2 R l js → Forall (λ x, ∀ y, R x y → p y = true) l → forallb p js = true.
Proof.
  induction 1 as [|x y l js Hxy _ IH]; [done|].
  intros H. apply Forall_cons in H as [Hx Hl]. cbn [forallb].
  rewrite (Hx y Hxy), (IH Hl). done.
Qed.

Lemma marshalConcurrencyResult_finite (r : ConcurrencyResult) (j : json) :
  marshalConcurrencyResult r = Some j → json_finite j = true.
Proof.
  unfold marshalConcurrencyResult. intros H.
  destruct (marshalFloat (GenerationThroughput r)) as [g|] eqn:E1; [|done].
  destruct (marshalFloat (PromptThroughput r)) as [p|] eqn:E2; [|done].
  destruct (marshalFloat (MinTTFT r)) as [lo|] eqn:E3; [|done].
  destruct (marshalFloat (MaxTTFT r)) as [hi|] eqn:E4; [|done].
  apply marshalFloat_Some in E1 as [-> F1], E2 as [-> F2], E3 as [-> F3], E4 as [-> F4].
  cbn in H. injection H as <-. cbn. by rewrite F1, F2, F3, F4.
Qed.

Lemma marshalResults_finite (l : list ConcurrencyResult) (js : list json) :
  marshalAll marshalConcurrencyResult l = Some js → forallb json_finite js = true.
Proof.
  intros H. apply marshalAll_Some in H.
  eapply forallb_Forall2; [exact H|].
  apply Forall_forall. intros r _ j. apply marshalConcurrencyResult_finite.
Qed.

Lemma marshalBenchmarkResult_finite (b : BenchmarkResult) (j : json) :
  marshalBenchmarkResult b = Some j → json_finite j = true.
Proof.
  unfold marshalBenchmarkResult. intros H.
  destruct (marshalAll marshalConcurrencyResult (Results b)) as [rs|] eqn:E; [|done].
  cbn in H. injection H as <-. cbn. by rewrite (marshalResults_finite _ _ E).
Qed.

Lemma marshalComparison_finite (c : Comparison) (j : json) :
  marshalComparison c = Some j → json_finite j = true.
Proof.
  unfold marshalComparison. intros H.
  destruct (marshalAll _ (Differences c)) as [ds|] eqn:E; [|done].
  cbn in H. injection H as <-. cbn. rewrite andb_true_r.
  apply marshalAll_Some in E.
  eapply forallb_Forall2; [exact E|].
  apply Forall_forall. intros kv _ y Hy. cbn in Hy.
  destruct (marshalFloat kv.2) as [d|] eqn:Ed; [|done].
  apply marshalFloat_Some in Ed as [-> Fd]. cbn in Hy. injection Hy as <-. done.
Qed.

Lemma omitempty_finite (key : string) (field : option (option json))
    (fields : list (string * json)) :
  omitempty key field = Some fields →
  (∀ j, field = Some (Some j) → json_finite j = true) →
  forallb (λ kv, json_finite kv.2) fields = true.
Proof.
  destruct field as [[j|]|]; cbn; [|done|].
  - intros [= <-] H. cbn. by rewrite (H j eq_refl).
  - by intros [= <-] _.
Qed.

Lemma marshalComparisonResponse_finite (r : ComparisonResponse) (j : json) :
  marshalComparisonResponse r = Some j → json_finite j = true.
Proof.
  unfold marshalComparisonResponse. intros H.
  destruct (match RespModel1 r with
            | Some b => marshalBenchmarkResult b
            | None => Some JNull
            end) as [m1|] eqn:E1; [|done].
  destruct (omitempty "model2" (marshalBenchmarkResult <$> RespModel2 r)) as [m2|] eqn:E2;
    [|done].
  destruct (omitempty "comparison" (marshalComparison <$> RespComparison r)) as [c|] eqn:E3;
    [|done].
  cbn in H. injection H as <-. cbn [json_finite forallb app snd].
  rewrite forallb_app.
  assert (F1 : json_finite m1 = true).
  { destruct (RespModel1 r); [by eapply marshalBenchmarkResult_finite|].
    by injection E1 as <-. }
  rewrite F1. cbn [andb].
  rewrite (omitempty_finite _ _ _ E2), (omitempty_finite _ _ _ E3); [done| |].
  - intros j Hj. destruct (RespComparison r) as [c0|]; [|done].
    cbn in Hj. injection Hj as Hj. by eapply marshalComparison_finite.
  - intros j Hj. destruct (RespModel2 r) as [b|]; [|done].
    cbn in Hj. injection Hj as Hj. by eapply marshalBenchmarkResult_finite.
Qed.

(** Whatever [json.Marshal] accepts holds no NaN and no infinity. *)
Lemma Marshal_finite (v : any) (j : json) :
  Marshal v = Some j → json_finite j = true.
Proof.
  revert j. induction v as [| | | | | |m IH|l IH| |] using any_ind; intros j H;
    cbn [Marshal] in H.
  - by injection H as <-.
  - by injection H as <-.
  - by injection H as <-.
  - by injection H as <-.
  - by apply marshalFloat_Some in H as [-> ?].
  - by apply marshalFloat_Some in H as [-> ?].
  - destruct (marshalAll _ m) as [js|] eqn:E; [|done].
    cbn in H. injection H as <-. cbn [json_finite].
    apply marshalAll_Some in E.
    eapply forallb_Forall2; [exact E|].
    eapply Forall_impl; [exact IH|]. intros kv Hkv y Hy. cbn in Hy.
    destruct (Marshal kv.2) as [jv|] eqn:Ev; [|done].
    injection Hy as <-. by apply Hkv.
  - destruct (marshalAll Marshal l) as [js|] eqn:E; [|done].
    cbn in H. injection H as <-. cbn [json_finite].
    apply marshalAll_Some in E.
    eapply forallb_Forall2; [exact E|].
    eapply Forall_impl; [exact IH|]. intros x Hx y Hy. by apply Hx.
  - destruct (marshalAll marshalConcurrencyResult l) as [js|] eqn:E; [|done].
    cbn in H. injection H as <-. cbn [json_finite].
    by apply marshalResults_finite in E.
  - by apply marshalComparisonResponse_finite in H.
Qed.

Lemma sanitizeAnyValue_nulled (v : any) : nulled v (sanitizeAnyValue v).
Proof.
  induction v as [|b|n|s|f|f|m IH|l IH|l|r] using any_ind; cbn [sanitizeAnyValue].
  - constructor.
  - cbn. constructor.
  - destruct (IsInf (float64 n) 0) eqn:E; by constructor.
  - destruct (printsAsInfOrNaN (VString s)) eqn:E; by constructor.
  - rewrite finite_negb. destruct (finite f) eqn:E; by constructor.
  - rewrite finite_negb. destruct (finite f) eqn:E; by constructor.
  - constructor. induction IH as [|kv rest Hkv _ IHrest]; cbn [map]; by constructor.
  - constructor. induction IH as [|x rest Hx _ IHrest]; cbn [map]; by constructor.
  - cbn. constructor.
  - cbn. constructor.
Qed.

(** A value that encodes as it is needs no replacement. *)
Lemma Marshal_nulled_refl (v : any) (j : json) : Marshal v = Some j → nulled v v.
Proof.
  revert j. induction v as [|b|n|s|f|f|m IH|l IH|l|r] using any_ind; intros j H;
    cbn [Marshal] in H; try by constructor.
  - apply marshalFloat_Some in H as [_ ?]. by constructor.
  - apply marshalFloat_Some in H as [_ ?]. by constructor.
  - constructor. destruct (marshalAll _ m) as [js|] eqn:E; [|done]. clear H.
    apply marshalAll_Some in E.
    induction E as [|kv y rest js Hy _ IHE]; [constructor|].
    apply Forall_cons in IH as [Hkv Hrest].
    constructor; [|by apply IHE]. split; [done|]. cbn in Hy.
    destruct (Marshal kv.2) as [jv|] eqn:Ev; [|done]. by eapply Hkv.
  - constructor. destruct (marshalAll Marshal l) as [js|] eqn:E; [|done]. clear H.
    apply marshalAll_Some in E.
    induction E as [|x y rest js Hy _ IHE]; [constructor|].
    apply Forall_cons in IH as [Hx Hrest].
    constructor; [by eapply Hx | by apply IHE].
Qed.

Lemma sanitizeFloatValue_nulled (v : any) (j : json) :
  Marshal (sanitizeFloatValue v) = Some j → nulled v (sanitizeFloatValue v).
Proof.
  destruct v as [|b|n|s|f|f|m|l|l|r]; cbn [sanitizeFloatValue];
    try (by apply Marshal_nulled_refl).
  - rewrite finite_negb. destruct (finite f) eqn:E; intros _; by constructor.
  - rewrite finite_negb. destruct (finite f) eqn:E; intros _; by constructor.
Qed.

(** Where the first pass of [ToJSON] yields a value that encodes, all the
    NaN and infinite floats of the original have become nil. *)
Lemma sanitizeEntry_nulled (v : any) (j : json) :
  Marshal (sanitizeEntry v) = Some j → nulled v (sanitizeEntry v).
Proof.
  revert j. induction v as [|b|n|s|f|f|m IH|l IH|l|r] using any_ind; intros j H;
    try (by eapply (sanitizeFloatValue_nulled _ j)).
  - cbn [sanitizeEntry] in *. constructor. cbn [Marshal] in H.
    destruct (marshalAll _ _) as [js|] eqn:E; [|done]. clear H.
    apply marshalAll_Some in E. revert js E.
    induction IH as [|kv rest Hkv _ IHrest]; intros js E; cbn [map] in *; [constructor|].
    inversion E as [|? y ? js' Hy Hrest]; subst.
    constructor; [|by eapply IHrest]. split; [done|]. cbn in Hy.
    destruct (Marshal (sanitizeEntry kv.2)) as [jv|] eqn:Ev; [|done]. by eapply Hkv.
  - cbn [sanitizeEntry] in *. constructor. cbn [Marshal] in H.
    destruct (marshalAll _ _) as [js|] eqn:E; [|done]. clear H.
    apply marshalAll_Some in E. revert js E.
    induction IH as [|x rest Hx _ IHrest]; intros js E; cbn [map] in *; [constructor|].
    inversion E as [|? y ? js' Hy Hrest]; subst.
    constructor; [|by eapply IHrest].
    destruct x as [|b|n|s|f|f|m|l0|l0|r]; try (by eapply (sanitizeFloatValue_nulled _ y)).
    by eapply (Hx y).
Qed.

(** The second pass of [ToJSON] always succeeds on a value without typed
    results. *)
Lemma sanitizeAnyValue_encodes (v : any) :
  interfaceTree v = true → is_Some (Marshal (sanitizeAnyValue v)).
Proof.
  induction v as [|b|n|s|f|f|m IH|l IH|l|r] using any_ind; intros H;
    cbn [sanitizeAnyValue interfaceTree] in *; try discriminate H.
  - by eexists.
  - by eexists.
  - destruct (IsInf (float64 n) 0); by eexists.
  - destruct (printsAsInfOrNaN (VString s)); by eexists.
  - rewrite finite_negb. destruct (finite f) eqn:E; cbn [negb Marshal]; [|by eexists].
    unfold marshalFloat. rewrite E. by eexists.
  - rewrite finite_negb. destruct (finite f) eqn:E; cbn [negb Marshal]; [|by eexists].
    unfold marshalFloat. rewrite E. by eexists.
  - cbn [Marshal].
    assert (Hall : is_Some (marshalAll
              (λ kv : string * any, match Marshal kv.2 with
                                    | Some j => Some (kv.1, j)
                                    | None => None
                                    end)
              (map (λ kv : string * any, (kv.1, sanitizeAnyValue kv.2)) m))).
    { apply marshalAll_is_Some, Forall_map.
      induction IH as [|kv rest Hkv _ IHrest]; [constructor|].
      cbn [forallb] in H. apply andb_prop in H as [H1 H2].
      constructor; [|by apply IHrest]. cbn. destruct (Hkv H1) as [jv ->]. by eexists. }
    destruct Hall as [js ->]. by eexists.
  - cbn [Marshal].
    assert (Hall : is_Some (marshalAll Marshal (map sanitizeAnyValue l))).
    { apply marshalAll_is_Some, Forall_map.
      induction IH as [|x rest Hx _ IHrest]; [constructor|].
      cbn [forallb] in H. apply andb_prop in H as [H1 H2].
      constructor; [by apply Hx | by apply IHrest]. }
    destruct Hall as [js ->]. by eexists.
Qed.

End Sanitisation.

(** ** [SimpleJob.ToJSON] *)

Section ToJSONFacts.
Import GoFloat Types Json Handlers Simple.

Lemma withResult_same (job : SimpleJob) : withResult job (Result job) = job.
Proof. by destruct job. Qed.

Lemma marshalModel_finite (m : Model) : json_finite (marshalModel m) = true.
Proof. unfold marshalModel. by destruct (String.eqb (APIKey m) ""). Qed.

Lemma marshalRequest_finite (r : BenchmarkRequest) : json_finite (marshalRequest r) = true.
Proof.
  unfold marshalRequest. cbn [json_finite app forallb snd].
  rewrite marshalModel_finite.
  assert (H2 : json_finite match Model2 r with
                           | Some m => marshalModel m
                           | None => JNull
                           end = true).
  { destruct (Model2 r); [apply marshalModel_finite | done]. }
  rewrite H2.
  assert (H3 : forallb json_finite (map JInt (ConcurrencyLevels r)) = true).
  { induction (ConcurrencyLevels r); [done | by cbn]. }
  rewrite H3. by destruct (NumWords r =? 0).
Qed.

(** The encoder fails on a job only through its result. *)
Lemma marshalJob_None (job : SimpleJob) :
  marshalJob job = None → Marshal (Result job) = None.
Proof.
  intros H. destruct (Marshal (Result job)) as [j|] eqn:EM; [|done]. exfalso.
  unfold marshalJob in H.
  destruct (Result job); cbv beta iota in H; try rewrite EM in H; cbn in H; done.
Qed.

Lemma marshalJob_Some (job : SimpleJob) (data : json) :
  marshalJob job = Some data →
  json_finite data = true ∧ nulled (Result job) (Result job).
Proof.
  unfold marshalJob. intros H.
  assert (Hres : ∃ res : list (string * json),
             match Result job with
             | VNil => Some []
             | r => j ← Marshal r; Some [("result", j)]
             end = Some res
             ∧ forallb (λ kv, json_finite kv.2) res = true
             ∧ nulled (Result job) (Result job)).
  { destruct (Marshal (Result job)) as [j|] eqn:EM.
    - pose proof (Marshal_finite _ _ EM) as Fj.
      pose proof (Marshal_nulled_refl _ _ EM) as Nj.
      destruct (Result job); cbv beta iota; try rewrite EM;
        first [ exists []; split; [reflexivity|]; split; [reflexivity | exact Nj]
              | exists [("result", j)]; split; [reflexivity|]; split;
                [cbn; by rewrite Fj | exact Nj] ].
    - destruct (Result job); cbv beta iota in H; try rewrite EM in H; cbn in H;
        first [done | exists []; split; [reflexivity|]; split; [reflexivity | constructor]]. }
  destruct Hres as (res & Eres & Fres & Nres). rewrite Eres in H. cbn in H.
  injection H as <-. split; [|done].
  cbn [json_finite forallb snd andb]. rewrite !forallb_app, Fres.
  pose proof (marshalRequest_finite (Request job)) as Freq.
  destruct (String.eqb (Error job) ""), (CompletedAt job);
    cbn [forallb snd json_finite andb app]; by rewrite Freq.
Qed.

Lemma marshalJob_minimal (job : SimpleJob) : is_Some (marshalJob (minimalJob job)).
Proof. unfold marshalJob, minimalJob. cbn. by eexists. Qed.

Lemma ToJSON_cases (job : SimpleJob) :
  ∃ data, ToJSON job = Some data
    ∧ ((∃ r, nulled (Result job) r ∧ marshalJob (withResult job r) = Some data)
       ∨ (marshalJob (minimalJob job) = Some data
          ∧ Marshal (sanitizeAnyValue (Result job)) = None)).
Proof.
  unfold ToJSON.
  remember (match Result job with
            | VMap resultMap => withResult job (VMap (sanitizeBenchmarkResult resultMap))
            | _ => job
            end) as jobCopy eqn:EC.
  assert (Hcopy : ∀ data, marshalJob jobCopy = Some data →
            ∃ r, nulled (Result job) r ∧ marshalJob (withResult job r) = Some data).
  { intros data E1. subst jobCopy.
    destruct (Result job) as [|b|n|s|f|f|m|l|l|r] eqn:ER.
    7: { exists (VMap (sanitizeBenchmarkResult m)). split; [|done].
         change (VMap (sanitizeBenchmarkResult m)) with (sanitizeEntry (VMap m)).
         unfold marshalJob in E1. cbn [withResult Result] in E1.
         destruct (Marshal (VMap (sanitizeBenchmarkResult m))) as [j|] eqn:EM; [|done].
         by eapply sanitizeEntry_nulled. }
    all: pose proof (marshalJob_Some _ _ E1) as [_ HN]; rewrite ER in HN;
      eexists; split; [exact HN|]; rewrite <- ER, withResult_same; exact E1. }
  destruct (marshalJob jobCopy) as [data|] eqn:E1.
  { exists data. split; [done|]. left. by apply Hcopy. }
  destruct (marshalJob (withResult job (sanitizeAnyValue (Result job)))) as [data|] eqn:E2.
  { exists data. split; [done|]. left. exists (sanitizeAnyValue (Result job)).
    split; [apply sanitizeAnyValue_nulled | done]. }
  destruct (marshalJob_minimal job) as [data E3]. exists data. split; [done|]. right.
  split; [done|]. apply marshalJob_None in E2. by destruct job.
Qed.

(** C4, as stated, fails where the synchronous handler builds its results:
    [sanitizeFloat] turns an infinite prompt throughput into the largest
    finite float (and minus infinity and NaN into 0), and that number, not
    null, is what the payload carries. *)
Lemma infinite_throughput_is_not_nulled :
  sanitizeFloat infinity = MaxFloat64
  ∧ sanitizeFloat neg_infinity = 0%float
  ∧ sanitizeFloat nan = 0%float
  ∧ marshalConcurrencyResult (sanitizedResult 1 instantRound) =
    Some (JObj [("concurrency", JInt 1); ("generationThroughput", JNum 12.5);
                ("promptThroughput", JNum MaxFloat64); ("minTtft", JNum 0);
                ("maxTtft", JNum 0)]).
Proof. vm_compute. repeat split. Qed.

(** C4, amended.  [ToJSON] always yields a payload, and no payload holds a
    NaN or an infinity.  The payload is either the job with its result in
    which every NaN and infinite float reached through maps and
    [[]interface{}] slices is nil, or, when the result cannot be encoded
    even after the second pass, the reduced job without result and with
    the explanatory error text; a result made of maps, slices and plain
    values only never falls back to the reduced job.  On the synchronous
    path [sanitizeFloat] yields a finite number in place of a NaN or an
    infinity, and leaves finite numbers alone. *)
Theorem ToJSON_payload_is_finite (job : SimpleJob) :
  (∃ data, ToJSON job = Some data ∧ json_finite data = true
     ∧ ((∃ r, nulled (Result job) r ∧ marshalJob (withResult job r) = Some data)
        ∨ (marshalJob (minimalJob job) = Some data
           ∧ Marshal (sanitizeAnyValue (Result job)) = None))
     ∧ (interfaceTree (Result job) = true →
        ∃ r, nulled (Result job) r ∧ marshalJob (withResult job r) = Some data))
  ∧ (∀ f, finite (sanitizeFloat f) = true ∧ (finite f = true → sanitizeFloat f = f)).
Proof.
  split; [|apply sanitizeFloat_finite].
  destruct (ToJSON_cases job) as (data & E & Hcases). exists data.
  split; [done|]. split.
  { destruct Hcases as [(r & _ & Hr) | [Hmin _]]; by eapply marshalJob_Some. }
  split; [done|]. intros Htree.
  destruct Hcases as [Hr | [_ Hnone]]; [done|].
  destruct (sanitizeAnyValue_encodes _ Htree) as [j Hj]. congruence.
Qed.

Lemma ToJSON_payload_is_finite_witness :
  ∃ data r, ToJSON roughJob = Some data ∧ nulled (Result roughJob) r
            ∧ marshalJob (withResult roughJob r) = Some data.
Proof.
  destruct (ToJSON_payload_is_finite roughJob) as [(data & E & _ & _ & H) _].
  destruct (H eq_refl) as (r & Hr & Hm).
  exists data, r. repeat split; assumption.
Defined.

Example ToJSON_roughJob :
  ToJSON roughJob =
  marshalJob (withResult roughJob
                (VMap [("latency", VNil);
                       ("figures", VSlice [VSlice [VNil; VFloat64 1.5]])])).
Proof. vm_compute. reflexivity. Qed.

End ToJSONFacts.

(** ** The registry of [SimpleJobManager] *)

Section SimpleRegistry.
Import GoFloat Types Json Simple.

Lemma running_not_terminal : ¬ terminal "running".
Proof. intros [H|[H|H]]; discriminate H. Qed.

Lemma eqb_running (s : string) : String.eqb s "running" = true ↔ s = "running"%string.
Proof. apply String.eqb_eq. Qed.

(** *** Each call keeps the completion times in step with the statuses *)

Lemma stamped_insert (jm : SimpleJobManager) (jobID : string) (job : SimpleJob)
    (n : Z) (c : gset nat) :
  stamped jm → stampedJob job →
  stamped {| jobs := <[jobID := job]> (jobs jm); activeJobCount := n; cancelled := c |}.
Proof. intros H Hj. unfold stamped in *. cbn [jobs]. by apply map_Forall_insert_2. Qed.

Lemma stamped_lookup (jm : SimpleJobManager) (jobID : string) (job : SimpleJob) :
  stamped jm → jobs jm !! jobID = Some job → stampedJob job.
Proof. intros H E. exact (map_Forall_lookup_1 _ _ _ _ H E). Qed.

Lemma stamped_ended (s : string) (now : Z) :
  terminal s → is_Some (Some now) ↔ terminal s.
Proof. intros H. split; [done | by eexists]. Qed.

Lemma CreateJob_stamped jm jobID request now :
  stamped jm → stamped (CreateJob jm jobID request now).1.
Proof.
  intros H. unfold CreateJob. cbn [fst]. apply stamped_insert; [done|].
  unfold stampedJob. cbn. split; [by intros [? ?] | by intros ?%running_not_terminal].
Qed.

Lemma SetJobContext_stamped jm jobID c cancel :
  stamped jm → stamped (SetJobContext jm jobID c cancel).
Proof.
  intros H. unfold SetJobContext. destruct (jobs jm !! jobID) as [job|] eqn:E; [|done].
  apply stamped_insert; [done|]. exact (stamped_lookup _ _ _ H E).
Qed.

Lemma UpdateJobProgress_stamped jm jobID progress message :
  stamped jm → stamped (UpdateJobProgress jm jobID progress message).
Proof.
  intros H. unfold UpdateJobProgress. destruct (jobs jm !! jobID) as [job|] eqn:E; [|done].
  apply stamped_insert; [done|]. exact (stamped_lookup _ _ _ H E).
Qed.

Lemma CompleteJob_stamped jm jobID result now :
  stamped jm → stamped (CompleteJob jm jobID result now).
Proof.
  intros H. unfold CompleteJob. destruct (jobs jm !! jobID) as [job|] eqn:E; [|done].
  apply stamped_insert; [done|]. apply stamped_ended. by left.
Qed.

Lemma FailJob_stamped jm jobID errorMsg now :
  stamped jm → stamped (FailJob jm jobID errorMsg now).
Proof.
  intros H. unfold FailJob. destruct (jobs jm !! jobID) as [job|] eqn:E; [|done].
  apply stamped_insert; [done|]. apply stamped_ended. by right; left.
Qed.

Lemma CancelJob_stamped jm jobID now :
  stamped jm → stamped (CancelJob jm jobID now).1.
Proof.
  intros H. unfold CancelJob. destruct (jobs jm !! jobID) as [job|] eqn:E; [|done].
  destruct (cancelFunc job); [|done].
  destruct (String.eqb (Status job) "running"); [|done].
  cbn [fst]. apply stamped_insert; [done|]. apply stamped_ended. by right; right.
Qed.

Lemma RemoveJob_stamped jm jobID : stamped jm → stamped (RemoveJob jm jobID).
Proof.
  intros H. unfold RemoveJob. destruct (jobs jm !! jobID) as [job|] eqn:E; [|done].
  unfold stamped in *. cbn [jobs]. by apply map_Forall_delete.
Qed.

Lemma CleanupOldJobs_stamped jm now : stamped jm → stamped (CleanupOldJobs jm now).
Proof.
  intros H. unfold CleanupOldJobs, stamped, setJobs in *. cbn [jobs].
  intros i x Hx. apply map_lookup_filter_Some in Hx as [Hx _]. by eapply H.
Qed.

Lemma call_stamped jm timed : notAddJob timed → stamped jm → stamped (call jm timed).
Proof.
  destruct timed as [now c]. unfold notAddJob, call. cbn [fst snd].
  destruct c; intros Hc H; try done.
  - by apply CreateJob_stamped.
  - by apply SetJobContext_stamped.
  - by apply UpdateJobProgress_stamped.
  - by apply CompleteJob_stamped.
  - by apply FailJob_stamped.
  - by apply CancelJob_stamped.
  - by apply RemoveJob_stamped.
  - by apply CleanupOldJobs_stamped.
Qed.

Lemma calls_stamped jm l : Forall notAddJob l → stamped jm → stamped (calls jm l).
Proof.
  unfold calls. intros Hl. revert jm.
  induction Hl as [|timed rest Ht _ IH]; intros jm H; cbn [fold_left]; [done|].
  by apply IH, call_stamped.
Qed.

Lemma runLevels_stamped w jobID request second model latency totalSteps offset
    i levels results jm :
  worldWithoutAddJob w → stamped jm →
  stamped (runLevels w jobID request second model latency totalSteps offset i
             levels results jm).1.
Proof.
  intros (Hs & Hb & Hr & Hc). revert i results jm.
  induction levels as [|concurrency rest IH]; intros i results jm H;
    cbn [runLevels]; [done|].
  pose proof (calls_stamped _ _ (Hb (offset + i)%nat) H) as H1.
  destruct (Done _ _); cbn [fst]; [by apply FailJob_stamped|].
  destruct (String.eqb _ ""); cbn [fst].
  { by apply FailJob_stamped, UpdateJobProgress_stamped. }
  destruct (Run w (offset + i)) as [result|err].
  - apply IH. by apply calls_stamped, UpdateJobProgress_stamped.
  - cbn [fst]. by apply FailJob_stamped, calls_stamped, UpdateJobProgress_stamped.
Qed.

Lemma RunBenchmark_stamped jm jobID request w :
  worldWithoutAddJob w → stamped jm → stamped (RunBenchmark jm jobID request w).
Proof.
  intros Hw H. pose proof Hw as (Hs & Hb & Hr & Hc). unfold RunBenchmark.
  assert (H0 : stamped
            (UpdateJobProgress
               (UpdateJobProgress
                  (calls (SetJobContext jm jobID (newContext w) (newContext w))
                     (whileSleeping w)) jobID 10 "Initializing benchmark...")
               jobID 20 "Testing latency...")).
  { by apply UpdateJobProgress_stamped, UpdateJobProgress_stamped, calls_stamped,
      SetJobContext_stamped. }
  destruct (if vcapServices w then Ok 0%float else MeasureLatency w) as [latency|err];
    [|by apply FailJob_stamped].
  match goal with
  | |- context [runLevels ?w ?j ?r false ?m ?la ?t ?o ?i ?l ?rs ?s] =>
    pose proof (runLevels_stamped w j r false m la t o i l rs s Hw H0) as H1;
    destruct (runLevels w j r false m la t o i l rs s) as [jm1 [results1|]]
  end; cbn [fst] in H1; [|done].
  destruct (Model2 request) as [m2|].
  - match goal with
    | |- context [runLevels ?w ?j ?r true ?m ?la ?t ?o ?i ?l ?rs ?s] =>
      pose proof (runLevels_stamped w j r true m la t o i l rs s Hw H1) as H2;
      destruct (runLevels w j r true m la t o i l rs s) as [jm2 [results2|]]
    end; cbn [fst] in H2; [|done].
    by apply CompleteJob_stamped, UpdateJobProgress_stamped, calls_stamped.
  - by apply CompleteJob_stamped, UpdateJobProgress_stamped, calls_stamped.
Qed.

Lemma reachable_stamped jm : reachable jm → stamped jm.
Proof.
  induction 1 as [|jm timed _ IH Ht|jm jobID request w _ IH Hw].
  - unfold stamped. cbn. apply map_Forall_empty.
  - by apply call_stamped.
  - by apply RunBenchmark_stamped.
Qed.

End SimpleRegistry.

(** ** The registry of [JobManager] *)

Section AsyncRegistry.
Import GoFloat Types Json Tracker Async.

Lemma queued_not_terminal : ¬ terminal "queued".
Proof. intros [H|[H|H]]; discriminate H. Qed.

Lemma stampedAsync_insert (jm : JobManager) (jobID : string) (job : BenchmarkJob)
    (h : list WebSocketMessage) :
  stampedAsync jm → stampedAsyncJob job →
  stampedAsync {| jobs := <[jobID := job]> (jobs jm); hub := h |}.
Proof. intros H Hj. unfold stampedAsync in *. cbn [jobs]. by apply map_Forall_insert_2. Qed.

Lemma stampedAsync_lookup (jm : JobManager) (jobID : string) (job : BenchmarkJob) :
  stampedAsync jm → jobs jm !! jobID = Some job → stampedAsyncJob job.
Proof. intros H E. exact (map_Forall_lookup_1 _ _ _ _ H E). Qed.

Lemma Async_CreateJob_stamped jm jobID request now :
  stampedAsync jm → stampedAsync (CreateJob jm jobID request now).1.
Proof.
  intros H. unfold CreateJob. cbn [fst]. apply stampedAsync_insert; [done|].
  unfold stampedAsyncJob. cbn. split; [by intros [? ?] | by intros ?%queued_not_terminal].
Qed.

Lemma Async_StartJob_stamped jm jobID now :
  stampedAsync jm → stampedAsync (StartJob jm jobID now).1.
Proof.
  intros H. unfold StartJob. destruct (jobs jm !! jobID) as [job|] eqn:E; [|done].
  destruct (String.eqb (Status job) "queued") eqn:Eq; cbn [negb fst]; [|done].
  apply stampedAsync_insert; [done|].
  pose proof (stampedAsync_lookup _ _ _ H E) as Hj. apply String.eqb_eq in Eq.
  unfold stampedAsyncJob in *. cbn. rewrite Eq in Hj.
  split; [by intros ?%Hj%queued_not_terminal | by intros ?%running_not_terminal].
Qed.

Lemma Async_CancelJob_stamped jm jobID now :
  stampedAsync jm → stampedAsync (CancelJob jm jobID now).1.
Proof.
  intros H. unfold CancelJob. destruct (jobs jm !! jobID) as [job|] eqn:E; [|done].
  destruct (String.eqb (Status job) "running"); cbn [negb fst]; [|done].
  destruct (Cancel _ _ _) as [pt out]. cbn [fst].
  apply stampedAsync_insert; [done|]. unfold stampedAsyncJob. cbn.
  split; [by right; right | by eexists].
Qed.

Lemma Async_CleanupOldJobs_stamped jm maxAge now :
  stampedAsync jm → stampedAsync (CleanupOldJobs jm maxAge now).
Proof.
  intros H. unfold CleanupOldJobs, stampedAsync in *. cbn [jobs].
  intros i x Hx. apply map_lookup_filter_Some in Hx as [Hx _]. by eapply H.
Qed.

Lemma Async_call_stamped jm timed : stampedAsync jm → stampedAsync (call jm timed).
Proof.
  destruct timed as [now c]. unfold call. cbn [fst snd]. destruct c; intros H.
  - by apply Async_CreateJob_stamped.
  - by apply Async_StartJob_stamped.
  - by apply Async_CancelJob_stamped.
  - by apply Async_CleanupOldJobs_stamped.
Qed.

Lemma Async_calls_stamped jm l : stampedAsync jm → stampedAsync (calls jm l).
Proof.
  unfold calls. revert jm. induction l as [|timed rest IH]; intros jm H;
    cbn [fold_left]; [done|]. by apply IH, Async_call_stamped.
Qed.

Lemma track_stamped jobID f jm : stampedAsync jm → stampedAsync (track jobID f jm).
Proof.
  intros H. unfold track. destruct (jobs jm !! jobID) as [job|] eqn:E; [|done].
  destruct (f (Progress job)) as [pt out].
  apply stampedAsync_insert; [done|]. exact (stampedAsync_lookup _ _ _ H E).
Qed.

Lemma finishJob_stamped jm jobID outcome now :
  stampedAsync jm → stampedAsync (finishJob jm jobID outcome now).
Proof.
  intros H. unfold finishJob. destruct (jobs jm !! jobID) as [job|] eqn:E; [|done].
  destruct outcome as [results|err].
  - destruct (Complete _ _ _) as [pt out]. apply stampedAsync_insert; [done|].
    unfold stampedAsyncJob. cbn. split; [by left | by eexists].
  - destruct (Fail _ _ _ _) as [pt out]. apply stampedAsync_insert; [done|].
    unfold stampedAsyncJob. cbn. split; [by right; left | by eexists].
Qed.

(** *** The computations of the goroutine *)

Lemma keeps_ret {A : Type} (a : A) : keeps (mret a).
Proof. by intros jm n H. Qed.

Lemma keeps_bind {A B : Type} (m : M A) (k : A → M B) :
  keeps m → (∀ a, keeps (k a)) → keeps (m ≫= k).
Proof.
  intros Hm Hk jm n H. unfold mbind, M_bind, bind.
  pose proof (Hm jm n H) as H1.
  destruct (m jm n) as [[jm1 n1] [a|err|r]]; cbn [fst] in *; [by apply Hk | done | done].
Qed.

Lemma keeps_wrapError {A : Type} (prefix : string) (m : M A) :
  keeps m → keeps (wrapError prefix m).
Proof.
  intros Hm jm n H. unfold wrapError. pose proof (Hm jm n H) as H1.
  by destruct (m jm n) as [[jm1 n1] [a|err|r]].
Qed.

Lemma keeps_checkCancel w jobID err : keeps (checkCancel w jobID err).
Proof.
  intros jm n H. unfold checkCancel.
  pose proof (Async_calls_stamped _ (beforeCheck w n) H) as H1.
  destruct (jobs (calls jm (beforeCheck w n)) !! jobID) as [job|] eqn:E; [|done].
  destruct (cancelChan job); [|done]. cbn [fst].
  apply stampedAsync_insert; [done|]. exact (stampedAsync_lookup _ _ _ H1 E).
Qed.

Lemma keeps_progress w jobID step model concurrency currentStep :
  keeps (progress w jobID step model concurrency currentStep).
Proof. intros jm n H. unfold progress. cbn [fst]. by apply track_stamped. Qed.

Lemma keeps_runEngine w step : keeps (runEngine w step).
Proof. intros jm n H. unfold runEngine. by destruct (Run w step). Qed.

Lemma keeps_timeNow w : keeps (timeNow w).
Proof. by intros jm n H. Qed.

Lemma keeps_panic {A : Type} (r : string) : keeps (@panic A r).
Proof. by intros jm n H. Qed.

Lemma keeps_runConcurrencyBenchmark w jobID model concurrency step :
  keeps (runConcurrencyBenchmark w jobID model concurrency step).
Proof.
  unfold runConcurrencyBenchmark.
  apply keeps_bind; [apply keeps_progress | intros _].
  apply keeps_bind; [apply keeps_runEngine | intros result].
  apply keeps_bind; [apply keeps_progress | intros _]. apply keeps_ret.
Qed.

Lemma keeps_runLevels w jobID model levels step results :
  keeps (Async.runLevels w jobID model levels step results).
Proof.
  revert step results. induction levels as [|concurrency rest IH]; intros step results;
    cbn [Async.runLevels]; [apply keeps_ret|].
  apply keeps_bind; [apply keeps_checkCancel | intros _].
  apply keeps_bind; [apply keeps_progress | intros _].
  apply keeps_bind; [apply keeps_wrapError, keeps_runConcurrencyBenchmark | intros result].
  apply IH.
Qed.

Lemma keeps_runSingleModelBenchmark w jobID model levels step :
  keeps (runSingleModelBenchmark w jobID model levels step).
Proof.
  unfold runSingleModelBenchmark.
  apply keeps_bind; [apply keeps_runLevels | intros rs].
  apply keeps_bind; [apply keeps_timeNow | intros now]. apply keeps_ret.
Qed.

Lemma keeps_runBenchmarkWithProgress w jobID request :
  keeps (runBenchmarkWithProgress w jobID request).
Proof.
  unfold runBenchmarkWithProgress.
  apply keeps_bind; [apply keeps_checkCancel | intros _].
  apply keeps_bind; [apply keeps_progress | intros _].
  apply keeps_bind; [apply keeps_wrapError, keeps_runSingleModelBenchmark | intros r1].
  apply keeps_bind; [apply keeps_checkCancel | intros _].
  destruct (Model2 request) as [m2|]; [|apply keeps_ret].
  apply keeps_bind; [apply keeps_progress | intros _].
  apply keeps_bind; [apply keeps_wrapError, keeps_runSingleModelBenchmark | intros r2].
  apply keeps_bind; [apply keeps_checkCancel | intros _].
  apply keeps_bind; [apply keeps_progress | intros _]. apply keeps_panic.
Qed.

Lemma executeJob_stamped w jm jobID :
  stampedAsync jm → stampedAsync (executeJob w jm jobID).
Proof.
  intros H. unfold executeJob. destruct (jobs jm !! jobID) as [job|] eqn:E; [|done].
  match goal with
  | |- context [runBenchmarkWithProgress ?w ?j ?r ?s ?n] =>
    assert (H1 : stampedAsync (runBenchmarkWithProgress w j r s n).1.1)
      by (by apply keeps_runBenchmarkWithProgress, track_stamped);
    destruct (runBenchmarkWithProgress w j r s n) as [[jm1 n1] [results|err|r0]]
  end; cbn [fst] in H1.
  - by apply finishJob_stamped.
  - by apply finishJob_stamped.
  - by apply track_stamped.
Qed.

Lemma reachableAsync_stamped jm : reachableAsync jm → stampedAsync jm.
Proof.
  induction 1 as [|jm timed _ IH|jm w jobID _ IH].
  - unfold stampedAsync. cbn. apply map_Forall_empty.
  - by apply Async_call_stamped.
  - by apply executeJob_stamped.
Qed.

End AsyncRegistry.

(** ** Cancellation *)

Section Cancellation.
Import GoFloat Types Json.

Lemma wrap_small (z : Z) : - 2 ^ 63 ≤ z < 2 ^ 63 → wrap z = z.
Proof. intros H. unfold wrap. rewrite Z.mod_small; lia. Qed.

(** C5.  [CancelJob] answers true only for a job that is in the registry
    with status running (and with a cancel function installed); it then
    cancels the job's context, marks the job cancelled at the time of the
    call and takes one off the active counter, leaving the other jobs
    alone.  For a job that is unknown or not running it answers false and
    the registry is the one it was.  The WebSocket registry does the same
    with an error in place of false. *)
Theorem CancelJob_only_while_running (jm : Simple.SimpleJobManager)
    (am : Async.JobManager) (jobID : string) (now : Z) :
  (∀ jm', Simple.CancelJob jm jobID now = (jm', true) →
     ∃ job cancel,
       Simple.jobs jm !! jobID = Some job
       ∧ Simple.Status job = "running"%string
       ∧ Simple.cancelFunc job = Some cancel
       ∧ cancel ∈ Simple.cancelled jm'
       ∧ (∃ job', Simple.jobs jm' !! jobID = Some job'
                  ∧ Simple.Status job' = "cancelled"%string
                  ∧ Simple.CompletedAt job' = Some now)
       ∧ Simple.activeJobCount jm' = wrap (Simple.activeJobCount jm - 1)
       ∧ ∀ other, other ≠ jobID → Simple.jobs jm' !! other = Simple.jobs jm !! other)
  ∧ (Simple.jobs jm !! jobID = None
     ∨ (∃ job, Simple.jobs jm !! jobID = Some job
               ∧ Simple.Status job ≠ "running"%string) →
     Simple.CancelJob jm jobID now = (jm, false))
  ∧ (∀ am', Async.CancelJob am jobID now = (am', None) →
     ∃ job job',
       Async.jobs am !! jobID = Some job ∧ Async.Status job = "running"%string
       ∧ Async.jobs am' !! jobID = Some job'
       ∧ Async.Status job' = "cancelled"%string ∧ Async.cancelChan job' = true)
  ∧ (Async.jobs am !! jobID = None
     ∨ (∃ job, Async.jobs am !! jobID = Some job
               ∧ Async.Status job ≠ "running"%string) →
     ∃ err, Async.CancelJob am jobID now = (am, Some err)).
Proof.
  split; [|split; [|split]].
  - intros jm'. unfold Simple.CancelJob.
    destruct (Simple.jobs jm !! jobID) as [job|] eqn:E; [|done].
    destruct (Simple.cancelFunc job) as [cancel|] eqn:Ec; [|done].
    destruct (String.eqb (Simple.Status job) "running") eqn:Es; [|done].
    intros [= <-]. apply String.eqb_eq in Es. exists job, cancel.
    cbn [Simple.jobs Simple.cancelled Simple.activeJobCount].
    repeat split; try done.
    + set_solver.
    + eexists. rewrite lookup_insert_eq. split; [done|]. by split.
    + intros other Hne. by rewrite lookup_insert_ne.
  - unfold Simple.CancelJob. intros [-> | (job & -> & Hs)]; [done|].
    destruct (Simple.cancelFunc job); [|done].
    destruct (String.eqb (Simple.Status job) "running") eqn:Es; [|done].
    by apply String.eqb_eq in Es.
  - intros am'. unfold Async.CancelJob.
    destruct (Async.jobs am !! jobID) as [job|] eqn:E; [|done].
    destruct (String.eqb (Async.Status job) "running") eqn:Es; cbn [negb]; [|done].
    destruct (Tracker.Cancel _ _ _) as [pt out]. intros [= <-].
    apply String.eqb_eq in Es. eexists job, _. cbn [Async.jobs].
    rewrite lookup_insert_eq. by repeat split.
  - unfold Async.CancelJob. intros [-> | (job & -> & Hs)]; [by eexists|].
    destruct (String.eqb (Async.Status job) "running") eqn:Es; cbn [negb]; [|by eexists].
    by apply String.eqb_eq in Es.
Qed.

Lemma CancelJob_only_while_running_witness :
  (∃ job cancel,
     Simple.jobs contextJob !! "job-1" = Some job
     ∧ Simple.Status job = "running"%string
     ∧ Simple.cancelFunc job = Some cancel
     ∧ cancel ∈ Simple.cancelled cancelledJob
     ∧ (∃ job', Simple.jobs cancelledJob !! "job-1" = Some job'
                ∧ Simple.Status job' = "cancelled"%string
                ∧ Simple.CompletedAt job' = Some (atSecond 5))
     ∧ Simple.activeJobCount cancelledJob = wrap (Simple.activeJobCount contextJob - 1)
     ∧ ∀ other, other ≠ "job-1" →
         Simple.jobs cancelledJob !! other = Simple.jobs contextJob !! other)
  ∧ Simple.CancelJob cancelledJob "job-1" (atSecond 6) = (cancelledJob, false)
  ∧ Simple.CancelJob contextJob "job-7" (atSecond 6) = (contextJob, false).
Proof.
  split; [|split].
  - apply (CancelJob_only_while_running contextJob Async.NewJobManager "job-1" (atSecond 5)).
    vm_compute. reflexivity.
  - apply (CancelJob_only_while_running cancelledJob Async.NewJobManager "job-1" (atSecond 6)).
    right. eexists. split; [vm_compute; reflexivity|]. vm_compute. discriminate.
  - apply (CancelJob_only_while_running contextJob Async.NewJobManager "job-7" (atSecond 6)).
    left. vm_compute. reflexivity.
Defined.

(** C6, as stated, fails: a cancellation requested for the job that has
    just been created is turned down and the job is still queued. *)
Lemma cancel_before_start_is_refused :
  Async.CancelJob queuedJob "job-1" (atSecond 1)
  = (queuedJob, Some "job job-1 is not running (current: queued)"%string)
  ∧ Async.Status <$> Async.jobs queuedJob !! "job-1" = Some "queued"%string.
Proof. vm_compute. split; reflexivity. Qed.

(** C6, amended.  A cancellation requested after [CreateJob] and before
    [StartJob] is refused with an error and changes nothing: the job stays
    queued, with no result and no completion time, and [StartJob] still
    starts it. *)
Theorem CancelJob_before_StartJob (jm : Async.JobManager) (jobID : string)
    (request : BenchmarkRequest) (created asked started : Z) :
  let jm1 := (Async.CreateJob jm jobID request created).1 in
  Async.CancelJob jm1 jobID asked
  = (jm1, Some ("job " +:+ jobID +:+ " is not running (current: queued)"))
  ∧ (∃ job, Async.jobs jm1 !! jobID = Some job
            ∧ Async.Status job = "queued"%string ∧ Async.Results job = VNil
            ∧ Async.CompletedAt job = None ∧ Async.cancelChan job = false)
  ∧ (Async.StartJob jm1 jobID started).2 = None.
Proof.
  cbn zeta. unfold Async.CancelJob, Async.StartJob, Async.CreateJob. cbn [fst Async.jobs].
  rewrite lookup_insert_eq. cbn [Async.Status String.eqb Ascii.eqb Bool.eqb negb snd].
  split; [done|]. split; [|done]. eexists. by repeat split.
Qed.

End Cancellation.

(** ** Completion times *)

Section CompletionTimes.
Import GoFloat Types Json.

Lemma reachable_calls (jm : Simple.SimpleJobManager) (l : list (Z * Simple.Call)) :
  Forall notAddJob l → reachable jm → reachable (Simple.calls jm l).
Proof.
  unfold Simple.calls. intros Hl. revert jm.
  induction Hl as [|timed rest Ht _ IH]; intros jm H; cbn [fold_left]; [done|].
  apply IH. by constructor.
Qed.

Lemma reachableAsync_calls (jm : Async.JobManager) (l : list (Z * Async.Call)) :
  reachableAsync jm → reachableAsync (Async.calls jm l).
Proof.
  unfold Async.calls. revert jm.
  induction l as [|timed rest IH]; intros jm H; cbn [fold_left]; [done|].
  apply IH. by constructor.
Qed.

(** C10, as stated, fails: [AddJob] marks a job running again and leaves
    the completion time it had. *)
Lemma AddJob_revives_a_completed_job :
  ∃ job,
    Simple.jobs
      (Simple.calls Simple.NewSimpleJobManager
         [(0, Simple.CallCreateJob "job-1" helloRequest);
          (atSecond 9, Simple.CallCompleteJob "job-1" VNil);
          (atSecond 10, Simple.CallAddJob "job-1" 2%nat 2%nat)]) !! "job-1" = Some job
    ∧ Simple.Status job = "running"%string
    ∧ Simple.CompletedAt job = Some (atSecond 9).
Proof. eexists. vm_compute. repeat split. Qed.

(** C10, amended.  In every registry that calls other than [AddJob] and
    benchmark runs produce, and in every registry of the WebSocket
    variant, a job has a completion time exactly when its status is
    completed, failed or cancelled. *)
Theorem CompletedAt_iff_terminal :
  (∀ jm jobID job,
     reachable jm → Simple.jobs jm !! jobID = Some job →
     is_Some (Simple.CompletedAt job) ↔ terminal (Simple.Status job))
  ∧ (∀ jm jobID job,
       reachableAsync jm → Async.jobs jm !! jobID = Some job →
       is_Some (Async.CompletedAt job) ↔ terminal (Async.Status job)).
Proof.
  split.
  - intros jm jobID job Hr E. exact (stamped_lookup _ _ _ (reachable_stamped _ Hr) E).
  - intros jm jobID job Hr E.
    exact (stampedAsync_lookup _ _ _ (reachableAsync_stamped _ Hr) E).
Qed.

Lemma CompletedAt_iff_terminal_witness :
  (∃ job, Simple.jobs cancelledJob !! "job-1" = Some job
          ∧ (is_Some (Simple.CompletedAt job) ↔ terminal (Simple.Status job)))
  ∧ (∃ job, Async.jobs stoppedJob !! "job-1" = Some job
            ∧ (is_Some (Async.CompletedAt job) ↔ terminal (Async.Status job))).
Proof.
  split.
  - eexists. split; [vm_compute; reflexivity|].
    apply (proj1 CompletedAt_iff_terminal cancelledJob "job-1").
    + apply reachable_calls; [repeat constructor|].
      apply reachable_calls; [repeat constructor | constructor].
    + vm_compute. reflexivity.
  - eexists. split; [vm_compute; reflexivity|].
    apply (proj2 CompletedAt_iff_terminal stoppedJob "job-1").
    + repeat apply reachableAsync_calls. constructor.
    + vm_compute. reflexivity.
Defined.

End CompletionTimes.

(** ** What the code does against the life cycle *)

Section LifeCycleDefects.
Import GoFloat Types Json.

Lemma FailJob_job (jm : Simple.SimpleJobManager) (jobID errorMsg : string) (now : Z)
    (job : Simple.SimpleJob) :
  Simple.jobs jm !! jobID = Some job →
  ∃ job', Simple.jobs (Simple.FailJob jm jobID errorMsg now) !! jobID = Some job'
          ∧ Simple.Status job' = "failed"%string
          ∧ Simple.Message job' = "Benchmark failed"%string
          ∧ Simple.Error job' = errorMsg.
Proof.
  intros E. unfold Simple.FailJob. rewrite E. cbn [Simple.jobs].
  rewrite lookup_insert_eq. eexists. by repeat split.
Qed.

(** Whenever the cancellation check at the head of a round finds the
    context cancelled, the run ends the job through [FailJob]: whatever its
    status was, it is failed afterwards, with the general failure
    message. *)
Lemma runLevels_observes_cancellation w jobID request second model latency
    totalSteps offset i concurrency rest results jm job :
  let jm1 := Simple.calls jm (Simple.beforeCheck w (offset + i)) in
  Simple.Done jm1 (Simple.newContext w) = true →
  Simple.jobs jm1 !! jobID = Some job →
  ∃ jm2 job',
    Simple.runLevels w jobID request second model latency totalSteps offset i
      (concurrency :: rest) results jm = (jm2, None)
    ∧ Simple.jobs jm2 !! jobID = Some job'
    ∧ Simple.Status job' = "failed"%string
    ∧ Simple.Message job' = "Benchmark failed"%string
    ∧ Simple.Error job' = "Job cancelled by user"%string.
Proof.
  intros jm1 Hd E. cbn [Simple.runLevels]. fold jm1. rewrite Hd.
  destruct (FailJob_job jm1 jobID "Job cancelled by user" (Simple.clock w) job E)
    as (job' & E' & Hs).
  by exists (Simple.FailJob jm1 jobID "Job cancelled by user" (Simple.clock w)), job'.
Qed.

(** C1.  A job that is cancelled does not stay so: [FailJob] and
    [CompleteJob] write their status over it, and so does the tail of
    [executeJob] in the WebSocket registry. *)
Theorem terminal_status_is_overwritten :
  Simple.Status <$> Simple.jobs cancelledJob !! "job-1" = Some "cancelled"%string
  ∧ Simple.Status <$>
      Simple.jobs (Simple.FailJob cancelledJob "job-1" "Job cancelled by user" (atSecond 6))
        !! "job-1" = Some "failed"%string
  ∧ Simple.Status <$>
      Simple.jobs (Simple.CompleteJob cancelledJob "job-1" VNil (atSecond 6))
        !! "job-1" = Some "completed"%string
  ∧ Async.Status <$> Async.jobs stoppedJob !! "job-1" = Some "cancelled"%string
  ∧ Async.Status <$>
      Async.jobs (Async.executeJob (calmWorld steadyRound) stoppedJob "job-1")
        !! "job-1" = Some "failed"%string.
Proof. vm_compute. repeat split. Qed.

(** C2.  The user cancels job-1 after its first round; the run meets the
    cancelled context at its next check and the job ends failed, with the
    message of every failure, the text of the cancellation being kept in
    the error field only.  A cancellation that interrupts a round ends the
    job failed as well, through the error of the round. *)
Theorem observed_cancellation_ends_as_failure :
  (∃ job,
     Simple.jobs (Simple.RunBenchmark oneJob "job-1" helloRequest cancellingWorld)
       !! "job-1" = Some job
     ∧ Simple.Status job = "failed"%string
     ∧ Simple.Message job = "Benchmark failed"%string
     ∧ Simple.Error job = "Job cancelled by user"%string
     ∧ Simple.Result job = VNil)
  ∧ (∃ job,
       Simple.jobs (Simple.RunBenchmark oneJob "job-1" helloRequest interruptingWorld)
         !! "job-1" = Some job
       ∧ Simple.Status job = "failed"%string
       ∧ Simple.Message job = "Benchmark failed"%string
       ∧ Simple.Error job
         = "Benchmark failed for concurrency 1: context canceled"%string).
Proof. split; eexists; vm_compute; repeat split. Qed.

(** C3.  The counter and the number of running jobs part ways: removing a
    completed job takes one off the counter while another job runs; the
    hourly cleanup drops a running job and leaves the counter; failing a
    job that was cancelled takes one off a second time, which is what a
    run does when it meets the cancellation of its job. *)
Theorem active_count_leaves_running_count :
  (let jm := Simple.RemoveJob (Simple.CompleteJob twoJobs "job-1" VNil (atSecond 2)) "job-1" in
   Simple.GetActiveJobCount jm = 0 ∧ Simple.runningJobs jm = 1)
  ∧ (let jm := Simple.CleanupOldJobs oneJob (atSecond 7200) in
     Simple.GetActiveJobCount jm = 1 ∧ Simple.runningJobs jm = 0)
  ∧ (let jm :=
       Simple.FailJob
         (Simple.CancelJob (Simple.SetJobContext twoJobs "job-1" 1 1) "job-1" (atSecond 5)).1
         "job-1" "Job cancelled by user" (atSecond 6) in
     Simple.GetActiveJobCount jm = 0 ∧ Simple.runningJobs jm = 1)
  ∧ (let jm := Simple.RunBenchmark twoJobs "job-1" helloRequest cancellingWorld in
     Simple.GetActiveJobCount jm = 0 ∧ Simple.runningJobs jm = 1).
Proof. vm_compute. repeat split. Qed.

End LifeCycleDefects.

(** ** The progress tracker *)

Section TrackerFacts.
Import GoFloat Types Json Tracker.











End TrackerFacts.
